(** * The language client core of vscode-languageclient

    A shallow embedding of [client/src/common/client.ts]: the default
    error handler, the handler registry, the start / initialize / stop
    life cycle, the diagnostics queue, dynamic registration, workspace-edit
    application and failed-request handling, the close and error handlers
    of the connection, the sending methods, the idle check and the wrapper
    around the protocol connection, with the properties the specification
    states about them and further properties of the code.

    Conventions of the embedding.
    - A JavaScript [Map] is an insertion-ordered association list ([JSMap]):
      iteration order is part of what the code relies on
      ([entries().next()] in the diagnostics queue).
    - JavaScript numbers that the code uses as counters, versions and
      millisecond timestamps are integers ([Z]); [undefined] and [null] are
      [None].
    - An [async] method is a function from the client and the outcomes of
      the operations it awaits (given by an environment record) to its
      settlement and the new client.  What a method asks of the connection,
      the features and the host is appended to the client's [effects].
      Fire-and-forget calls ([void this.stop()]) are recorded as [Spawn]
      effects and not run.
    - The error handler of the client options and the field
      [_didChangeTextDocumentFeature] are threaded beside the client. *)

From stdpp Require Import base tactics option list strings numbers pretty.
From Stdlib Require Import ZArith Lia.

Open Scope Z_scope.

(** ** Insertion-ordered maps *)

Module JSMap.
Section JSMap.
Context {K V : Type} `{EqDecision K}.

Definition t : Type := list (K * V).

Definition empty : t := [].

Fixpoint get (k : K) (m : t) : option V :=
  match m with
  | [] => None
  | (k', v) :: m' => if decide (k = k') then Some v else get k m'
  end.

Definition has (k : K) (m : t) : bool :=
  match get k m with Some _ => true | None => false end.

(** [Map.prototype.set]: an existing key keeps its position, a new key
    goes to the end. *)
Fixpoint set (k : K) (v : V) (m : t) : t :=
  match m with
  | [] => [(k, v)]
  | (k', v') :: m' =>
      if decide (k = k') then (k, v) :: m' else (k', v') :: set k v m'
  end.

Fixpoint delete (k : K) (m : t) : t :=
  match m with
  | [] => []
  | (k', v') :: m' =>
      if decide (k = k') then m' else (k', v') :: delete k m'
  end.

Definition clear (m : t) : t := [].

Definition keys (m : t) : list K := m.*1.

(** [entries().next()] *)
Definition first (m : t) : option (K * V) := head m.

End JSMap.

Global Arguments t : clear implicits.
End JSMap.

(** ** The default error handler *)

Module ErrorAction.
Inductive t := Continue | Shutdown.
End ErrorAction.

Module CloseAction.
Inductive t := DoNotRestart | Restart.
End CloseAction.

Record ErrorHandlerResult := {
  eh_action : ErrorAction.t;
  eh_message : option string
}.

Record CloseHandlerResult := {
  ch_action : CloseAction.t;
  ch_message : option string
}.

Module DefaultErrorHandler.

(** [private readonly restarts: number[]], the client's name (the only
    use the handler makes of its client) and [maxRestartCount]. *)
Record t := {
  clientName : string;
  maxRestartCount : Z;
  restarts : list Z
}.

Definition create (name : string) (maxRestartCount : Z) : t :=
  {| clientName := name; maxRestartCount := maxRestartCount; restarts := [] |}.

(** [count && count <= 3]: [undefined] and [0] are falsy. *)
Definition error (count : option Z) : ErrorHandlerResult :=
  match count with
  | Some n =>
      if bool_decide (n ≠ 0) && bool_decide (n ≤ 3)
      then {| eh_action := ErrorAction.Continue; eh_message := None |}
      else {| eh_action := ErrorAction.Shutdown; eh_message := None |}
  | None => {| eh_action := ErrorAction.Shutdown; eh_message := None |}
  end.

(** [restarts[i]]; the only reads happen after a push, on indices that
    exist. *)
Definition at_index (l : list Z) (i : nat) : Z := default 0 (l !! i).

Definition crashMessage (h : t) : string :=
  "The " +:+ clientName h +:+ " server crashed "
    +:+ pretty (maxRestartCount h + 1)
    +:+ " times in the last 3 minutes. The server will not be restarted. See the output for more information.".

(** [closed()], with [Date.now()] given as [now]. *)
Definition closed (now : Z) (h : t) : CloseHandlerResult * t :=
  let pushed := restarts h ++ [now] in
  let h1 := {| clientName := clientName h;
               maxRestartCount := maxRestartCount h;
               restarts := pushed |} in
  if bool_decide (Z.of_nat (length pushed) ≤ maxRestartCount h) then
    ({| ch_action := CloseAction.Restart; ch_message := None |}, h1)
  else
    let diff := at_index pushed (length pushed - 1) - at_index pushed 0 in
    if bool_decide (diff ≤ 3 * 60 * 1000) then
      ({| ch_action := CloseAction.DoNotRestart;
          ch_message := Some (crashMessage h) |}, h1)
    else
      ({| ch_action := CloseAction.Restart; ch_message := None |},
       {| clientName := clientName h;
          maxRestartCount := maxRestartCount h;
          restarts := tail pushed |}).

(** A run of [closed()] calls at the given times: the actions, in order,
    and the handler afterwards. *)
Fixpoint closes (times : list Z) (h : t) : list CloseAction.t * t :=
  match times with
  | [] => ([], h)
  | now :: rest =>
      let '(r, h1) := closed now h in
      let '(rs, h2) := closes rest h1 in
      (ch_action r :: rs, h2)
  end.

End DefaultErrorHandler.

(** ** Data of the client *)

Module ClientState.
Inductive t :=
  Initial | Starting | StartFailed | Running | Suspending | Suspended
| Stopping | Stopped.

#[global] Instance eq_dec : EqDecision t.
Proof. solve_decision. Defined.
End ClientState.

(** The public [State]. *)
Module State.
Inductive t := Stopped | Starting | Running | Suspending | Suspended.

#[global] Instance eq_dec : EqDecision t.
Proof. solve_decision. Defined.
End State.

Module SuspendMode.
Inductive t := off | on | activationOnly.

#[global] Instance eq_dec : EqDecision t.
Proof. solve_decision. Defined.
End SuspendMode.

(** [error.data] of a response error: the [retry] flag of an
    [InitializeError] and whatever else the server attached. *)
Record ErrorData := {
  retry : bool;
  payload : string
}.

Inductive Error :=
| JSError (message : string)
| ResponseError (code : Z) (message : string) (data : option ErrorData)
| CancellationError
| LSPCancellationError (data : ErrorData).

Definition errorMessage (e : Error) : string :=
  match e with
  | JSError m => m
  | ResponseError _ m _ => m
  | CancellationError => "Canceled"
  | LSPCancellationError _ => "Canceled"
  end.

(** What a synchronous call gives back. *)
Inductive Result (A : Type) :=
| Ok (a : A)
| Throw (e : Error).
Arguments Ok {A} a.
Arguments Throw {A} e.

(** How the promise of an [async] call stands at the end of the step:
    [Suspended] is a call parked at an [await] on a promise that is still
    pending. *)
Inductive Settlement (A : Type) :=
| Resolved (a : A)
| Rejected (e : Error)
| Suspended.
Arguments Resolved {A} a.
Arguments Rejected {A} e.
Arguments Suspended {A}.

Definition Promise := Settlement unit.

(** Handlers.  The application's handlers are told apart by a number; the
    maps of the client hold these.  What is bound to a connection is an
    application handler, [onProgress]'s closure around the work-done-progress
    middleware and an application handler, or one of the client's own
    closures. *)
Definition AppHandler := nat.

Inductive OwnHandler :=
| H_logMessage | H_showMessage | H_showMessageRequest | H_telemetryEvent
| H_showDocument | H_handleDiagnostics | H_handleRegistrationRequest
| H_handleUnregistrationRequest | H_handleApplyWorkspaceEdit.

Inductive Handler :=
| UserHandler (handler : AppHandler)
| WrappedHandler (handler : AppHandler)
| ClientHandler (h : OwnHandler).

#[global] Instance OwnHandler_eq_dec : EqDecision OwnHandler.
Proof. solve_decision. Defined.

#[global] Instance Handler_eq_dec : EqDecision Handler.
Proof. solve_decision. Defined.

Inductive ProgressToken :=
| TokenString (s : string)
| TokenNumber (n : Z).

#[global] Instance ProgressToken_eq_dec : EqDecision ProgressToken.
Proof. solve_decision. Defined.

Inductive ProgressType :=
| WorkDoneProgressType
| OtherProgressType (id : nat).

#[global] Instance ProgressType_eq_dec : EqDecision ProgressType.
Proof. solve_decision. Defined.

(** [WorkDoneProgress.is(type)] *)
Definition WorkDoneProgress_is (type : ProgressType) : bool :=
  match type with WorkDoneProgressType => true | OtherProgressType _ => false end.

(** The method names of the protocol requests and notifications the client
    binds itself.  Their declarations are in vscode-languageserver-protocol;
    the two [client/...] names are literals of the source. *)
Module Method.
Definition logMessage : string := "window/logMessage".
Definition showMessage : string := "window/showMessage".
Definition showMessageRequest : string := "window/showMessageRequest".
Definition telemetryEvent : string := "telemetry/event".
Definition showDocument : string := "window/showDocument".
Definition publishDiagnostics : string := "textDocument/publishDiagnostics".
Definition registration : string := "client/registerCapability".
Definition registerFeature : string := "client/registerFeature".
Definition unregistration : string := "client/unregisterCapability".
Definition unregisterFeature : string := "client/unregisterFeature".
Definition applyWorkspaceEdit : string := "workspace/applyEdit".
Definition initialized : string := "initialized".
End Method.

(** Calls on the [Connection] interface. *)
Inductive ConnectionCall :=
| C_onNotification (method : string) (handler : Handler)
| C_onRequest (method : string) (handler : Handler)
| C_onProgress (type : ProgressType) (token : ProgressToken) (handler : Handler)
| C_listen
| C_trace
| C_initialize (workDoneToken : option string)
| C_sendNotification (method : string)
| C_shutdown
| C_exit
| C_end
| C_dispose.

#[global] Instance ConnectionCall_eq_dec : EqDecision ConnectionCall.
Proof. solve_decision. Defined.

(** The [Disposable] a binding call on a connection returned. *)
Record Disposable := {
  d_connection : nat;
  d_binding : ConnectionCall
}.

#[global] Instance Disposable_eq_dec : EqDecision Disposable.
Proof. solve_decision. Defined.

Inductive Diagnostic := mkDiagnostic (message : string).
Inductive VDiagnostic := mkVDiagnostic (message : string).
Inductive Uri := mkUri (text : string).

#[global] Instance Diagnostic_eq_dec : EqDecision Diagnostic.
Proof. solve_decision. Defined.

#[global] Instance VDiagnostic_eq_dec : EqDecision VDiagnostic.
Proof. solve_decision. Defined.

#[global] Instance Uri_eq_dec : EqDecision Uri.
Proof. solve_decision. Defined.

Definition DocumentSelector := list string.

Record RegisterOptions := {
  ro_documentSelector : option DocumentSelector;
  ro_other : string
}.

Record RegistrationData := {
  rd_id : string;
  rd_registerOptions : RegisterOptions
}.

(** A feature adapter, as far as the client core drives it: its name, and for
    a dynamic feature the method of its registration type and whether
    [register] throws on a given registration. *)
Inductive Feature :=
| StaticFeature (name : string) (fillsInitializeParams : bool)
| DynamicFeature (name : string) (fillsInitializeParams : bool)
    (registrationMethod : string)
    (registerThrows : RegistrationData → option Error).

Definition featureName (f : Feature) : string :=
  match f with StaticFeature n _ => n | DynamicFeature n _ _ _ => n end.

(** [Is.func(feature.fillInitializeParams)] *)
Definition hasFillInitializeParams (f : Feature) : bool :=
  match f with StaticFeature _ b => b | DynamicFeature _ b _ _ => b end.

Inductive FeatureCall :=
| F_fillInitializeParams
| F_fillClientCapabilities
| F_initialize
| F_register (data : RegistrationData)
| F_unregister (id : string)
| F_dispose.

Inductive ShowNotification := Show (b : bool) | Force.

Inductive Task :=
| T_initialize (connection : nat)
| T_stop.

Inductive ProgressPartCall := PP_new | PP_done | PP_cancel.

(** Calls on the host: timers, converters, the diagnostic collection, the
    workspace and the output channel. *)
Inductive HostCall :=
| SetImmediate_workDiagnosticQueue
| SetInterval_checkSuspend
| SetTimeout (timeout : Z)
| IdleInterval_dispose
| FileEventDelayer_cancel
| AsDiagnostics (document : string) (diagnostics : list Diagnostic)
| Middleware_handleDiagnostics (document : string) (uri : Uri)
    (diagnostics : list VDiagnostic)
| DiagnosticCollection_create (name : option string)
| DiagnosticCollection_set (document : string) (uri : Uri)
    (diagnostics : list VDiagnostic)
| DiagnosticCollection_dispose
| AsWorkspaceEdit
| Workspace_applyEdit
| HookFileEvents
| HookConfigurationChanged
| CleanUpChannel.

Inductive Effect :=
| Conn (connection : nat) (call : ConnectionCall)
| Dispose (d : Disposable)
| StateChange (oldState newState : State.t)
| LogError (message : string) (showNotification : ShowNotification)
| LogInfo (message : string)
| ShowErrorMessage (message : string) (retryItem : bool)
| Spawn (task : Task)
| FeatureDo (feature : string) (call : FeatureCall)
| ProgressPart (token : string) (call : ProgressPartCall)
| Host (call : HostCall).

(** Server capabilities, as far as [doInitialize] reads them. *)
Inductive SaveOption :=
| SaveFlag (b : bool)
| SaveOptions (includeText : option bool).

Record TextDocumentSyncOptions := {
  openClose : option bool;
  change : option Z;
  willSave : option bool;
  willSaveWaitUntil : option bool;
  save : option SaveOption
}.

Inductive TextDocumentSync :=
| TDS_number (kind : Z)
| TDS_options (options : TextDocumentSyncOptions)
| TDS_null.

Module TextDocumentSyncKind.
Definition None_ : Z := 0.
Definition Full : Z := 1.
Definition Incremental : Z := 2.
End TextDocumentSyncKind.

Record ServerCapabilities := {
  positionEncoding : option string;
  textDocumentSync : option TextDocumentSync
}.

Record InitializeResult := {
  capabilities : ServerCapabilities
}.

(** [ServerCapabilities & ResolvedTextDocumentSyncCapabilities] *)
Record ResolvedCapabilities := {
  server : ServerCapabilities;
  resolvedTextDocumentSync : option TextDocumentSyncOptions
}.

Record ClientOptions := {
  documentSelector : DocumentSelector;
  diagnosticCollectionName : option string;
  initializationFailedHandler : option (Error → bool);
  progressOnInitialization : bool;
  suspend_mode : SuspendMode.t;
  middleware_handleDiagnostics : bool;
  middleware_handleWorkDoneProgress : bool;
  synchronize_fileEvents : bool
}.

(** The protocol-to-code converter: what [asDiagnostics] resolves to when
    it resolves, and [asUri]. *)
Record P2C := {
  asDiagnostics : list Diagnostic → list VDiagnostic;
  asUri : string → Uri
}.

(** [_diagnosticQueueState].  A busy queue also stands for the one
    conversion in flight: the batch handed to [asDiagnostics] and whether
    its token source was cancelled. *)
Inductive DiagnosticQueueState :=
| Idle
| Busy (document : string) (diagnostics : list Diagnostic) (cancelled : bool).

Record Client := {
  _name : string;
  _clientOptions : ClientOptions;
  _state : ClientState.t;
  _notificationHandlers : JSMap.t string AppHandler;
  _notificationDisposables : JSMap.t string Disposable;
  _pendingNotificationHandlers : JSMap.t string AppHandler;
  _requestHandlers : JSMap.t string AppHandler;
  _requestDisposables : JSMap.t string Disposable;
  _pendingRequestHandlers : JSMap.t string AppHandler;
  _progressHandlers : JSMap.t ProgressToken (ProgressType * AppHandler);
  _pendingProgressHandlers : JSMap.t ProgressToken (ProgressType * AppHandler);
  _progressDisposables : JSMap.t ProgressToken Disposable;
  _onStart : option Promise;
  _onStop : option Promise;
  _connection : option nat;
  _idleInterval : bool;
  _initializeResult : option InitializeResult;
  _capabilities : option ResolvedCapabilities;
  _diagnostics : bool;
  _diagnosticQueue : JSMap.t string (list Diagnostic);
  _diagnosticQueueState : DiagnosticQueueState;
  _features : list Feature;
  _dynamicFeatures : JSMap.t string Feature;
  _p2c : P2C;
  connections : nat;
  effects : list Effect
}.

(** Field updates: [with_f v c] is [c] with field [_f] set to [v]. *)

Definition with_clientOptions (v : ClientOptions) (c : Client) : Client :=
  {| _name := _name c; _clientOptions := v; _state := _state c;
     _notificationHandlers := _notificationHandlers c;
     _notificationDisposables := _notificationDisposables c;
     _pendingNotificationHandlers := _pendingNotificationHandlers c;
     _requestHandlers := _requestHandlers c;
     _requestDisposables := _requestDisposables c;
     _pendingRequestHandlers := _pendingRequestHandlers c;
     _progressHandlers := _progressHandlers c;
     _pendingProgressHandlers := _pendingProgressHandlers c;
     _progressDisposables := _progressDisposables c; _onStart := _onStart c;
     _onStop := _onStop c; _connection := _connection c;
     _idleInterval := _idleInterval c;
     _initializeResult := _initializeResult c;
     _capabilities := _capabilities c; _diagnostics := _diagnostics c;
     _diagnosticQueue := _diagnosticQueue c;
     _diagnosticQueueState := _diagnosticQueueState c;
     _features := _features c; _dynamicFeatures := _dynamicFeatures c;
     _p2c := _p2c c; connections := connections c; effects := effects c |}.

Definition with_state (v : ClientState.t) (c : Client) : Client :=
  {| _name := _name c; _clientOptions := _clientOptions c; _state := v;
     _notificationHandlers := _notificationHandlers c;
     _notificationDisposables := _notificationDisposables c;
     _pendingNotificationHandlers := _pendingNotificationHandlers c;
     _requestHandlers := _requestHandlers c;
     _requestDisposables := _requestDisposables c;
     _pendingRequestHandlers := _pendingRequestHandlers c;
     _progressHandlers := _progressHandlers c;
     _pendingProgressHandlers := _pendingProgressHandlers c;
     _progressDisposables := _progressDisposables c; _onStart := _onStart c;
     _onStop := _onStop c; _connection := _connection c;
     _idleInterval := _idleInterval c;
     _initializeResult := _initializeResult c;
     _capabilities := _capabilities c; _diagnostics := _diagnostics c;
     _diagnosticQueue := _diagnosticQueue c;
     _diagnosticQueueState := _diagnosticQueueState c;
     _features := _features c; _dynamicFeatures := _dynamicFeatures c;
     _p2c := _p2c c; connections := connections c; effects := effects c |}.

Definition with_notificationHandlers (v : JSMap.t string AppHandler) (c : Client) : Client :=
  {| _name := _name c; _clientOptions := _clientOptions c;
     _state := _state c; _notificationHandlers := v;
     _notificationDisposables := _notificationDisposables c;
     _pendingNotificationHandlers := _pendingNotificationHandlers c;
     _requestHandlers := _requestHandlers c;
     _requestDisposables := _requestDisposables c;
     _pendingRequestHandlers := _pendingRequestHandlers c;
     _progressHandlers := _progressHandlers c;
     _pendingProgressHandlers := _pendingProgressHandlers c;
     _progressDisposables := _progressDisposables c; _onStart := _onStart c;
     _onStop := _onStop c; _connection := _connection c;
     _idleInterval := _idleInterval c;
     _initializeResult := _initializeResult c;
     _capabilities := _capabilities c; _diagnostics := _diagnostics c;
     _diagnosticQueue := _diagnosticQueue c;
     _diagnosticQueueState := _diagnosticQueueState c;
     _features := _features c; _dynamicFeatures := _dynamicFeatures c;
     _p2c := _p2c c; connections := connections c; effects := effects c |}.

Definition with_notificationDisposables (v : JSMap.t string Disposable) (c : Client) : Client :=
  {| _name := _name c; _clientOptions := _clientOptions c;
     _state := _state c; _notificationHandlers := _notificationHandlers c;
     _notificationDisposables := v;
     _pendingNotificationHandlers := _pendingNotificationHandlers c;
     _requestHandlers := _requestHandlers c;
     _requestDisposables := _requestDisposables c;
     _pendingRequestHandlers := _pendingRequestHandlers c;
     _progressHandlers := _progressHandlers c;
     _pendingProgressHandlers := _pendingProgressHandlers c;
     _progressDisposables := _progressDisposables c; _onStart := _onStart c;
     _onStop := _onStop c; _connection := _connection c;
     _idleInterval := _idleInterval c;
     _initializeResult := _initializeResult c;
     _capabilities := _capabilities c; _diagnostics := _diagnostics c;
     _diagnosticQueue := _diagnosticQueue c;
     _diagnosticQueueState := _diagnosticQueueState c;
     _features := _features c; _dynamicFeatures := _dynamicFeatures c;
     _p2c := _p2c c; connections := connections c; effects := effects c |}.

Definition with_pendingNotificationHandlers (v : JSMap.t string AppHandler) (c : Client) : Client :=
  {| _name := _name c; _clientOptions := _clientOptions c;
     _state := _state c; _notificationHandlers := _notificationHandlers c;
     _notificationDisposables := _notificationDisposables c;
     _pendingNotificationHandlers := v;
     _requestHandlers := _requestHandlers c;
     _requestDisposables := _requestDisposables c;
     _pendingRequestHandlers := _pendingRequestHandlers c;
     _progressHandlers := _progressHandlers c;
     _pendingProgressHandlers := _pendingProgressHandlers c;
     _progressDisposables := _progressDisposables c; _onStart := _onStart c;
     _onStop := _onStop c; _connection := _connection c;
     _idleInterval := _idleInterval c;
     _initializeResult := _initializeResult c;
     _capabilities := _capabilities c; _diagnostics := _diagnostics c;
     _diagnosticQueue := _diagnosticQueue c;
     _diagnosticQueueState := _diagnosticQueueState c;
     _features := _features c; _dynamicFeatures := _dynamicFeatures c;
     _p2c := _p2c c; connections := connections c; effects := effects c |}.

Definition with_requestHandlers (v : JSMap.t string AppHandler) (c : Client) : Client :=
  {| _name := _name c; _clientOptions := _clientOptions c;
     _state := _state c; _notificationHandlers := _notificationHandlers c;
     _notificationDisposables := _notificationDisposables c;
     _pendingNotificationHandlers := _pendingNotificationHandlers c;
     _requestHandlers := v; _requestDisposables := _requestDisposables c;
     _pendingRequestHandlers := _pendingRequestHandlers c;
     _progressHandlers := _progressHandlers c;
     _pendingProgressHandlers := _pendingProgressHandlers c;
     _progressDisposables := _progressDisposables c; _onStart := _onStart c;
     _onStop := _onStop c; _connection := _connection c;
     _idleInterval := _idleInterval c;
     _initializeResult := _initializeResult c;
     _capabilities := _capabilities c; _diagnostics := _diagnostics c;
     _diagnosticQueue := _diagnosticQueue c;
     _diagnosticQueueState := _diagnosticQueueState c;
     _features := _features c; _dynamicFeatures := _dynamicFeatures c;
     _p2c := _p2c c; connections := connections c; effects := effects c |}.

Definition with_requestDisposables (v : JSMap.t string Disposable) (c : Client) : Client :=
  {| _name := _name c; _clientOptions := _clientOptions c;
     _state := _state c; _notificationHandlers := _notificationHandlers c;
     _notificationDisposables := _notificationDisposables c;
     _pendingNotificationHandlers := _pendingNotificationHandlers c;
     _requestHandlers := _requestHandlers c; _requestDisposables := v;
     _pendingRequestHandlers := _pendingRequestHandlers c;
     _progressHandlers := _progressHandlers c;
     _pendingProgressHandlers := _pendingProgressHandlers c;
     _progressDisposables := _progressDisposables c; _onStart := _onStart c;
     _onStop := _onStop c; _connection := _connection c;
     _idleInterval := _idleInterval c;
     _initializeResult := _initializeResult c;
     _capabilities := _capabilities c; _diagnostics := _diagnostics c;
     _diagnosticQueue := _diagnosticQueue c;
     _diagnosticQueueState := _diagnosticQueueState c;
     _features := _features c; _dynamicFeatures := _dynamicFeatures c;
     _p2c := _p2c c; connections := connections c; effects := effects c |}.

Definition with_pendingRequestHandlers (v : JSMap.t string AppHandler) (c : Client) : Client :=
  {| _name := _name c; _clientOptions := _clientOptions c;
     _state := _state c; _notificationHandlers := _notificationHandlers c;
     _notificationDisposables := _notificationDisposables c;
     _pendingNotificationHandlers := _pendingNotificationHandlers c;
     _requestHandlers := _requestHandlers c;
     _requestDisposables := _requestDisposables c;
     _pendingRequestHandlers := v; _progressHandlers := _progressHandlers c;
     _pendingProgressHandlers := _pendingProgressHandlers c;
     _progressDisposables := _progressDisposables c; _onStart := _onStart c;
     _onStop := _onStop c; _connection := _connection c;
     _idleInterval := _idleInterval c;
     _initializeResult := _initializeResult c;
     _capabilities := _capabilities c; _diagnostics := _diagnostics c;
     _diagnosticQueue := _diagnosticQueue c;
     _diagnosticQueueState := _diagnosticQueueState c;
     _features := _features c; _dynamicFeatures := _dynamicFeatures c;
     _p2c := _p2c c; connections := connections c; effects := effects c |}.

Definition with_progressHandlers (v : JSMap.t ProgressToken (ProgressType * AppHandler)) (c : Client) : Client :=
  {| _name := _name c; _clientOptions := _clientOptions c;
     _state := _state c; _notificationHandlers := _notificationHandlers c;
     _notificationDisposables := _notificationDisposables c;
     _pendingNotificationHandlers := _pendingNotificationHandlers c;
     _requestHandlers := _requestHandlers c;
     _requestDisposables := _requestDisposables c;
     _pendingRequestHandlers := _pendingRequestHandlers c;
     _progressHandlers := v;
     _pendingProgressHandlers := _pendingProgressHandlers c;
     _progressDisposables := _progressDisposables c; _onStart := _onStart c;
     _onStop := _onStop c; _connection := _connection c;
     _idleInterval := _idleInterval c;
     _initializeResult := _initializeResult c;
     _capabilities := _capabilities c; _diagnostics := _diagnostics c;
     _diagnosticQueue := _diagnosticQueue c;
     _diagnosticQueueState := _diagnosticQueueState c;
     _features := _features c; _dynamicFeatures := _dynamicFeatures c;
     _p2c := _p2c c; connections := connections c; effects := effects c |}.

Definition with_pendingProgressHandlers (v : JSMap.t ProgressToken (ProgressType * AppHandler)) (c : Client) : Client :=
  {| _name := _name c; _clientOptions := _clientOptions c;
     _state := _state c; _notificationHandlers := _notificationHandlers c;
     _notificationDisposables := _notificationDisposables c;
     _pendingNotificationHandlers := _pendingNotificationHandlers c;
     _requestHandlers := _requestHandlers c;
     _requestDisposables := _requestDisposables c;
     _pendingRequestHandlers := _pendingRequestHandlers c;
     _progressHandlers := _progressHandlers c; _pendingProgressHandlers := v;
     _progressDisposables := _progressDisposables c; _onStart := _onStart c;
     _onStop := _onStop c; _connection := _connection c;
     _idleInterval := _idleInterval c;
     _initializeResult := _initializeResult c;
     _capabilities := _capabilities c; _diagnostics := _diagnostics c;
     _diagnosticQueue := _diagnosticQueue c;
     _diagnosticQueueState := _diagnosticQueueState c;
     _features := _features c; _dynamicFeatures := _dynamicFeatures c;
     _p2c := _p2c c; connections := connections c; effects := effects c |}.

Definition with_progressDisposables (v : JSMap.t ProgressToken Disposable) (c : Client) : Client :=
  {| _name := _name c; _clientOptions := _clientOptions c;
     _state := _state c; _notificationHandlers := _notificationHandlers c;
     _notificationDisposables := _notificationDisposables c;
     _pendingNotificationHandlers := _pendingNotificationHandlers c;
     _requestHandlers := _requestHandlers c;
     _requestDisposables := _requestDisposables c;
     _pendingRequestHandlers := _pendingRequestHandlers c;
     _progressHandlers := _progressHandlers c;
     _pendingProgressHandlers := _pendingProgressHandlers c;
     _progressDisposables := v; _onStart := _onStart c; _onStop := _onStop c;
     _connection := _connection c; _idleInterval := _idleInterval c;
     _initializeResult := _initializeResult c;
     _capabilities := _capabilities c; _diagnostics := _diagnostics c;
     _diagnosticQueue := _diagnosticQueue c;
     _diagnosticQueueState := _diagnosticQueueState c;
     _features := _features c; _dynamicFeatures := _dynamicFeatures c;
     _p2c := _p2c c; connections := connections c; effects := effects c |}.

Definition with_onStart (v : option Promise) (c : Client) : Client :=
  {| _name := _name c; _clientOptions := _clientOptions c;
     _state := _state c; _notificationHandlers := _notificationHandlers c;
     _notificationDisposables := _notificationDisposables c;
     _pendingNotificationHandlers := _pendingNotificationHandlers c;
     _requestHandlers := _requestHandlers c;
     _requestDisposables := _requestDisposables c;
     _pendingRequestHandlers := _pendingRequestHandlers c;
     _progressHandlers := _progressHandlers c;
     _pendingProgressHandlers := _pendingProgressHandlers c;
     _progressDisposables := _progressDisposables c; _onStart := v;
     _onStop := _onStop c; _connection := _connection c;
     _idleInterval := _idleInterval c;
     _initializeResult := _initializeResult c;
     _capabilities := _capabilities c; _diagnostics := _diagnostics c;
     _diagnosticQueue := _diagnosticQueue c;
     _diagnosticQueueState := _diagnosticQueueState c;
     _features := _features c; _dynamicFeatures := _dynamicFeatures c;
     _p2c := _p2c c; connections := connections c; effects := effects c |}.

Definition with_onStop (v : option Promise) (c : Client) : Client :=
  {| _name := _name c; _clientOptions := _clientOptions c;
     _state := _state c; _notificationHandlers := _notificationHandlers c;
     _notificationDisposables := _notificationDisposables c;
     _pendingNotificationHandlers := _pendingNotificationHandlers c;
     _requestHandlers := _requestHandlers c;
     _requestDisposables := _requestDisposables c;
     _pendingRequestHandlers := _pendingRequestHandlers c;
     _progressHandlers := _progressHandlers c;
     _pendingProgressHandlers := _pendingProgressHandlers c;
     _progressDisposables := _progressDisposables c; _onStart := _onStart c;
     _onStop := v; _connection := _connection c;
     _idleInterval := _idleInterval c;
     _initializeResult := _initializeResult c;
     _capabilities := _capabilities c; _diagnostics := _diagnostics c;
     _diagnosticQueue := _diagnosticQueue c;
     _diagnosticQueueState := _diagnosticQueueState c;
     _features := _features c; _dynamicFeatures := _dynamicFeatures c;
     _p2c := _p2c c; connections := connections c; effects := effects c |}.

Definition with_connection (v : option nat) (c : Client) : Client :=
  {| _name := _name c; _clientOptions := _clientOptions c;
     _state := _state c; _notificationHandlers := _notificationHandlers c;
     _notificationDisposables := _notificationDisposables c;
     _pendingNotificationHandlers := _pendingNotificationHandlers c;
     _requestHandlers := _requestHandlers c;
     _requestDisposables := _requestDisposables c;
     _pendingRequestHandlers := _pendingRequestHandlers c;
     _progressHandlers := _progressHandlers c;
     _pendingProgressHandlers := _pendingProgressHandlers c;
     _progressDisposables := _progressDisposables c; _onStart := _onStart c;
     _onStop := _onStop c; _connection := v;
     _idleInterval := _idleInterval c;
     _initializeResult := _initializeResult c;
     _capabilities := _capabilities c; _diagnostics := _diagnostics c;
     _diagnosticQueue := _diagnosticQueue c;
     _diagnosticQueueState := _diagnosticQueueState c;
     _features := _features c; _dynamicFeatures := _dynamicFeatures c;
     _p2c := _p2c c; connections := connections c; effects := effects c |}.

Definition with_idleInterval (v : bool) (c : Client) : Client :=
  {| _name := _name c; _clientOptions := _clientOptions c;
     _state := _state c; _notificationHandlers := _notificationHandlers c;
     _notificationDisposables := _notificationDisposables c;
     _pendingNotificationHandlers := _pendingNotificationHandlers c;
     _requestHandlers := _requestHandlers c;
     _requestDisposables := _requestDisposables c;
     _pendingRequestHandlers := _pendingRequestHandlers c;
     _progressHandlers := _progressHandlers c;
     _pendingProgressHandlers := _pendingProgressHandlers c;
     _progressDisposables := _progressDisposables c; _onStart := _onStart c;
     _onStop := _onStop c; _connection := _connection c; _idleInterval := v;
     _initializeResult := _initializeResult c;
     _capabilities := _capabilities c; _diagnostics := _diagnostics c;
     _diagnosticQueue := _diagnosticQueue c;
     _diagnosticQueueState := _diagnosticQueueState c;
     _features := _features c; _dynamicFeatures := _dynamicFeatures c;
     _p2c := _p2c c; connections := connections c; effects := effects c |}.

Definition with_initializeResult (v : option InitializeResult) (c : Client) : Client :=
  {| _name := _name c; _clientOptions := _clientOptions c;
     _state := _state c; _notificationHandlers := _notificationHandlers c;
     _notificationDisposables := _notificationDisposables c;
     _pendingNotificationHandlers := _pendingNotificationHandlers c;
     _requestHandlers := _requestHandlers c;
     _requestDisposables := _requestDisposables c;
     _pendingRequestHandlers := _pendingRequestHandlers c;
     _progressHandlers := _progressHandlers c;
     _pendingProgressHandlers := _pendingProgressHandlers c;
     _progressDisposables := _progressDisposables c; _onStart := _onStart c;
     _onStop := _onStop c; _connection := _connection c;
     _idleInterval := _idleInterval c; _initializeResult := v;
     _capabilities := _capabilities c; _diagnostics := _diagnostics c;
     _diagnosticQueue := _diagnosticQueue c;
     _diagnosticQueueState := _diagnosticQueueState c;
     _features := _features c; _dynamicFeatures := _dynamicFeatures c;
     _p2c := _p2c c; connections := connections c; effects := effects c |}.

Definition with_capabilities (v : option ResolvedCapabilities) (c : Client) : Client :=
  {| _name := _name c; _clientOptions := _clientOptions c;
     _state := _state c; _notificationHandlers := _notificationHandlers c;
     _notificationDisposables := _notificationDisposables c;
     _pendingNotificationHandlers := _pendingNotificationHandlers c;
     _requestHandlers := _requestHandlers c;
     _requestDisposables := _requestDisposables c;
     _pendingRequestHandlers := _pendingRequestHandlers c;
     _progressHandlers := _progressHandlers c;
     _pendingProgressHandlers := _pendingProgressHandlers c;
     _progressDisposables := _progressDisposables c; _onStart := _onStart c;
     _onStop := _onStop c; _connection := _connection c;
     _idleInterval := _idleInterval c;
     _initializeResult := _initializeResult c; _capabilities := v;
     _diagnostics := _diagnostics c; _diagnosticQueue := _diagnosticQueue c;
     _diagnosticQueueState := _diagnosticQueueState c;
     _features := _features c; _dynamicFeatures := _dynamicFeatures c;
     _p2c := _p2c c; connections := connections c; effects := effects c |}.

Definition with_diagnostics (v : bool) (c : Client) : Client :=
  {| _name := _name c; _clientOptions := _clientOptions c;
     _state := _state c; _notificationHandlers := _notificationHandlers c;
     _notificationDisposables := _notificationDisposables c;
     _pendingNotificationHandlers := _pendingNotificationHandlers c;
     _requestHandlers := _requestHandlers c;
     _requestDisposables := _requestDisposables c;
     _pendingRequestHandlers := _pendingRequestHandlers c;
     _progressHandlers := _progressHandlers c;
     _pendingProgressHandlers := _pendingProgressHandlers c;
     _progressDisposables := _progressDisposables c; _onStart := _onStart c;
     _onStop := _onStop c; _connection := _connection c;
     _idleInterval := _idleInterval c;
     _initializeResult := _initializeResult c;
     _capabilities := _capabilities c; _diagnostics := v;
     _diagnosticQueue := _diagnosticQueue c;
     _diagnosticQueueState := _diagnosticQueueState c;
     _features := _features c; _dynamicFeatures := _dynamicFeatures c;
     _p2c := _p2c c; connections := connections c; effects := effects c |}.

Definition with_diagnosticQueue (v : JSMap.t string (list Diagnostic)) (c : Client) : Client :=
  {| _name := _name c; _clientOptions := _clientOptions c;
     _state := _state c; _notificationHandlers := _notificationHandlers c;
     _notificationDisposables := _notificationDisposables c;
     _pendingNotificationHandlers := _pendingNotificationHandlers c;
     _requestHandlers := _requestHandlers c;
     _requestDisposables := _requestDisposables c;
     _pendingRequestHandlers := _pendingRequestHandlers c;
     _progressHandlers := _progressHandlers c;
     _pendingProgressHandlers := _pendingProgressHandlers c;
     _progressDisposables := _progressDisposables c; _onStart := _onStart c;
     _onStop := _onStop c; _connection := _connection c;
     _idleInterval := _idleInterval c;
     _initializeResult := _initializeResult c;
     _capabilities := _capabilities c; _diagnostics := _diagnostics c;
     _diagnosticQueue := v; _diagnosticQueueState := _diagnosticQueueState c;
     _features := _features c; _dynamicFeatures := _dynamicFeatures c;
     _p2c := _p2c c; connections := connections c; effects := effects c |}.

Definition with_diagnosticQueueState (v : DiagnosticQueueState) (c : Client) : Client :=
  {| _name := _name c; _clientOptions := _clientOptions c;
     _state := _state c; _notificationHandlers := _notificationHandlers c;
     _notificationDisposables := _notificationDisposables c;
     _pendingNotificationHandlers := _pendingNotificationHandlers c;
     _requestHandlers := _requestHandlers c;
     _requestDisposables := _requestDisposables c;
     _pendingRequestHandlers := _pendingRequestHandlers c;
     _progressHandlers := _progressHandlers c;
     _pendingProgressHandlers := _pendingProgressHandlers c;
     _progressDisposables := _progressDisposables c; _onStart := _onStart c;
     _onStop := _onStop c; _connection := _connection c;
     _idleInterval := _idleInterval c;
     _initializeResult := _initializeResult c;
     _capabilities := _capabilities c; _diagnostics := _diagnostics c;
     _diagnosticQueue := _diagnosticQueue c; _diagnosticQueueState := v;
     _features := _features c; _dynamicFeatures := _dynamicFeatures c;
     _p2c := _p2c c; connections := connections c; effects := effects c |}.

Definition with_features (v : list Feature) (c : Client) : Client :=
  {| _name := _name c; _clientOptions := _clientOptions c;
     _state := _state c; _notificationHandlers := _notificationHandlers c;
     _notificationDisposables := _notificationDisposables c;
     _pendingNotificationHandlers := _pendingNotificationHandlers c;
     _requestHandlers := _requestHandlers c;
     _requestDisposables := _requestDisposables c;
     _pendingRequestHandlers := _pendingRequestHandlers c;
     _progressHandlers := _progressHandlers c;
     _pendingProgressHandlers := _pendingProgressHandlers c;
     _progressDisposables := _progressDisposables c; _onStart := _onStart c;
     _onStop := _onStop c; _connection := _connection c;
     _idleInterval := _idleInterval c;
     _initializeResult := _initializeResult c;
     _capabilities := _capabilities c; _diagnostics := _diagnostics c;
     _diagnosticQueue := _diagnosticQueue c;
     _diagnosticQueueState := _diagnosticQueueState c; _features := v;
     _dynamicFeatures := _dynamicFeatures c; _p2c := _p2c c;
     connections := connections c; effects := effects c |}.

Definition with_dynamicFeatures (v : JSMap.t string Feature) (c : Client) : Client :=
  {| _name := _name c; _clientOptions := _clientOptions c;
     _state := _state c; _notificationHandlers := _notificationHandlers c;
     _notificationDisposables := _notificationDisposables c;
     _pendingNotificationHandlers := _pendingNotificationHandlers c;
     _requestHandlers := _requestHandlers c;
     _requestDisposables := _requestDisposables c;
     _pendingRequestHandlers := _pendingRequestHandlers c;
     _progressHandlers := _progressHandlers c;
     _pendingProgressHandlers := _pendingProgressHandlers c;
     _progressDisposables := _progressDisposables c; _onStart := _onStart c;
     _onStop := _onStop c; _connection := _connection c;
     _idleInterval := _idleInterval c;
     _initializeResult := _initializeResult c;
     _capabilities := _capabilities c; _diagnostics := _diagnostics c;
     _diagnosticQueue := _diagnosticQueue c;
     _diagnosticQueueState := _diagnosticQueueState c;
     _features := _features c; _dynamicFeatures := v; _p2c := _p2c c;
     connections := connections c; effects := effects c |}.

Definition with_connections (v : nat) (c : Client) : Client :=
  {| _name := _name c; _clientOptions := _clientOptions c;
     _state := _state c; _notificationHandlers := _notificationHandlers c;
     _notificationDisposables := _notificationDisposables c;
     _pendingNotificationHandlers := _pendingNotificationHandlers c;
     _requestHandlers := _requestHandlers c;
     _requestDisposables := _requestDisposables c;
     _pendingRequestHandlers := _pendingRequestHandlers c;
     _progressHandlers := _progressHandlers c;
     _pendingProgressHandlers := _pendingProgressHandlers c;
     _progressDisposables := _progressDisposables c; _onStart := _onStart c;
     _onStop := _onStop c; _connection := _connection c;
     _idleInterval := _idleInterval c;
     _initializeResult := _initializeResult c;
     _capabilities := _capabilities c; _diagnostics := _diagnostics c;
     _diagnosticQueue := _diagnosticQueue c;
     _diagnosticQueueState := _diagnosticQueueState c;
     _features := _features c; _dynamicFeatures := _dynamicFeatures c;
     _p2c := _p2c c; connections := v; effects := effects c |}.

Definition with_effects (v : list Effect) (c : Client) : Client :=
  {| _name := _name c; _clientOptions := _clientOptions c;
     _state := _state c; _notificationHandlers := _notificationHandlers c;
     _notificationDisposables := _notificationDisposables c;
     _pendingNotificationHandlers := _pendingNotificationHandlers c;
     _requestHandlers := _requestHandlers c;
     _requestDisposables := _requestDisposables c;
     _pendingRequestHandlers := _pendingRequestHandlers c;
     _progressHandlers := _progressHandlers c;
     _pendingProgressHandlers := _pendingProgressHandlers c;
     _progressDisposables := _progressDisposables c; _onStart := _onStart c;
     _onStop := _onStop c; _connection := _connection c;
     _idleInterval := _idleInterval c;
     _initializeResult := _initializeResult c;
     _capabilities := _capabilities c; _diagnostics := _diagnostics c;
     _diagnosticQueue := _diagnosticQueue c;
     _diagnosticQueueState := _diagnosticQueueState c;
     _features := _features c; _dynamicFeatures := _dynamicFeatures c;
     _p2c := _p2c c; connections := connections c; effects := v |}.

(** ** The methods of [BaseLanguageClient] *)

Module BaseLanguageClient.

Definition emit (e : Effect) (c : Client) : Client :=
  with_effects (effects c ++ [e]) c.

Definition emits (es : list Effect) (c : Client) : Client :=
  with_effects (effects c ++ es) c.

Definition getPublicState (s : ClientState.t) : State.t :=
  match s with
  | ClientState.Starting => State.Starting
  | ClientState.Running => State.Running
  | ClientState.Suspending => State.Suspending
  | ClientState.Suspended => State.Suspended
  | _ => State.Stopped
  end.

(** The [state] setter: the change event fires when the public state
    changes. *)
Definition set_state (value : ClientState.t) (c : Client) : Client :=
  let oldState := getPublicState (_state c) in
  let c := with_state value c in
  let newState := getPublicState (_state c) in
  if decide (newState = oldState) then c
  else emit (StateChange oldState newState) c.

Definition error (message : string) (showNotification : ShowNotification)
    (c : Client) : Client :=
  emit (LogError message showNotification) c.

Definition info (message : string) (c : Client) : Client :=
  emit (LogInfo message) c.

Definition registerFeature (feature : Feature) (c : Client) : Client :=
  let c := with_features (_features c ++ [feature]) c in
  match feature with
  | DynamicFeature _ _ method _ =>
      with_dynamicFeatures (JSMap.set method feature (_dynamicFeatures c)) c
  | StaticFeature _ _ => c
  end.

Definition registerFeatures (features : list Feature) (c : Client) : Client :=
  fold_left (λ c feature, registerFeature feature c) features c.

(** The constructor.  [builtin] are the features [registerBuiltinFeatures]
    constructs; their classes are in other files of the package. *)
Definition create (name : string) (clientOptions : ClientOptions) (p2c : P2C)
    (builtin : list Feature) : Client :=
  registerFeatures builtin
    {| _name := name;
       _clientOptions := clientOptions;
       _state := ClientState.Initial;
       _notificationHandlers := JSMap.empty;
       _notificationDisposables := JSMap.empty;
       _pendingNotificationHandlers := JSMap.empty;
       _requestHandlers := JSMap.empty;
       _requestDisposables := JSMap.empty;
       _pendingRequestHandlers := JSMap.empty;
       _progressHandlers := JSMap.empty;
       _pendingProgressHandlers := JSMap.empty;
       _progressDisposables := JSMap.empty;
       _onStart := None;
       _onStop := None;
       _connection := None;
       _idleInterval := false;
       _initializeResult := None;
       _capabilities := None;
       _diagnostics := false;
       _diagnosticQueue := JSMap.empty;
       _diagnosticQueueState := Idle;
       _features := [];
       _dynamicFeatures := JSMap.empty;
       _p2c := p2c;
       connections := 0%nat;
       effects := [] |}.

Definition needsStart (c : Client) : bool :=
  bool_decide (_state c = ClientState.Initial)
  || bool_decide (_state c = ClientState.Stopping)
  || bool_decide (_state c = ClientState.Stopped)
  || bool_decide (_state c = ClientState.Suspending)
  || bool_decide (_state c = ClientState.Suspended).

Definition needsStop (c : Client) : bool :=
  bool_decide (_state c = ClientState.Starting)
  || bool_decide (_state c = ClientState.Running).

Definition isRunning (c : Client) : bool :=
  bool_decide (_state c = ClientState.Running).

Definition activeConnection (c : Client) : option nat :=
  if decide (_state c = ClientState.Running) then _connection c else None.

(** *** The handler registry *)

(** The [Disposable] that [onRequest], [onNotification] and [onProgress]
    return: the key it closes over and the branch that built its inner
    disposable. *)
Inductive Branch := WasActive | WasPending.

Record HandlerRegistration (K : Type) := {
  reg_key : K;
  reg_branch : Branch
}.
Arguments reg_key {K} _.
Arguments reg_branch {K} _.

Definition onRequest (method : string) (handler : AppHandler) (c : Client)
    : HandlerRegistration string * Client :=
  let c := with_requestHandlers (JSMap.set method handler (_requestHandlers c)) c in
  match activeConnection c with
  | Some connection =>
      let call := C_onRequest method (UserHandler handler) in
      let c := emit (Conn connection call) c in
      let c := with_requestDisposables
                 (JSMap.set method {| d_connection := connection; d_binding := call |}
                    (_requestDisposables c)) c in
      ({| reg_key := method; reg_branch := WasActive |}, c)
  | None =>
      let c := with_pendingRequestHandlers
                 (JSMap.set method handler (_pendingRequestHandlers c)) c in
      ({| reg_key := method; reg_branch := WasPending |}, c)
  end.

Definition disposeRequestBinding (method : string) (c : Client) : Client :=
  match JSMap.get method (_requestDisposables c) with
  | Some disposable =>
      let c := emit (Dispose disposable) c in
      with_requestDisposables (JSMap.delete method (_requestDisposables c)) c
  | None => c
  end.

(** [dispose()] of what [onRequest] returned. *)
Definition disposeRequest (r : HandlerRegistration string) (c : Client) : Client :=
  let method := reg_key r in
  let c := with_requestHandlers (JSMap.delete method (_requestHandlers c)) c in
  match reg_branch r with
  | WasActive => disposeRequestBinding method c
  | WasPending =>
      let c := with_pendingRequestHandlers
                 (JSMap.delete method (_pendingRequestHandlers c)) c in
      disposeRequestBinding method c
  end.

Definition onNotification (method : string) (handler : AppHandler) (c : Client)
    : HandlerRegistration string * Client :=
  let c := with_notificationHandlers
             (JSMap.set method handler (_notificationHandlers c)) c in
  match activeConnection c with
  | Some connection =>
      let call := C_onNotification method (UserHandler handler) in
      let c := emit (Conn connection call) c in
      let c := with_notificationDisposables
                 (JSMap.set method {| d_connection := connection; d_binding := call |}
                    (_notificationDisposables c)) c in
      ({| reg_key := method; reg_branch := WasActive |}, c)
  | None =>
      let c := with_pendingNotificationHandlers
                 (JSMap.set method handler (_pendingNotificationHandlers c)) c in
      ({| reg_key := method; reg_branch := WasPending |}, c)
  end.

Definition disposeNotificationBinding (method : string) (c : Client) : Client :=
  match JSMap.get method (_notificationDisposables c) with
  | Some disposable =>
      let c := emit (Dispose disposable) c in
      with_notificationDisposables
        (JSMap.delete method (_notificationDisposables c)) c
  | None => c
  end.

Definition disposeNotification (r : HandlerRegistration string) (c : Client) : Client :=
  let method := reg_key r in
  let c := with_notificationHandlers
             (JSMap.delete method (_notificationHandlers c)) c in
  match reg_branch r with
  | WasActive => disposeNotificationBinding method c
  | WasPending =>
      let c := with_pendingNotificationHandlers
                 (JSMap.delete method (_pendingNotificationHandlers c)) c in
      disposeNotificationBinding method c
  end.

(** [onProgress]: the handler bound to a live connection is wrapped when the
    type is the work-done one and the middleware is configured; the maps
    keep the handler as given. *)
Definition realHandler (type : ProgressType) (handler : AppHandler) (c : Client)
    : Handler :=
  if WorkDoneProgress_is type
     && middleware_handleWorkDoneProgress (_clientOptions c)
  then WrappedHandler handler
  else UserHandler handler.

Definition onProgress (type : ProgressType) (token : ProgressToken)
    (handler : AppHandler) (c : Client) : HandlerRegistration ProgressToken * Client :=
  let c := with_progressHandlers
             (JSMap.set token (type, handler) (_progressHandlers c)) c in
  match activeConnection c with
  | Some connection =>
      let call := C_onProgress type token (realHandler type handler c) in
      let c := emit (Conn connection call) c in
      let c := with_progressDisposables
                 (JSMap.set token {| d_connection := connection; d_binding := call |}
                    (_progressDisposables c)) c in
      ({| reg_key := token; reg_branch := WasActive |}, c)
  | None =>
      let c := with_pendingProgressHandlers
                 (JSMap.set token (type, handler) (_pendingProgressHandlers c)) c in
      ({| reg_key := token; reg_branch := WasPending |}, c)
  end.

Definition disposeProgressBinding (token : ProgressToken) (c : Client) : Client :=
  match JSMap.get token (_progressDisposables c) with
  | Some disposable =>
      let c := emit (Dispose disposable) c in
      with_progressDisposables (JSMap.delete token (_progressDisposables c)) c
  | None => c
  end.

Definition disposeProgress (r : HandlerRegistration ProgressToken) (c : Client) : Client :=
  let token := reg_key r in
  let c := with_progressHandlers (JSMap.delete token (_progressHandlers c)) c in
  match reg_branch r with
  | WasActive => disposeProgressBinding token c
  | WasPending =>
      let c := with_pendingProgressHandlers
                 (JSMap.delete token (_pendingProgressHandlers c)) c in
      disposeProgressBinding token c
  end.

(** *** Start and the initialize handshake *)

(** What the operations awaited by [start()] settle to. *)
Record StartEnv := {
  createMessageTransports : Result unit;
  connection_initialize : Result InitializeResult;
  initialized_sent : Result unit;
  generateUuid : string
}.

(** The loops at the head of [start()]: every registered entry becomes
    pending unless its key is pending already. *)
Definition makePending {K V : Type} `{EqDecision K}
    (registered pending : JSMap.t K V) : JSMap.t K V :=
  fold_left
    (λ pending '(key, value),
       if JSMap.has key pending then pending else JSMap.set key value pending)
    registered pending.

Definition resolveTextDocumentSync (textDocumentSync : option TextDocumentSync)
    : option TextDocumentSyncOptions :=
  match textDocumentSync with
  | Some (TDS_number kind) =>
      if decide (kind = TextDocumentSyncKind.None_) then
        Some {| openClose := Some false;
                change := Some TextDocumentSyncKind.None_;
                willSave := None; willSaveWaitUntil := None;
                save := None |}
      else
        Some {| openClose := Some true;
                change := Some kind;
                willSave := None; willSaveWaitUntil := None;
                save := Some (SaveOptions (Some false)) |}
  | Some (TDS_options options) => Some options
  | Some TDS_null => None
  | None => None
  end.

Definition unsupportedEncoding (encoding : string) (c : Client) : Error :=
  JSError ("Unsupported position encoding (" +:+ encoding
           +:+ ") received from server " +:+ _name c).

(** The three loops of [doInitialize] that bind the pending handlers, each
    followed by [clear()]. *)
Definition bindNotification (connection : nat) (c : Client)
    (entry : string * AppHandler) : Client :=
  let '(method, handler) := entry in
  let call := C_onNotification method (UserHandler handler) in
  let c := emit (Conn connection call) c in
  with_notificationDisposables
    (JSMap.set method {| d_connection := connection; d_binding := call |}
       (_notificationDisposables c)) c.

Definition bindPendingNotifications (connection : nat) (c : Client) : Client :=
  let c := fold_left (bindNotification connection) (_pendingNotificationHandlers c) c in
  with_pendingNotificationHandlers (JSMap.clear (_pendingNotificationHandlers c)) c.

Definition bindRequest (connection : nat) (c : Client)
    (entry : string * AppHandler) : Client :=
  let '(method, handler) := entry in
  let call := C_onRequest method (UserHandler handler) in
  let c := emit (Conn connection call) c in
  with_requestDisposables
    (JSMap.set method {| d_connection := connection; d_binding := call |}
       (_requestDisposables c)) c.

Definition bindPendingRequests (connection : nat) (c : Client) : Client :=
  let c := fold_left (bindRequest connection) (_pendingRequestHandlers c) c in
  with_pendingRequestHandlers (JSMap.clear (_pendingRequestHandlers c)) c.

Definition bindProgress (connection : nat) (c : Client)
    (entry : ProgressToken * (ProgressType * AppHandler)) : Client :=
  let '(token, (type, handler)) := entry in
  let call := C_onProgress type token (UserHandler handler) in
  let c := emit (Conn connection call) c in
  with_progressDisposables
    (JSMap.set token {| d_connection := connection; d_binding := call |}
       (_progressDisposables c)) c.

Definition bindPendingProgress (connection : nat) (c : Client) : Client :=
  let c := fold_left (bindProgress connection) (_pendingProgressHandlers c) c in
  with_pendingProgressHandlers (JSMap.clear (_pendingProgressHandlers c)) c.

(** [error instanceof ResponseError && error.data && error.data.retry] *)
Definition isRetryError (e : Error) : bool :=
  match e with
  | ResponseError _ _ (Some data) => retry data
  | _ => false
  end.

(** The [catch] block of [doInitialize], before it rethrows. *)
Definition initializeFailed (connection : nat) (e : Error) (c : Client) : Client :=
  match initializationFailedHandler (_clientOptions c) with
  | Some handler =>
      if handler e then emit (Spawn (T_initialize connection)) c
      else emit (Spawn T_stop) c
  | None =>
      if isRetryError e then emit (ShowErrorMessage (errorMessage e) true) c
      else
        let c := if bool_decide (errorMessage e ≠ "")
                 then emit (ShowErrorMessage (errorMessage e) false) c
                 else c in
        let c := error "Server initialization failed." (Show true) c in
        emit (Spawn T_stop) c
  end.

Definition ownBindings : list ConnectionCall :=
  [ C_onNotification Method.publishDiagnostics (ClientHandler H_handleDiagnostics);
    C_onRequest Method.registration (ClientHandler H_handleRegistrationRequest);
    C_onRequest Method.registerFeature (ClientHandler H_handleRegistrationRequest);
    C_onRequest Method.unregistration (ClientHandler H_handleUnregistrationRequest);
    C_onRequest Method.unregisterFeature (ClientHandler H_handleUnregistrationRequest);
    C_onRequest Method.applyWorkspaceEdit (ClientHandler H_handleApplyWorkspaceEdit) ].

Definition hookFileEvents (c : Client) : Client :=
  if synchronize_fileEvents (_clientOptions c)
  then emit (Host HookFileEvents) c else c.

Definition initializeFeatures (c : Client) : Client :=
  emits (map (λ f, FeatureDo (featureName f) F_initialize) (_features c)) c.

(** [if (suspend.mode !== SuspendMode.off) { this._idleInterval = ... }] *)
Definition armIdleTimer (c : Client) : Client :=
  if decide (suspend_mode (_clientOptions c) = SuspendMode.off) then c
  else with_idleInterval true (emit (Host SetInterval_checkSuspend) c).

Definition doInitialize (env : StartEnv) (connection : nat)
    (workDoneToken : option string) (c : Client)
    : Result InitializeResult * Client :=
  let c := emit (Conn connection (C_initialize workDoneToken)) c in
  match connection_initialize env with
  | Throw e => (Throw e, initializeFailed connection e c)
  | Ok result =>
      let rejected :=
        match positionEncoding (capabilities result) with
        | Some encoding =>
            if decide (encoding = "utf-16") then None else Some encoding
        | None => None
        end in
      match rejected with
      | Some encoding =>
          let e := unsupportedEncoding encoding c in
          (Throw e, initializeFailed connection e c)
      | None =>
          let c := with_initializeResult (Some result) c in
          let c := set_state ClientState.Running c in
          let textDocumentSyncOptions :=
            resolveTextDocumentSync (textDocumentSync (capabilities result)) in
          let c := with_capabilities
                     (Some {| server := capabilities result;
                              resolvedTextDocumentSync := textDocumentSyncOptions |})
                     c in
          let c := emits (map (Conn connection) ownBindings) c in
          let c := bindPendingNotifications connection c in
          let c := bindPendingRequests connection c in
          let c := bindPendingProgress connection c in
          let c := armIdleTimer c in
          let c := emit (Conn connection (C_sendNotification Method.initialized)) c in
          match initialized_sent env with
          | Throw e => (Throw e, initializeFailed connection e c)
          | Ok _ =>
              let c := hookFileEvents c in
              let c := emit (Host HookConfigurationChanged) c in
              let c := initializeFeatures c in
              (Ok result, c)
          end
      end
  end.

Definition initialize (env : StartEnv) (connection : nat) (c : Client)
    : Result InitializeResult * Client :=
  let c := emit (Conn connection C_trace) c in
  let c := emits (map (λ f, FeatureDo (featureName f) F_fillClientCapabilities)
                    (_features c)) c in
  let c := emits (map (λ f, FeatureDo (featureName f) F_fillInitializeParams)
                    (filter (λ f, hasFillInitializeParams f = true) (_features c))) c in
  if progressOnInitialization (_clientOptions c) then
    let token := generateUuid env in
    let c := emit (ProgressPart token PP_new) c in
    match doInitialize env connection (Some token) c with
    | (Ok result, c) => (Ok result, emit (ProgressPart token PP_done) c)
    | (Throw e, c) => (Throw e, emit (ProgressPart token PP_cancel) c)
    end
  else doInitialize env connection None c.

Definition startBindings : list ConnectionCall :=
  [ C_onNotification Method.logMessage (ClientHandler H_logMessage);
    C_onNotification Method.showMessage (ClientHandler H_showMessage);
    C_onRequest Method.showMessageRequest (ClientHandler H_showMessageRequest);
    C_onNotification Method.telemetryEvent (ClientHandler H_telemetryEvent);
    C_onRequest Method.showDocument (ClientHandler H_showDocument);
    C_listen ].

(** The [try] block of [start()]. *)
Definition startConnection (env : StartEnv) (c : Client) : Result unit * Client :=
  match createMessageTransports env with
  | Throw e => (Throw e, c)
  | Ok _ =>
      let connection := connections c in
      let c := with_connections (S connection) c in
      let c := with_connection (Some connection) c in
      let c := emits (map (Conn connection) startBindings) c in
      match initialize env connection c with
      | (Ok _, c) => (Ok tt, c)
      | (Throw e, c) => (Throw e, c)
      end
  end.

(** The diagnostics collection is created unless a restart reuses it. *)
Definition ensureDiagnostics (c : Client) : Client :=
  if _diagnostics c then c
  else with_diagnostics true
         (emit (Host (DiagnosticCollection_create
                        (diagnosticCollectionName (_clientOptions c)))) c).

(** [start()] from the point where the start promise is created. *)
Definition startNow (env : StartEnv) (c : Client) : Promise * Client :=
  let c := with_onStart (Some Suspended) c in
  let c := ensureDiagnostics c in
  let c := with_pendingNotificationHandlers
             (makePending (_notificationHandlers c)
                (_pendingNotificationHandlers c)) c in
  let c := with_pendingRequestHandlers
             (makePending (_requestHandlers c) (_pendingRequestHandlers c)) c in
  let c := with_pendingProgressHandlers
             (makePending (_progressHandlers c) (_pendingProgressHandlers c)) c in
  let c := set_state ClientState.Starting c in
  match startConnection env c with
  | (Ok _, c) =>
      let c := with_onStart (Some (Resolved tt)) c in
      (Resolved tt, c)
  | (Throw e, c) =>
      let c := set_state ClientState.StartFailed c in
      let c := error (_name c +:+ " client: couldn't create connection to server.")
                 Force c in
      let c := with_onStart (Some (Rejected e)) c in
      (Rejected e, c)
  end.

Definition start (env : StartEnv) (c : Client) : Promise * Client :=
  match _onStart c with
  | Some promise => (promise, c)
  | None =>
      match _onStop c with
      | Some (Rejected e) => (Rejected e, c)
      | Some Suspended => (Suspended, c)
      | Some (Resolved _) => startNow env (with_onStop None c)
      | None => startNow env c
      end
  end.

(** [$start()] *)
Definition start' (env : StartEnv) (c : Client) : Settlement nat * Client :=
  if decide (_state c = ClientState.StartFailed) then
    (Rejected (JSError "Previous start failed. Can't restart server."), c)
  else
    match start env c with
    | (Rejected e, c) => (Rejected e, c)
    | (Suspended, c) => (Suspended, c)
    | (Resolved _, c) =>
        match _connection c with
        | None => (Rejected (JSError "Starting server failed"), c)
        | Some connection => (Resolved connection, c)
        end
    end.

(** *** Stop *)

Definition cleanUpChannel (c : Client) : Client :=
  emit (Host CleanUpChannel) c.

(** [cleanUp(channel, diagnostics)].  Purging the file events, cancelling
    their delayer and clearing the synced documents is one host effect. *)
Definition cleanUp (channel diagnostics : bool) (c : Client) : Client :=
  let c := emit (Host FileEventDelayer_cancel) c in
  let c := emits (map (λ f, FeatureDo (featureName f) F_dispose)
                    (rev (_features c))) c in
  let c := if channel then cleanUpChannel c else c in
  let c := if diagnostics && _diagnostics c
           then with_diagnostics false (emit (Host DiagnosticCollection_dispose) c)
           else c in
  if _idleInterval c
  then with_idleInterval false (emit (Host IdleInterval_dispose) c)
  else c.

(** How the race between the timer and the shutdown / exit round trip
    ends. *)
Inductive StopRace :=
| ConnectionWon
| TimeoutWon (exitSent : bool)
| ShutdownRejected (e : Error)
| ExitRejected (e : Error).

Record StopEnv := {
  stop_start : StartEnv;
  stop_race : StopRace
}.

(** [stop()] between [await this.$start()] and the race: the synchronous
    part that ends with [_onStop] assigned. *)
Definition stopBegin (timeout : Z) (connection : nat) (c : Client) : Client :=
  let c := with_initializeResult None c in
  let c := set_state ClientState.Stopping c in
  let c := cleanUp false true c in
  let c := emit (Host (SetTimeout timeout)) c in
  let c := emit (Conn connection C_shutdown) c in
  with_onStop (Some Suspended) c.

(** The handlers chained on the race: [then], the rejection handler and
    [finally]. *)
Definition stopSettle (race : StopRace) (connection : nat) (c : Client)
    : Promise * Client :=
  let '(settled, c) :=
    match race with
    | ConnectionWon =>
        let c := emit (Conn connection C_exit) c in
        let c := emit (Conn connection C_end) c in
        let c := emit (Conn connection C_dispose) c in
        (Resolved tt, c)
    | TimeoutWon exitSent =>
        let c := if exitSent then emit (Conn connection C_exit) c else c in
        let c := error "Stopping server timed out" (Show false) c in
        (Rejected (JSError "Stopping the server timed out"), c)
    | ShutdownRejected e =>
        let c := error "Stopping server failed" (Show false) c in
        (Rejected e, c)
    | ExitRejected e =>
        let c := emit (Conn connection C_exit) c in
        let c := error "Stopping server failed" (Show false) c in
        (Rejected e, c)
    end in
  let c := set_state ClientState.Stopped c in
  let c := cleanUpChannel c in
  let c := with_onStart None c in
  let c := with_onStop None c in
  let c := with_connection None c in
  (settled, c).

Definition stop (env : StopEnv) (timeout : Z) (c : Client) : Promise * Client :=
  if decide (_state c = ClientState.Stopped) then (Resolved tt, c)
  else
    match (if decide (_state c = ClientState.Stopping) then _onStop c else None) with
    | Some promise => (promise, c)
    | None =>
        match start' (stop_start env) c with
        | (Rejected e, c) => (Rejected e, c)
        | (Suspended, c) => (Suspended, c)
        | (Resolved connection, c) =>
            stopSettle (stop_race env) connection (stopBegin timeout connection c)
        end
    end.

(** *** The diagnostics queue *)

Definition triggerDiagnosticQueue (c : Client) : Client :=
  emit (Host SetImmediate_workDiagnosticQueue) c.

(** [handleDiagnostics(params)], with [params.uri] and
    [params.diagnostics]. *)
Definition handleDiagnostics (uri : string) (diagnostics : list Diagnostic)
    (c : Client) : Client :=
  if negb (_diagnostics c) then c
  else
    let key := uri in
    let c :=
      match _diagnosticQueueState c with
      | Busy document converting _ =>
          if decide (document = key)
          then with_diagnosticQueueState (Busy document converting true) c
          else c
      | Idle => c
      end in
    let c := with_diagnosticQueue
               (JSMap.set uri diagnostics (_diagnosticQueue c)) c in
    triggerDiagnosticQueue c.

(** The callback of [setImmediate]. *)
Definition workDiagnosticQueue (c : Client) : Client :=
  match _diagnosticQueueState c with
  | Busy _ _ _ => c
  | Idle =>
      match JSMap.first (_diagnosticQueue c) with
      | None => c
      | Some (document, diagnostics) =>
          let c := with_diagnosticQueue
                     (JSMap.delete document (_diagnosticQueue c)) c in
          let c := with_diagnosticQueueState (Busy document diagnostics false) c in
          emit (Host (AsDiagnostics document diagnostics)) c
      end
  end.

(** [setDiagnostics(uri, diagnostics)]; the effect also names the queue key
    the Uri was made from. *)
Definition setDiagnostics (document : string) (uri : Uri)
    (diagnostics : list VDiagnostic) (c : Client) : Client :=
  if negb (_diagnostics c) then c
  else emit (Host (DiagnosticCollection_set document uri diagnostics)) c.

(** The continuation of the conversion started by [workDiagnosticQueue]:
    the [then] callback when [asDiagnostics] resolved, and [finally]. *)
Definition conversionSettled (resolved : bool) (c : Client) : Client :=
  match _diagnosticQueueState c with
  | Idle => c
  | Busy document diagnostics cancelled =>
      let c :=
        if resolved && negb cancelled then
          let converted := asDiagnostics (_p2c c) diagnostics in
          let uri := asUri (_p2c c) document in
          if middleware_handleDiagnostics (_clientOptions c)
          then emit (Host (Middleware_handleDiagnostics document uri converted)) c
          else setDiagnostics document uri converted c
        else c in
      let c := with_diagnosticQueueState Idle c in
      triggerDiagnosticQueue c
  end.

(** *** Registration requests *)

Record Registration := {
  r_id : string;
  r_method : string;
  r_registerOptions : option RegisterOptions
}.

Record Unregistration := {
  u_id : string;
  u_method : string
}.

Definition registerOutcome (feature : Feature) (data : RegistrationData)
    : option Error :=
  match feature with
  | DynamicFeature _ _ _ registerThrows => registerThrows data
  | StaticFeature _ _ => None
  end.

Definition registrationData (registration : Registration) (c : Client)
    : RegistrationData :=
  let options :=
    default {| ro_documentSelector := None; ro_other := "" |}
      (r_registerOptions registration) in
  {| rd_id := r_id registration;
     rd_registerOptions :=
       {| ro_documentSelector :=
            Some (default (documentSelector (_clientOptions c))
                    (ro_documentSelector options));
          ro_other := ro_other options |} |}.

(** [handleRegistrationRequest(params)], over [params.registrations]. *)
Fixpoint handleRegistrationRequest (registrations : list Registration)
    (c : Client) : Promise * Client :=
  match registrations with
  | [] => (Resolved tt, c)
  | registration :: rest =>
      match JSMap.get (r_method registration) (_dynamicFeatures c) with
      | None =>
          (Rejected (JSError ("No feature implementation for "
                              +:+ r_method registration
                              +:+ " found. Registration failed.")), c)
      | Some feature =>
          let data := registrationData registration c in
          let c := emit (FeatureDo (featureName feature) (F_register data)) c in
          match registerOutcome feature data with
          | Some err => (Rejected err, c)
          | None => handleRegistrationRequest rest c
          end
      end
  end.

Fixpoint handleUnregistrationRequest (unregisterations : list Unregistration)
    (c : Client) : Promise * Client :=
  match unregisterations with
  | [] => (Resolved tt, c)
  | unregistration :: rest =>
      match JSMap.get (u_method unregistration) (_dynamicFeatures c) with
      | None =>
          (Rejected (JSError ("No feature implementation for "
                              +:+ u_method unregistration
                              +:+ " found. Unregistration failed.")), c)
      | Some feature =>
          let c := emit (FeatureDo (featureName feature)
                           (F_unregister (u_id unregistration))) c in
          handleUnregistrationRequest rest c
      end
  end.

(** *** Workspace edits *)

(** An open document of the host: [document.uri.toString()] and
    [document.version]. *)
Record TextDocument := {
  td_uri : string;
  td_version : Z
}.

(** An entry of [documentChanges]; [TextDocumentEdit.is] holds of the first
    constructor only.  [version] is [integer | null]. *)
Inductive DocumentChange :=
| TextDocumentEdit (uri : string) (version : option Z)
| CreateFile (uri : string)
| RenameFile (oldUri newUri : string)
| DeleteFile (uri : string).

Record WorkspaceEdit := {
  documentChanges : option (list DocumentChange)
}.

Record ApplyWorkspaceEditResult := {
  applied : bool
}.

Record ApplyEditEnv := {
  asWorkspaceEdit_settles : Result unit;
  Workspace_textDocuments : list TextDocument;
  applyEdit_settles : Result bool
}.

Definition openTextDocuments (documents : list TextDocument)
    : JSMap.t string TextDocument :=
  fold_left (λ m document, JSMap.set (td_uri document) document m)
    documents JSMap.empty.

(** The loop over [workspaceEdit.documentChanges], with its [break]. *)
Fixpoint versionMismatch (opened : JSMap.t string TextDocument)
    (changes : list DocumentChange) : bool :=
  match changes with
  | [] => false
  | TextDocumentEdit uri (Some version) :: rest =>
      if bool_decide (version ≠ 0) && bool_decide (0 ≤ version) then
        match JSMap.get uri opened with
        | Some textDocument =>
            if bool_decide (td_version textDocument ≠ version) then true
            else versionMismatch opened rest
        | None => versionMismatch opened rest
        end
      else versionMismatch opened rest
  | _ :: rest => versionMismatch opened rest
  end.

Definition handleApplyWorkspaceEdit (env : ApplyEditEnv) (edit : WorkspaceEdit)
    (c : Client) : Settlement ApplyWorkspaceEditResult * Client :=
  let c := emit (Host AsWorkspaceEdit) c in
  match asWorkspaceEdit_settles env with
  | Throw e => (Rejected e, c)
  | Ok _ =>
      let opened := openTextDocuments (Workspace_textDocuments env) in
      let mismatch :=
        match documentChanges edit with
        | Some changes => versionMismatch opened changes
        | None => false
        end in
      if mismatch then (Resolved {| applied := false |}, c)
      else
        let c := emit (Host Workspace_applyEdit) c in
        match applyEdit_settles env with
        | Throw e => (Rejected e, c)
        | Ok value => (Resolved {| applied := value |}, c)
        end
  end.

(** *** Failed requests *)

Section FailedRequest.

(** The error codes of [LSPErrorCodes] and the method names of the three
    semantic-token requests: constants of vscode-languageserver-protocol. *)
Variables RequestCancelled ServerCancelled ContentModified : Z.
Variables SemanticTokensRequest_method SemanticTokensRangeRequest_method
  SemanticTokensDeltaRequest_method : string.

Definition RequestsToCancelOnContentModified : list string :=
  [ SemanticTokensRequest_method;
    SemanticTokensRangeRequest_method;
    SemanticTokensDeltaRequest_method ].

(** [handleFailedRequest(type, token, error, defaultValue, showNotification)];
    [token] is the token's [isCancellationRequested] when a token is given. *)
Definition handleFailedRequest {T : Type} (method : string) (token : option bool)
    (err : Error) (defaultValue : T) (showNotification : bool) (c : Client)
    : Result T * Client :=
  let failed :=
    (Throw err,
     error ("Request " +:+ method +:+ " failed.") (Show showNotification) c) in
  match err with
  | ResponseError code _ data =>
      if bool_decide (code = RequestCancelled)
         || bool_decide (code = ServerCancelled) then
        match token with
        | Some true => (Ok defaultValue, c)
        | _ =>
            match data with
            | Some d => (Throw (LSPCancellationError d), c)
            | None => (Throw CancellationError, c)
            end
        end
      else if bool_decide (code = ContentModified) then
        if bool_decide (method ∈ RequestsToCancelOnContentModified)
        then (Throw CancellationError, c)
        else (Ok defaultValue, c)
      else failed
  | _ => failed
  end.

End FailedRequest.

(** *** Connection handlers, feature lookup and the idle check *)

(** The [ErrorHandler] interface of the client options.  A handler has
    state of its own, threaded beside the client; [closed()] is given the
    reading of the clock, and either method may throw. *)
Class ErrorHandler (H : Type) := {
  handler_error : Error → option Z → H → Result ErrorHandlerResult * H;
  handler_closed : Z → H → Result CloseHandlerResult * H
}.

#[global] Instance DefaultErrorHandler_handler : ErrorHandler DefaultErrorHandler.t := {|
  handler_error _ count h := (Ok (DefaultErrorHandler.error count), h);
  handler_closed now h :=
    let '(result, h) := DefaultErrorHandler.closed now h in (Ok result, h)
|}.

(** [createDefaultErrorHandler(maxRestartCount)] *)
Definition createDefaultErrorHandler (maxRestartCount : option Z) (c : Client)
    : Result DefaultErrorHandler.t :=
  match maxRestartCount with
  | Some n =>
      if bool_decide (n < 0)
      then Throw (JSError ("Invalid maxRestartCount: " +:+ pretty n))
      else Ok (DefaultErrorHandler.create (_name c) n)
  | None => Ok (DefaultErrorHandler.create (_name c) 4)
  end.

(** [handleConnectionClosed()].  The [start()] of the restart branch is run
    to its settlement, with what it awaits given by [env]. *)
Definition handleConnectionClosed {H : Type} `{ErrorHandler H}
    (env : StartEnv) (now : Z) (h : H) (c : Client) : H * Client :=
  if decide (_state c = ClientState.Stopped) then (h, c)
  else
    let c := match _connection c with
             | Some connection => emit (Conn connection C_dispose) c
             | None => c
             end in
    let doNotRestart :=
      {| ch_action := CloseAction.DoNotRestart; ch_message := None |} in
    let '(handlerResult, h) :=
      if decide (_state c = ClientState.Stopping) then (doNotRestart, h)
      else
        match handler_closed now h with
        | (Ok result, h) => (result, h)
        | (Throw _, h) => (doNotRestart, h)
        end in
    let c := with_connection None c in
    match ch_action handlerResult with
    | CloseAction.DoNotRestart =>
        let c := error (default "Connection to server got closed. Server will not be restarted."
                          (ch_message handlerResult)) Force c in
        let c := cleanUp false true c in
        let c := if decide (_state c = ClientState.Starting)
                 then set_state ClientState.StartFailed c
                 else set_state ClientState.Stopped c in
        let c := with_onStop (Some (Resolved tt)) c in
        let c := with_onStart None c in
        (h, c)
    | CloseAction.Restart =>
        let c := info (default "Connection to server got closed. Server will restart."
                         (ch_message handlerResult)) c in
        let c := cleanUp false false c in
        let c := set_state ClientState.Initial c in
        let c := with_onStop (Some (Resolved tt)) c in
        let c := with_onStart None c in
        match start env c with
        | (Rejected e, c) => (h, error "Restarting server failed" Force c)
        | (_, c) => (h, c)
        end
    end.

(** [handleConnectionError(error, message, count)].  The [stop()] of the
    shutdown branch is run to its settlement. *)
Definition handleConnectionError {H : Type} `{ErrorHandler H}
    (env : StopEnv) (err : Error) (count : option Z) (h : H) (c : Client)
    : Result unit * (H * Client) :=
  match handler_error err count h with
  | (Throw e, h) => (Throw e, (h, c))
  | (Ok handlerResult, h) =>
      match eh_action handlerResult with
      | ErrorAction.Shutdown =>
          let c := error (default ("Client " +:+ _name c
                                   +:+ ": connection to server is erroring. Shutting down server.")
                            (eh_message handlerResult)) Force c in
          match stop env 2000 c with
          | (Rejected e, c) =>
              (Ok tt, (h, error "Stopping server failed" (Show false) c))
          | (_, c) => (Ok tt, (h, c))
          end
      | ErrorAction.Continue => (Ok tt, (h, c))
      end
  end.

(** [getFeature(request)] *)
Definition getFeature (request : string) (c : Client) : option Feature :=
  JSMap.get request (_dynamicFeatures c).

(** What [feature.getState()] answers, as far as [isIdle] reads it: the
    kind, whether [registrations] is truthy, whether [matches] is [true]
    and the [activation] flag when there is one. *)
Inductive FeatureStateKind := K_static | K_document | K_workspace | K_window.

#[global] Instance FeatureStateKind_eq_dec : EqDecision FeatureStateKind.
Proof. solve_decision. Defined.

Record FeatureState := {
  fs_kind : FeatureStateKind;
  fs_registrations : bool;
  fs_matches : bool;
  fs_activation : option bool
}.

(** The loop of [isIdle()] over the features. *)
Fixpoint idleAmong (suspendMode : SuspendMode.t) (getState : Feature → FeatureState)
    (features : list Feature) : bool :=
  match features with
  | [] => true
  | feature :: rest =>
      let state := getState feature in
      if decide (fs_kind state = K_static) then idleAmong suspendMode getState rest
      else if negb (fs_registrations state) then idleAmong suspendMode getState rest
      else if bool_decide (fs_kind state = K_document) && fs_matches state then false
      else if bool_decide (suspendMode = SuspendMode.activationOnly)
              && bool_decide (fs_activation state = Some false) then false
      else idleAmong suspendMode getState rest
  end.

Definition isIdle (getState : Feature → FeatureState) (c : Client) : bool :=
  let suspendMode := suspend_mode (_clientOptions c) in
  if decide (suspendMode = SuspendMode.off) then false
  else idleAmong suspendMode getState (_features c).

(** [checkSuspend()], the callback of the idle timer. *)
Definition checkSuspend (getState : Feature → FeatureState) (c : Client) : Client :=
  if decide (_state c ≠ ClientState.Running) then c
  else if isIdle getState c then info "Can suspend connection" c
  else c.

(** *** Sending *)

(** [DidChangeTextDocumentNotification.type.method], declared in
    vscode-languageserver-protocol. *)
Definition DidChangeTextDocumentNotification_method : string :=
  "textDocument/didChange".

(** What the sending methods call on the feature that synchronises
    document changes and on the connection.  The calls of one send are
    recorded beside the client, in order: they come after the effects of
    [$start()] and before the log entry of a failure. *)
Inductive SendCall :=
| S_forceDelivery (feature : string)
| S_sendRequest (connection : nat) (method : string)
| S_sendNotification (connection : nat) (method : string)
| S_sendProgress (connection : nat) (token : ProgressToken).

#[global] Instance SendCall_eq_dec : EqDecision SendCall.
Proof. solve_decision. Defined.

(** What a send awaits or calls outside the client: the start of the
    server, the error the engine throws for a call on [undefined], and
    whether [forceDelivery] or the sending call on the connection
    throws. *)
Record SendEnv := {
  send_start : StartEnv;
  send_typeError : Error;
  forceDelivery_throws : option Error;
  connection_send_throws : option Error
}.

(** [forceDocumentSync()].  The field [_didChangeTextDocumentFeature] is
    threaded beside the client as [cached]. *)
Definition forceDocumentSync (env : SendEnv) (cached : option Feature)
    (c : Client) : Result unit * list SendCall * option Feature :=
  let cached :=
    match cached with
    | Some feature => Some feature
    | None => JSMap.get DidChangeTextDocumentNotification_method (_dynamicFeatures c)
    end in
  match cached with
  | None => (Throw (send_typeError env), [], None)
  | Some feature =>
      match forceDelivery_throws env with
      | Some e => (Throw e, [S_forceDelivery (featureName feature)], cached)
      | None => (Ok tt, [S_forceDelivery (featureName feature)], cached)
      end
  end.

(** [sendRequest(type, ...params)].  A resolved result names the
    connection whose [sendRequest] gave the promise that is returned: the
    client does not await it, so its settling is the connection's. *)
Definition sendRequest (env : SendEnv) (method : string)
    (cached : option Feature) (c : Client)
    : Settlement nat * list SendCall * (option Feature * Client) :=
  let failed e c := error ("Sending request " +:+ method +:+ " failed.") (Show true) c in
  match start' (send_start env) c with
  | (Suspended, c) => (Suspended, [], (cached, c))
  | (Rejected e, c) => (Rejected e, [], (cached, failed e c))
  | (Resolved connection, c) =>
      match forceDocumentSync env cached c with
      | (Throw e, calls, cached) => (Rejected e, calls, (cached, failed e c))
      | (Ok _, calls, cached) =>
          let calls := calls ++ [S_sendRequest connection method] in
          match connection_send_throws env with
          | Some e => (Rejected e, calls, (cached, failed e c))
          | None => (Resolved connection, calls, (cached, c))
          end
      end
  end.

(** [sendNotification(type, params)] *)
Definition sendNotification (env : SendEnv) (method : string)
    (cached : option Feature) (c : Client)
    : Settlement nat * list SendCall * (option Feature * Client) :=
  let failed e c :=
    error ("Sending notification " +:+ method +:+ " failed.") (Show true) c in
  match start' (send_start env) c with
  | (Suspended, c) => (Suspended, [], (cached, c))
  | (Rejected e, c) => (Rejected e, [], (cached, failed e c))
  | (Resolved connection, c) =>
      match forceDocumentSync env cached c with
      | (Throw e, calls, cached) => (Rejected e, calls, (cached, failed e c))
      | (Ok _, calls, cached) =>
          let calls := calls ++ [S_sendNotification connection method] in
          match connection_send_throws env with
          | Some e => (Rejected e, calls, (cached, failed e c))
          | None => (Resolved connection, calls, (cached, c))
          end
      end
  end.

(** The token as a template literal prints it. *)
Definition tokenText (token : ProgressToken) : string :=
  match token with
  | TokenString s => s
  | TokenNumber n => pretty n
  end.

(** [sendProgress(type, token, value)] *)
Definition sendProgress (env : SendEnv) (token : ProgressToken) (c : Client)
    : Settlement nat * list SendCall * Client :=
  let failed e c :=
    error ("Sending progress for token " +:+ tokenText token +:+ " failed.")
      (Show true) c in
  match start' (send_start env) c with
  | (Suspended, c) => (Suspended, [], c)
  | (Rejected e, c) => (Rejected e, [], failed e c)
  | (Resolved connection, c) =>
      match connection_send_throws env with
      | Some e => (Rejected e, [S_sendProgress connection token], failed e c)
      | None => (Resolved connection, [S_sendProgress connection token], c)
      end
  end.

End BaseLanguageClient.

(** ** The connection wrapper

    [createConnection(input, output, errorHandler, closeHandler, options)]:
    the object that wraps the protocol connection and keeps [_lastUsed]. *)

Module Connection.

Inductive TraceFormat := Text | JSON.

(** The third argument of [trace]: a boolean or trace options. *)
Inductive TraceArgument :=
| SendNotification (flag : bool)
| TraceOptions (sendNotification : bool) (traceFormat : TraceFormat).

(** The type of a message handed to the protocol connection: one of the
    three protocol types the wrapper names itself, or what the caller
    gave. *)
Inductive MessageType :=
| InitializeRequest
| ShutdownRequest
| ExitNotification
| Given (method : string).

(** Calls on the protocol connection. *)
Inductive ProtocolCall :=
| P_listen
| P_sendRequest (type : MessageType)
| P_onRequest (method : string)
| P_sendNotification (type : MessageType)
| P_onNotification (method : string)
| P_onProgress (token : ProgressToken)
| P_sendProgress (token : ProgressToken)
| P_trace (argument : TraceArgument)
| P_end
| P_dispose.

(** The members of the wrapper. *)
Inductive Member :=
| resetLastUsed
| listen
| sendRequest (method : string)
| onRequest (method : string)
| sendNotification (method : string)
| onNotification (method : string)
| onProgress (token : ProgressToken)
| sendProgress (token : ProgressToken)
| trace (argument : option TraceArgument)
| initialize
| shutdown
| exit
| end_
| dispose.

(** The closure variable [_lastUsed]. *)
Record t := { lastUsed : Z }.

(** A call of a member at the time [now]: the wrapper afterwards and what
    it calls on the protocol connection. *)
Definition call (now : Z) (member : Member) (connection : t)
    : t * list ProtocolCall :=
  match member with
  | resetLastUsed => ({| lastUsed := -1 |}, [])
  | listen => (connection, [P_listen])
  | sendRequest method =>
      ({| lastUsed := now |}, [P_sendRequest (Given method)])
  | onRequest method => (connection, [P_onRequest method])
  | sendNotification method =>
      ({| lastUsed := now |}, [P_sendNotification (Given method)])
  | onNotification method => (connection, [P_onNotification method])
  | onProgress token => (connection, [P_onProgress token])
  | sendProgress token => (connection, [P_sendProgress token])
  | trace None => (connection, [P_trace (TraceOptions false Text)])
  | trace (Some argument) => (connection, [P_trace argument])
  | initialize => ({| lastUsed := now |}, [P_sendRequest InitializeRequest])
  | shutdown => ({| lastUsed := now |}, [P_sendRequest ShutdownRequest])
  | exit => ({| lastUsed := now |}, [P_sendNotification ExitNotification])
  | end_ => (connection, [P_end])
  | dispose => (connection, [P_dispose])
  end.

(** A run of calls, each with the reading of the clock at its time. *)
Definition run (calls : list (Z * Member)) (connection : t)
    : t * list ProtocolCall :=
  fold_left (λ state entry,
               let '(connection, done) := state in
               let '(connection, new) := call entry.1 entry.2 connection in
               (connection, done ++ new))
    calls (connection, []).

End Connection.

(** The wrapper as [createConnection] returns it. *)
Definition createConnection : Connection.t := {| Connection.lastUsed := -1 |}.

(** ** Closed forms and observations

    The vocabulary of the statements below: the effects and the client
    that a path through [start()] leaves behind, written out, and what is
    read off a list of effects. *)

Module Paths.
Import BaseLanguageClient.

(** What the [state] setter fires. *)
Definition stateChange (old new : ClientState.t) : list Effect :=
  if decide (getPublicState new = getPublicState old) then []
  else [StateChange (getPublicState old) (getPublicState new)].

(** The effects of the [catch] block of [doInitialize]. *)
Definition initializeFailedEffects (connection : nat) (e : Error)
    (options : ClientOptions) : list Effect :=
  match initializationFailedHandler options with
  | Some handler =>
      if handler e then [Spawn (T_initialize connection)] else [Spawn T_stop]
  | None =>
      if isRetryError e then [ShowErrorMessage (errorMessage e) true]
      else
        (if bool_decide (errorMessage e ≠ "")
         then [ShowErrorMessage (errorMessage e) false] else [])
        ++ [LogError "Server initialization failed." (Show true); Spawn T_stop]
  end.

Definition hookFileEventsEffects (options : ClientOptions) : list Effect :=
  if synchronize_fileEvents options then [Host HookFileEvents] else [].

Definition armIdleTimerEffects (options : ClientOptions) : list Effect :=
  if decide (suspend_mode options = SuspendMode.off) then []
  else [Host SetInterval_checkSuspend].

Definition ensureDiagnosticsEffects (c : Client) : list Effect :=
  if _diagnostics c then []
  else [Host (DiagnosticCollection_create
                (diagnosticCollectionName (_clientOptions c)))].

Definition featureEffects (call : FeatureCall) (features : list Feature)
    : list Effect :=
  map (λ f, FeatureDo (featureName f) call) features.

(** The effects of [cleanUp(channel, diagnostics)]. *)
Definition cleanUpEffects (channel diagnostics : bool) (c : Client)
    : list Effect :=
  [Host FileEventDelayer_cancel]
  ++ featureEffects F_dispose (rev (_features c))
  ++ (if channel then [Host CleanUpChannel] else [])
  ++ (if diagnostics && _diagnostics c
      then [Host DiagnosticCollection_dispose] else [])
  ++ (if _idleInterval c then [Host IdleInterval_dispose] else []).

(** A response that [doInitialize] accepts. *)
Definition acceptedEncoding (result : InitializeResult) : Prop :=
  positionEncoding (capabilities result) = None ∨
  positionEncoding (capabilities result) = Some "utf-16".

Definition requestBinding (entry : string * AppHandler) : ConnectionCall :=
  C_onRequest entry.1 (UserHandler entry.2).

Definition notificationBinding (entry : string * AppHandler) : ConnectionCall :=
  C_onNotification entry.1 (UserHandler entry.2).

Definition progressBinding
    (entry : ProgressToken * (ProgressType * AppHandler)) : ConnectionCall :=
  C_onProgress entry.2.1 entry.1 (UserHandler entry.2.2).

(** The disposables map after binding a list of pending entries. *)
Definition boundDisposables {K V : Type} `{EqDecision K}
    (binding : K * V → ConnectionCall) (connection : nat)
    (pending : JSMap.t K V) (disposables : JSMap.t K Disposable)
    : JSMap.t K Disposable :=
  fold_left
    (λ d entry,
       JSMap.set entry.1
         {| d_connection := connection; d_binding := binding entry |} d)
    pending disposables.

(** What [doInitialize] asks of the connection and the host once the
    server answered with an accepted encoding, up to and including the
    [initialized] notification. *)
Definition handshakeEffects (connection : nat) (token : option string)
    (c : Client) : list Effect :=
  [Conn connection (C_initialize token)]
  ++ stateChange (_state c) ClientState.Running
  ++ map (Conn connection) ownBindings
  ++ map (λ entry, Conn connection (notificationBinding entry))
       (_pendingNotificationHandlers c)
  ++ map (λ entry, Conn connection (requestBinding entry))
       (_pendingRequestHandlers c)
  ++ map (λ entry, Conn connection (progressBinding entry))
       (_pendingProgressHandlers c)
  ++ armIdleTimerEffects (_clientOptions c)
  ++ [Conn connection (C_sendNotification Method.initialized)].

(** The client after that part of [doInitialize], effects apart. *)
Definition handshakeClient (connection : nat) (result : InitializeResult)
    (c : Client) : Client :=
  with_idleInterval
    (if decide (suspend_mode (_clientOptions c) = SuspendMode.off)
     then _idleInterval c else true)
  (with_pendingProgressHandlers []
  (with_progressDisposables
     (boundDisposables progressBinding connection
        (_pendingProgressHandlers c) (_progressDisposables c))
  (with_pendingRequestHandlers []
  (with_requestDisposables
     (boundDisposables requestBinding connection
        (_pendingRequestHandlers c) (_requestDisposables c))
  (with_pendingNotificationHandlers []
  (with_notificationDisposables
     (boundDisposables notificationBinding connection
        (_pendingNotificationHandlers c) (_notificationDisposables c))
  (with_capabilities
     (Some {| server := capabilities result;
              resolvedTextDocumentSync :=
                resolveTextDocumentSync (textDocumentSync (capabilities result)) |})
  (with_state ClientState.Running
  (with_initializeResult (Some result) c))))))))).

(** The client when [start()] has set the state to [Starting] and created
    its connection, effects apart. *)
Definition connectedClient (c : Client) : Client :=
  with_connection (Some (connections c))
  (with_connections (S (connections c))
  (with_state ClientState.Starting
  (with_pendingProgressHandlers
     (makePending (_progressHandlers c) (_pendingProgressHandlers c))
  (with_pendingRequestHandlers
     (makePending (_requestHandlers c) (_pendingRequestHandlers c))
  (with_pendingNotificationHandlers
     (makePending (_notificationHandlers c) (_pendingNotificationHandlers c))
  (with_diagnostics true
  (with_onStart (Some Suspended) c))))))).

Definition workDoneToken (env : StartEnv) (c : Client) : option string :=
  if progressOnInitialization (_clientOptions c)
  then Some (generateUuid env) else None.

Definition progressEffects (env : StartEnv) (c : Client)
    (call : ProgressPartCall) : list Effect :=
  if progressOnInitialization (_clientOptions c)
  then [ProgressPart (generateUuid env) call] else [].

(** The effects of [start()] from its first statement to the
    [initialize] request. *)
Definition connectEffects (env : StartEnv) (c : Client) : list Effect :=
  ensureDiagnosticsEffects c
  ++ stateChange (_state c) ClientState.Starting
  ++ map (Conn (connections c)) startBindings
  ++ [Conn (connections c) C_trace]
  ++ featureEffects F_fillClientCapabilities (_features c)
  ++ featureEffects F_fillInitializeParams
       (filter (λ f, hasFillInitializeParams f = true) (_features c))
  ++ progressEffects env c PP_new.

(** The effects of a successful [start()]. *)
Definition startedEffects (env : StartEnv) (c : Client) : list Effect :=
  connectEffects env c
  ++ handshakeEffects (connections c) (workDoneToken env c) (connectedClient c)
  ++ hookFileEventsEffects (_clientOptions c)
  ++ [Host HookConfigurationChanged]
  ++ featureEffects F_initialize (_features c)
  ++ progressEffects env c PP_done.

(** The client after a successful [start()], effects apart. *)
Definition startedClient (result : InitializeResult) (c : Client) : Client :=
  with_onStart (Some (Resolved tt))
    (handshakeClient (connections c) result (connectedClient c)).

(** The effects of a [start()] whose handshake the client refuses with
    the error [e]. *)
Definition refusedEffects (env : StartEnv) (e : Error) (c : Client)
    : list Effect :=
  connectEffects env c
  ++ [Conn (connections c) (C_initialize (workDoneToken env c))]
  ++ initializeFailedEffects (connections c) e (_clientOptions c)
  ++ progressEffects env c PP_cancel
  ++ stateChange ClientState.Starting ClientState.StartFailed
  ++ [LogError (_name c +:+ " client: couldn't create connection to server.")
        Force].

Definition refusedClient (e : Error) (c : Client) : Client :=
  with_onStart (Some (Rejected e))
    (with_state ClientState.StartFailed (connectedClient c)).

(** The application handler that the effect [e] binds, through
    [onRequest], to [method] on [connection], if it does. *)
Definition requestBound (connection : nat) (method : string) (e : Effect)
    : option AppHandler :=
  match e with
  | Conn connection' (C_onRequest method' (UserHandler handler)) =>
      if decide (connection' = connection ∧ method' = method)
      then Some handler else None
  | _ => None
  end.

(** The same for [onNotification]. *)
Definition notificationBound (connection : nat) (method : string) (e : Effect)
    : option AppHandler :=
  match e with
  | Conn connection' (C_onNotification method' (UserHandler handler)) =>
      if decide (connection' = connection ∧ method' = method)
      then Some handler else None
  | _ => None
  end.

(** The application handlers that the effects [es] bind to [method] on
    [connection], in order. *)
Definition boundRequestHandlers (connection : nat) (method : string)
    (es : list Effect) : list AppHandler :=
  omap (requestBound connection method) es.

Definition boundNotificationHandlers (connection : nat) (method : string)
    (es : list Effect) : list AppHandler :=
  omap (notificationBound connection method) es.

(** The maps of the registry are maps, and what is pending is registered
    with the same handler. *)
Definition registryReady (c : Client) : Prop :=
  NoDup (JSMap.keys (_requestHandlers c)) ∧
  NoDup (JSMap.keys (_pendingRequestHandlers c)) ∧
  NoDup (JSMap.keys (_notificationHandlers c)) ∧
  NoDup (JSMap.keys (_pendingNotificationHandlers c)) ∧
  (∀ method handler,
     JSMap.get method (_pendingRequestHandlers c) = Some handler →
     JSMap.get method (_requestHandlers c) = Some handler) ∧
  (∀ method handler,
     JSMap.get method (_pendingNotificationHandlers c) = Some handler →
     JSMap.get method (_notificationHandlers c) = Some handler).

(** No effect of [es] announces the public state [Running]. *)
Definition neverRunning (es : list Effect) : Prop :=
  ∀ old, StateChange old State.Running ∉ es.

(** The call of [feature.register] that a registration leads to, when its
    method has a dynamic feature. *)
Definition registerCall (c : Client) (r : Registration) : option Effect :=
  feature ← JSMap.get (r_method r) (_dynamicFeatures c);
  Some (FeatureDo (featureName feature) (F_register (registrationData r c))).

(** The error that call throws, if it throws. *)
Definition registerThrown (c : Client) (r : Registration) : option Error :=
  feature ← JSMap.get (r_method r) (_dynamicFeatures c);
  registerOutcome feature (registrationData r c).

Definition unknownMethod (r : Registration) : Error :=
  JSError ("No feature implementation for " +:+ r_method r
           +:+ " found. Registration failed.").

(** The client is stopped and can be started again. *)
Definition stoppedAndReset (c : Client) : Prop :=
  _state c = ClientState.Stopped ∧ _onStart c = None ∧ _onStop c = None ∧
  _connection c = None.

(** What an application does with the registry before it starts the
    client: it registers handlers and disposes of registrations it got
    back.  Before a start every registration is of the pending branch. *)
Inductive RegistryCall :=
| CallOnRequest (method : string) (handler : AppHandler)
| CallOnNotification (method : string) (handler : AppHandler)
| CallDisposeRequest (method : string)
| CallDisposeNotification (method : string).

Definition registryCall (call : RegistryCall) (c : Client) : Client :=
  match call with
  | CallOnRequest method handler => (onRequest method handler c).2
  | CallOnNotification method handler => (onNotification method handler c).2
  | CallDisposeRequest method =>
      disposeRequest {| reg_key := method; reg_branch := WasPending |} c
  | CallDisposeNotification method =>
      disposeNotification {| reg_key := method; reg_branch := WasPending |} c
  end.

Definition registryCalls (calls : list RegistryCall) (c : Client) : Client :=
  fold_left (λ c call, registryCall call c) calls c.

(** A client that was never started. *)
Definition neverStarted (c : Client) : Prop :=
  _state c = ClientState.Initial ∧ _onStart c = None ∧ _onStop c = None ∧
  _pendingRequestHandlers c = _requestHandlers c ∧
  _pendingNotificationHandlers c = _notificationHandlers c ∧
  _requestDisposables c = [] ∧ _notificationDisposables c = [] ∧
  NoDup (JSMap.keys (_requestHandlers c)) ∧
  NoDup (JSMap.keys (_notificationHandlers c)).

(** What happens to the diagnostics queue: a publish arrives, the
    callback of [setImmediate] runs, the conversion in flight settles
    (resolved or not), a start creates the diagnostic collection, a clean-up
    runs. *)
Inductive QueueEvent :=
| Publish (uri : string) (diagnostics : list Diagnostic)
| Tick
| Converted (resolved : bool)
| CollectionEnsured
| CleanedUp (channel diagnostics : bool).

Definition queueStep (event : QueueEvent) (c : Client) : Client :=
  match event with
  | Publish uri diagnostics => handleDiagnostics uri diagnostics c
  | Tick => workDiagnosticQueue c
  | Converted resolved => conversionSettled resolved c
  | CollectionEnsured => ensureDiagnostics c
  | CleanedUp channel diagnostics => cleanUp channel diagnostics c
  end.

Definition queueRun (events : list QueueEvent) (c : Client) : Client :=
  fold_left (λ c event, queueStep event c) events c.

Definition publishes (document : string) (event : QueueEvent) : Prop :=
  match event with
  | Publish uri _ => uri = document
  | _ => False
  end.

(** The converted diagnostics that the effect [e] hands to the host for
    [document], through the middleware or the diagnostic collection, if it
    does. *)
Definition delivered (document : string) (e : Effect)
    : option (list VDiagnostic) :=
  match e with
  | Host (Middleware_handleDiagnostics document' _ diagnostics)
  | Host (DiagnosticCollection_set document' _ diagnostics) =>
      if decide (document' = document) then Some diagnostics else None
  | _ => None
  end.

Definition deliveries (document : string) (es : list Effect)
    : list (list VDiagnostic) :=
  omap (delivered document) es.

(** What holds of the queue once [latest] was published for [key] and as
    long as nothing else is published for it: a pending batch for [key] is
    [latest], and a conversion in flight for [key] is cancelled or converts
    [latest]. *)
Definition upToDate (key : string) (latest : list Diagnostic) (p2c : P2C)
    (c : Client) : Prop :=
  _p2c c = p2c ∧
  NoDup (JSMap.keys (_diagnosticQueue c)) ∧
  (∀ batch, JSMap.get key (_diagnosticQueue c) = Some batch → batch = latest) ∧
  (∀ batch cancelled,
     _diagnosticQueueState c = Busy key batch cancelled →
     cancelled = true ∨ batch = latest).

(** Every result that the effects [es] hand to the host for [key] is the
    conversion of [latest]. *)
Definition fresh (key : string) (latest : list Diagnostic) (p2c : P2C)
    (es : list Effect) : Prop :=
  ∀ converted,
    converted ∈ deliveries key es → converted = asDiagnostics p2c latest.

(** *** Closing, restarting and what is read off the effects *)

Definition disposeConnectionEffects (c : Client) : list Effect :=
  match _connection c with
  | Some connection => [Conn connection C_dispose]
  | None => []
  end.

(** The client after the branch of [handleConnectionClosed] that does not
    restart, effects apart. *)
Definition closedClient (c : Client) : Client :=
  with_onStart None
  (with_onStop (Some (Resolved tt))
  (with_state (if decide (_state c = ClientState.Starting)
               then ClientState.StartFailed else ClientState.Stopped)
  (with_idleInterval false
  (with_diagnostics false
  (with_connection None c))))).

Definition closedEffects (message : option string) (c : Client) : list Effect :=
  disposeConnectionEffects c
  ++ [LogError (default "Connection to server got closed. Server will not be restarted."
                  message) Force]
  ++ cleanUpEffects false true c
  ++ stateChange (_state c)
       (if decide (_state c = ClientState.Starting)
        then ClientState.StartFailed else ClientState.Stopped).

(** The client when the restart branch of [handleConnectionClosed] calls
    [start()], effects apart. *)
Definition restartingClient (c : Client) : Client :=
  with_onStart None
  (with_onStop (Some (Resolved tt))
  (with_state ClientState.Initial
  (with_idleInterval false
  (with_connection None c)))).

Definition restartingEffects (message : option string) (c : Client) : list Effect :=
  disposeConnectionEffects c
  ++ [LogInfo (default "Connection to server got closed. Server will restart." message)]
  ++ cleanUpEffects false false c
  ++ stateChange (_state c) ClientState.Initial.

(** Calls on the diagnostic collection that create it or dispose of it. *)
Definition collectionLifetime (e : Effect) : option HostCall :=
  match e with
  | Host (DiagnosticCollection_create name) => Some (DiagnosticCollection_create name)
  | Host DiagnosticCollection_dispose => Some DiagnosticCollection_dispose
  | _ => None
  end.

(** A client as a successful start leaves it. *)
Definition runningOn (connection : nat) (c : Client) : Prop :=
  _state c = ClientState.Running ∧
  _onStart c = Some (Resolved tt) ∧
  _connection c = Some connection.

(** The effects of [stop()] up to the shutdown request, and the client
    then, effects apart. *)
Definition stopBeginEffects (timeout : Z) (connection : nat) (c : Client)
    : list Effect :=
  stateChange (_state c) ClientState.Stopping
  ++ cleanUpEffects false true c
  ++ [Host (SetTimeout timeout); Conn connection C_shutdown].

Definition stoppingClient (c : Client) : Client :=
  with_onStop (Some Suspended)
  (with_idleInterval false
  (with_diagnostics false
  (with_state ClientState.Stopping
  (with_initializeResult None c)))).

(** What the handlers chained on the race do before [finally]. *)
Definition raceEffects (race : StopRace) (connection : nat) : list Effect :=
  match race with
  | ConnectionWon =>
      [Conn connection C_exit; Conn connection C_end; Conn connection C_dispose]
  | TimeoutWon exitSent =>
      (if exitSent then [Conn connection C_exit] else [])
      ++ [LogError "Stopping server timed out" (Show false)]
  | ShutdownRejected _ => [LogError "Stopping server failed" (Show false)]
  | ExitRejected _ =>
      [Conn connection C_exit; LogError "Stopping server failed" (Show false)]
  end.

Definition raceSettled (race : StopRace) : Promise :=
  match race with
  | ConnectionWon => Resolved tt
  | TimeoutWon _ => Rejected (JSError "Stopping the server timed out")
  | ShutdownRejected e | ExitRejected e => Rejected e
  end.

Definition stoppedClient (c : Client) : Client :=
  with_connection None
  (with_onStop None
  (with_onStart None
  (with_state ClientState.Stopped c))).

(** The client when [start()] has made its handlers pending and set the
    state to [Starting], effects apart. *)
Definition startingClient (c : Client) : Client :=
  with_state ClientState.Starting
  (with_pendingProgressHandlers
     (makePending (_progressHandlers c) (_pendingProgressHandlers c))
  (with_pendingRequestHandlers
     (makePending (_requestHandlers c) (_pendingRequestHandlers c))
  (with_pendingNotificationHandlers
     (makePending (_notificationHandlers c) (_pendingNotificationHandlers c))
  (with_diagnostics true
  (with_onStart (Some Suspended) c))))).

(** The effects of a [start()] that cannot create its transports. *)
Definition unreachedEffects (c : Client) : list Effect :=
  ensureDiagnosticsEffects c
  ++ stateChange (_state c) ClientState.Starting
  ++ stateChange ClientState.Starting ClientState.StartFailed
  ++ [LogError (_name c +:+ " client: couldn't create connection to server.")
        Force].

(** The effects of a [start()] whose [initialized] notification fails
    with [e], after the server's response was accepted. *)
Definition unsentEffects (env : StartEnv) (e : Error) (c : Client)
    : list Effect :=
  connectEffects env c
  ++ handshakeEffects (connections c) (workDoneToken env c) (connectedClient c)
  ++ initializeFailedEffects (connections c) e (_clientOptions c)
  ++ progressEffects env c PP_cancel
  ++ stateChange ClientState.Running ClientState.StartFailed
  ++ [LogError (_name c +:+ " client: couldn't create connection to server.")
        Force].

(** The state-change events among the effects [es], in order. *)
Definition stateEvent (e : Effect) : option (State.t * State.t) :=
  match e with
  | StateChange old new => Some (old, new)
  | _ => None
  end.

Definition stateEvents (es : list Effect) : list (State.t * State.t) :=
  omap stateEvent es.

(** The server is reached, answers the initialize request with an
    encoding the client accepts, and the [initialized] notification is
    sent. *)
Definition handshakeSucceeds (env : StartEnv) : Prop :=
  createMessageTransports env = Ok tt ∧
  ∃ result,
    connection_initialize env = Ok result ∧ acceptedEncoding result ∧
    initialized_sent env = Ok tt.

(** No start is in flight and no stop is pending. *)
Definition startable (c : Client) : Prop :=
  _onStart c = None ∧ (_onStop c = None ∨ _onStop c = Some (Resolved tt)).

(** The ways a handshake ends. *)
Inductive Handshake (env : StartEnv) : Type :=
| Unreached (e : Error) (_ : createMessageTransports env = Throw e)
| InitializeRejected (e : Error)
    (_ : createMessageTransports env = Ok tt)
    (_ : connection_initialize env = Throw e)
| EncodingRefused (result : InitializeResult) (encoding : string)
    (_ : createMessageTransports env = Ok tt)
    (_ : connection_initialize env = Ok result)
    (_ : positionEncoding (capabilities result) = Some encoding)
    (_ : encoding ≠ "utf-16")
| Unsent (result : InitializeResult) (e : Error)
    (_ : createMessageTransports env = Ok tt)
    (_ : connection_initialize env = Ok result)
    (_ : acceptedEncoding result)
    (_ : initialized_sent env = Throw e)
| Accepted (result : InitializeResult)
    (_ : createMessageTransports env = Ok tt)
    (_ : connection_initialize env = Ok result)
    (_ : acceptedEncoding result)
    (_ : initialized_sent env = Ok tt).

(** The server is reached and answers the initialize request with an
    encoding the client accepts. *)
Definition responseAccepted (env : StartEnv) : Prop :=
  createMessageTransports env = Ok tt ∧
  ∃ result, connection_initialize env = Ok result ∧ acceptedEncoding result.

(** The handler that the effect [e] binds, through [onProgress], to
    [token] on [connection], with its progress type, if it does. *)
Definition progressBound (connection : nat) (token : ProgressToken) (e : Effect)
    : option (ProgressType * Handler) :=
  match e with
  | Conn connection' (C_onProgress type token' handler) =>
      if decide (connection' = connection ∧ token' = token)
      then Some (type, handler) else None
  | _ => None
  end.

Definition boundProgressHandlers (connection : nat) (token : ProgressToken)
    (es : list Effect) : list (ProgressType * Handler) :=
  omap (progressBound connection token) es.

(** The progress maps are maps, and what is pending is registered with
    the same type and handler. *)
Definition progressReady (c : Client) : Prop :=
  NoDup (JSMap.keys (_progressHandlers c)) ∧
  NoDup (JSMap.keys (_pendingProgressHandlers c)) ∧
  (∀ token data,
     JSMap.get token (_pendingProgressHandlers c) = Some data →
     JSMap.get token (_progressHandlers c) = Some data).

(** The calls on features among the effects [es], in order. *)
Definition featureCall (e : Effect) : option (string * FeatureCall) :=
  match e with
  | FeatureDo name call => Some (name, call)
  | _ => None
  end.

Definition featureCalls (es : list Effect) : list (string * FeatureCall) :=
  omap featureCall es.

Definition callsOf (call : FeatureCall) (features : list Feature)
    : list (string * FeatureCall) :=
  map (λ f, (featureName f, call)) features.

(** What the queue asks of the host to convert and hand on one pending
    entry. *)
Definition drainEffects (c : Client) (entry : string * list Diagnostic)
    : list Effect :=
  [ Host (AsDiagnostics entry.1 entry.2);
    Host (if middleware_handleDiagnostics (_clientOptions c)
          then Middleware_handleDiagnostics entry.1 (asUri (_p2c c) entry.1)
                 (asDiagnostics (_p2c c) entry.2)
          else DiagnosticCollection_set entry.1 (asUri (_p2c c) entry.1)
                 (asDiagnostics (_p2c c) entry.2));
    Host SetImmediate_workDiagnosticQueue ].

(** A drain and the settling of the conversion it starts, once for every
    entry of [queue]. *)
Definition drainRounds {A} (queue : list A) : list QueueEvent :=
  flat_map (λ _, [Tick; Converted true]) queue.

(** A change of [changes] edits a document that is open at another
    version than the positive version the change names. *)
Definition stale (opened : JSMap.t string TextDocument)
    (changes : list DocumentChange) : Prop :=
  ∃ uri version document,
    TextDocumentEdit uri (Some version) ∈ changes ∧ 0 < version ∧
    JSMap.get uri opened = Some document ∧ td_version document ≠ version.

(** The feature is a dynamic one whose registration type has the method
    [method]. *)
Definition registersFor (method : string) (f : Feature) : Prop :=
  match f with
  | DynamicFeature _ _ method' _ => method' = method
  | StaticFeature _ _ => False
  end.

#[global] Instance registersFor_dec method f : Decision (registersFor method f).
Proof. destruct f; cbn; apply _. Defined.

(** The call of [feature.unregister] that an unregistration leads to. *)
Definition unregisterCall (c : Client) (u : Unregistration) : option Effect :=
  feature ← JSMap.get (u_method u) (_dynamicFeatures c);
  Some (FeatureDo (featureName feature) (F_unregister (u_id u))).

(** The state of a feature that keeps the client from suspending. *)
Definition blocksSuspend (suspendMode : SuspendMode.t) (state : FeatureState)
    : Prop :=
  fs_kind state ≠ K_static ∧ fs_registrations state = true ∧
  ((fs_kind state = K_document ∧ fs_matches state = true) ∨
   (suspendMode = SuspendMode.activationOnly ∧ fs_activation state = Some false)).

(** The calls on [connection] among the effects [es]. *)
Definition callsOn (connection : nat) (es : list Effect) : list ConnectionCall :=
  omap (λ e, match e with
             | Conn connection' call =>
                 if decide (connection' = connection) then Some call else None
             | _ => None
             end) es.

(** The tasks that the effects [es] start without awaiting them. *)
Definition spawned (es : list Effect) : list Task :=
  omap (λ e, match e with Spawn task => Some task | _ => None end) es.

(** The member sends a message: a request or a notification. *)
Definition sends (member : Connection.Member) : bool :=
  match member with
  | Connection.sendRequest _ | Connection.sendNotification _
  | Connection.initialize | Connection.shutdown | Connection.exit => true
  | _ => false
  end.

(** The calls that write [_lastUsed]. *)
Definition touches (entry : Z * Connection.Member) : bool :=
  match entry.2 with
  | Connection.resetLastUsed => true
  | member => sends member
  end.

(** The calls that reach the protocol connection. *)
Definition forwarded (entry : Z * Connection.Member) : bool :=
  match entry.2 with
  | Connection.resetLastUsed => false
  | _ => true
  end.

End Paths.

(** ** Sample values *)

Module Sample.
Import BaseLanguageClient.

Definition options : ClientOptions :=
  {| documentSelector := [];
     diagnosticCollectionName := None;
     initializationFailedHandler := None;
     progressOnInitialization := false;
     suspend_mode := SuspendMode.off;
     middleware_handleDiagnostics := false;
     middleware_handleWorkDoneProgress := false;
     synchronize_fileEvents := false |}.

Definition p2c : P2C :=
  {| asDiagnostics := map (λ d, match d with mkDiagnostic m => mkVDiagnostic m end);
     asUri := mkUri |}.

(** A client as its constructor leaves it. *)
Definition client : Client := create "sample" options p2c [].

Definition result (encoding : option string) (sync : option TextDocumentSync)
    : InitializeResult :=
  {| capabilities := {| positionEncoding := encoding; textDocumentSync := sync |} |}.

(** A server that is reached and answers the initialize request with
    [answer]. *)
Definition env (answer : InitializeResult) : StartEnv :=
  {| createMessageTransports := Ok tt;
     connection_initialize := Ok answer;
     initialized_sent := Ok tt;
     generateUuid := "00000000-0000-0000-0000-000000000000" |}.

(** A host with one open document, at version 3, that converts and
    applies every edit. *)
Definition editEnv : ApplyEditEnv :=
  {| asWorkspaceEdit_settles := Ok tt;
     Workspace_textDocuments := [ {| td_uri := "file:///a.ts"; td_version := 3 |} ];
     applyEdit_settles := Ok true |}.

(** The sample client after a start that the server answered with the
    encoding utf-8. *)
Definition failedStart : Client :=
  (start (Sample.env (Sample.result (Some "utf-8") None)) Sample.client).2.

Definition stopEnv (race : StopRace) : StopEnv :=
  {| stop_start := Sample.env (Sample.result None None); stop_race := race |}.

Definition hoverFeature : Feature :=
  DynamicFeature "hover" false "textDocument/hover" (λ _, None).

(** A dynamic feature whose [register] throws. *)
Definition brokenFeature : Feature :=
  DynamicFeature "broken" false "custom/broken"
    (λ _, Some (JSError "cannot register")).

Definition featureClient : Client :=
  create "sample" options p2c [hoverFeature; brokenFeature].

(** The sample client after some work on its registry: the request
    [a/x] is registered twice, [c/z] is registered and disposed of. *)
Definition registered : Client :=
  Paths.registryCalls
    [ Paths.CallOnRequest "a/x" 1%nat;
      Paths.CallOnNotification "b/y" 2%nat;
      Paths.CallOnRequest "a/x" 3%nat;
      Paths.CallOnRequest "c/z" 4%nat;
      Paths.CallDisposeRequest "c/z" ]
    client.

Definition registration (id method : string) : Registration :=
  {| r_id := id; r_method := method; r_registerOptions := None |}.

(** The sample client, started, while it converts a first batch of
    diagnostics for a document. *)
Definition converting : Client :=
  Paths.queueRun
    [Paths.Publish "file:///a.ts" [mkDiagnostic "old"]; Paths.Tick]
    (start (env (result None None)) client).2.

(** The same client once [stop()] has begun: the diagnostic collection is
    disposed of, the connection still delivers notifications. *)
Definition stopping : Client := stopBegin 2000 0 converting.

(** The same with a diagnostics middleware. *)
Definition stoppingWithMiddleware : Client :=
  stopBegin 2000 0
    (Paths.queueRun
       [Paths.Publish "file:///a.ts" [mkDiagnostic "old"]; Paths.Tick]
       (start (env (result None None))
          (create "sample"
             {| documentSelector := [];
                diagnosticCollectionName := None;
                initializationFailedHandler := None;
                progressOnInitialization := false;
                suspend_mode := SuspendMode.off;
                middleware_handleDiagnostics := true;
                middleware_handleWorkDoneProgress := false;
                synchronize_fileEvents := false |}
             p2c [])).2).

Definition unregistration (id method : string) : Unregistration :=
  {| u_id := id; u_method := method |}.

Definition running : Client :=
  (start (Sample.env (Sample.result None None)) Sample.registered).2.

(** A client whose options have a work-done progress middleware, with one
    work-done progress handler registered before any start. *)
Definition progressClient : Client :=
  (onProgress WorkDoneProgressType (TokenString "build") 7%nat
     (create "sample"
        {| documentSelector := [];
           diagnosticCollectionName := None;
           initializationFailedHandler := None;
           progressOnInitialization := false;
           suspend_mode := SuspendMode.off;
           middleware_handleDiagnostics := false;
           middleware_handleWorkDoneProgress := true;
           synchronize_fileEvents := false |}
        Sample.p2c [])).2.

Definition overridden : list Feature :=
  [ DynamicFeature "hover" false "textDocument/hover" (λ _, None);
    StaticFeature "configuration" true;
    DynamicFeature "hover2" false "textDocument/hover" (λ _, None) ].

(** The feature that synchronises document changes, on the sample. *)
Definition didChangeFeature : Feature :=
  DynamicFeature "didChange" false "textDocument/didChange" (λ _, None).

Definition syncClient : Client :=
  create "sample" Sample.options Sample.p2c [Sample.didChangeFeature].

(** A server that is reached and accepts; no call throws. *)
Definition sendEnv : SendEnv :=
  {| send_start := Sample.env (Sample.result None None);
     send_typeError := JSError "Cannot read properties of undefined";
     forceDelivery_throws := None;
     connection_send_throws := None |}.

(** A client whose [initializationFailedHandler] always asks for a
    retry. *)
Definition retryClient : Client :=
  create "sample"
    {| documentSelector := [];
       diagnosticCollectionName := None;
       initializationFailedHandler := Some (λ _, true);
       progressOnInitialization := false;
       suspend_mode := SuspendMode.off;
       middleware_handleDiagnostics := false;
       middleware_handleWorkDoneProgress := false;
       synchronize_fileEvents := false |}
    Sample.p2c [].

(** A server that is reached and rejects the initialize request. *)
Definition notReady : StartEnv :=
  {| createMessageTransports := Ok tt;
     connection_initialize := Throw (JSError "server not ready");
     initialized_sent := Ok tt;
     generateUuid := "00000000-0000-0000-0000-000000000000" |}.

End Sample.

(** * Properties *)

(** ** Insertion-ordered maps *)

Module JSMapFacts.
Section JSMapFacts.
Context {K V : Type} `{EqDecision K}.
Implicit Types (k : K) (v : V) (m : JSMap.t K V).
Import JSMap.

Lemma has_true k m : has k m = true ↔ is_Some (get k m).
Proof.
  unfold has. destruct (get k m); split; intros Hx; eauto.
  - discriminate.
  - destruct Hx; discriminate.
Qed.

Lemma has_false k m : has k m = false ↔ get k m = None.
Proof. unfold has. destruct (get k m); split; intros Hx; eauto; discriminate. Qed.

Lemma get_Some_elem_of k v m : get k m = Some v → (k, v) ∈ m.
Proof.
  induction m as [|[k' v'] m IH]; simpl; [done|].
  case_decide; intros.
  - simplify_eq. left.
  - right. auto.
Qed.

Lemma get_None_keys k m : get k m = None ↔ k ∉ keys m.
Proof.
  unfold keys. induction m as [|[k' v'] m IH]; simpl.
  - split; [intros _; apply not_elem_of_nil | done].
  - case_decide; subst.
    + split; [done | intros []; left].
    + rewrite IH, not_elem_of_cons. tauto.
Qed.

Lemma get_is_Some_keys k m : is_Some (get k m) ↔ k ∈ keys m.
Proof.
  destruct (get k m) eqn:E.
  - split; [intros _ | eauto].
    apply get_Some_elem_of in E. unfold keys.
    apply list_elem_of_fmap. by exists (k, v).
  - apply get_None_keys in E. split; [by intros [] | done].
Qed.

Lemma elem_of_get k v m : NoDup (keys m) → (k, v) ∈ m → get k m = Some v.
Proof.
  unfold keys. induction m as [|[k' v'] m IH]; simpl; intros Hnd Hin.
  - by apply elem_of_nil in Hin.
  - apply NoDup_cons in Hnd as [Hk' Hnd].
    apply elem_of_cons in Hin as [Heq | Hin].
    + simplify_eq. by rewrite decide_True.
    + case_decide; subst.
      * exfalso. apply Hk'. apply list_elem_of_fmap. by exists (k', v).
      * auto.
Qed.

Lemma get_set_eq k v m : get k (set k v m) = Some v.
Proof.
  induction m as [|[k' v'] m IH]; simpl.
  - by rewrite decide_True.
  - case_decide; simpl; [by rewrite decide_True | by rewrite decide_False].
Qed.

Lemma get_set_ne k k' v m : k ≠ k' → get k' (set k v m) = get k' m.
Proof.
  intros Hne. induction m as [|[k0 v0] m IH]; simpl.
  - by rewrite decide_False.
  - case_decide; simpl; subst.
    + by rewrite !decide_False.
    + case_decide; auto.
Qed.

Lemma keys_set k v m :
  keys (set k v m) = if has k m then keys m else keys m ++ [k].
Proof.
  unfold has, keys. induction m as [|[k0 v0] m IH]; simpl; [done|].
  case_decide; subst; csimpl; [done|].
  rewrite IH. by destruct (get k m).
Qed.

Lemma NoDup_keys_set k v m : NoDup (keys m) → NoDup (keys (set k v m)).
Proof.
  intros Hnd. rewrite keys_set. destruct (has k m) eqn:E; [done|].
  apply has_false, get_None_keys in E.
  apply NoDup_app. split_and!; [done | | apply NoDup_singleton].
  intros x Hx Hx'. apply list_elem_of_singleton in Hx'. by subst.
Qed.

Lemma get_delete_eq k m : NoDup (keys m) → get k (delete k m) = None.
Proof.
  unfold keys. induction m as [|[k0 v0] m IH]; simpl; intros Hnd; [done|].
  apply NoDup_cons in Hnd as [Hk0 Hnd].
  case_decide; simpl; subst.
  - by apply get_None_keys.
  - rewrite decide_False by done. auto.
Qed.

Lemma get_delete_ne k k' m : k ≠ k' → get k' (delete k m) = get k' m.
Proof.
  intros Hne. induction m as [|[k0 v0] m IH]; simpl; [done|].
  case_decide; simpl; subst.
  - by rewrite decide_False.
  - case_decide; auto.
Qed.

Lemma keys_delete_subseteq k m : keys (delete k m) ⊆ keys m.
Proof.
  unfold keys. induction m as [|[k0 v0] m IH]; simpl; [done|].
  case_decide; simpl.
  - intros x Hx. by right.
  - intros x Hx. apply elem_of_cons in Hx as [->|Hx]; [left | right; auto].
Qed.

Lemma NoDup_keys_delete k m : NoDup (keys m) → NoDup (keys (delete k m)).
Proof.
  unfold keys. induction m as [|[k0 v0] m IH]; simpl; intros Hnd; [done|].
  apply NoDup_cons in Hnd as [Hk0 Hnd].
  case_decide; simpl; [done|].
  apply NoDup_cons. split; [|auto].
  intros Hin. apply Hk0. by apply (keys_delete_subseteq k m).
Qed.

Lemma delete_absent k m : get k m = None → delete k m = m.
Proof.
  induction m as [|[k0 v0] m IH]; simpl; [done|].
  case_decide; [done|]. intros. f_equal. auto.
Qed.
End JSMapFacts.
End JSMapFacts.

(** ** The default error handler *)

Section ErrorHandlerFacts.
Import DefaultErrorHandler.

Lemma at_index_last (l : list Z) (x : Z) :
  at_index (l ++ [x]) (length (l ++ [x]) - 1) = x.
Proof.
  unfold at_index. rewrite length_app. simpl.
  replace (length l + 1 - 1)%nat with (length l) by lia.
  by rewrite list_lookup_middle.
Qed.

Lemma at_index_first (l : list Z) (x : Z) :
  at_index (l ++ [x]) 0 = default x (head l).
Proof. by destruct l. Qed.

(** C4.  [closed()] records the time of the close.  While no more than
    [maxRestartCount] closes are recorded it answers [Restart].  Beyond
    that it compares the newest with the oldest recorded time: within three
    minutes it answers [DoNotRestart] with a message and keeps the record,
    otherwise it drops the oldest time and answers [Restart].  With
    [maxRestartCount = 2] and closes at [t], [t+1s], [t+2s] and [t+4min]
    the answers are Restart, Restart, DoNotRestart, Restart, and the record
    ends as the last three times. *)
Theorem closed_sliding_window :
  (∀ (h : DefaultErrorHandler.t) (now : Z),
     let recorded := restarts h ++ [now] in
     let oldest := default now (head (restarts h)) in
     let answer := (closed now h).1 in
     let h' := (closed now h).2 in
     maxRestartCount h' = maxRestartCount h ∧
     (Z.of_nat (length recorded) ≤ maxRestartCount h →
      ch_action answer = CloseAction.Restart ∧ restarts h' = recorded) ∧
     (maxRestartCount h < Z.of_nat (length recorded) →
      now - oldest ≤ 3 * 60 * 1000 →
      ch_action answer = CloseAction.DoNotRestart ∧
      is_Some (ch_message answer) ∧ restarts h' = recorded) ∧
     (maxRestartCount h < Z.of_nat (length recorded) →
      3 * 60 * 1000 < now - oldest →
      ch_action answer = CloseAction.Restart ∧ restarts h' = tail recorded)) ∧
  (∀ (name : string) (t : Z),
     let run := closes [t; t + 1000; t + 2000; t + 4 * 60 * 1000] (create name 2) in
     run.1 = [CloseAction.Restart; CloseAction.Restart;
              CloseAction.DoNotRestart; CloseAction.Restart] ∧
     restarts run.2 = [t + 1000; t + 2000; t + 4 * 60 * 1000]).
Proof.
  split.
  - intros h now. cbv zeta. unfold closed.
    rewrite at_index_last, at_index_first.
    repeat case_bool_decide; simpl; split_and!; intros; try lia; eauto.
  - intros name t. unfold closes, closed, create, at_index. simpl.
    repeat (case_bool_decide; simpl; try lia). done.
Qed.

(** C8, as the code has it.  [error(err, message, count)] answers
    [Continue] exactly when [count] is a number other than 0 that is at
    most 3; it answers [Shutdown] when [count] exceeds 3, is 0 or is
    undefined. *)
Theorem error_continue_iff (count : option Z) :
  (eh_action (error count) = ErrorAction.Continue
   ↔ ∃ n, count = Some n ∧ n ≠ 0 ∧ n ≤ 3) ∧
  (eh_action (error count) = ErrorAction.Shutdown
   ↔ count = None ∨ count = Some 0 ∨ ∃ n, count = Some n ∧ 3 < n).
Proof.
  unfold error. destruct count as [n|]; simpl.
  - destruct (decide (n = 0)) as [->|Hn0].
    + simpl. split; split; intros Hx; try discriminate; auto.
      destruct Hx as (m & Hx & Hm & _). by simplify_eq.
    + rewrite (bool_decide_eq_true_2 (n ≠ 0)) by done. simpl.
      case_bool_decide; simpl; split; split; intros Hx; try discriminate;
        try reflexivity.
      * by exists n.
      * destruct Hx as [Hx|[Hx|(m & Hx & Hm)]]; simplify_eq; lia.
      * destruct Hx as (m & Hx & _ & Hm); simplify_eq; lia.
      * right; right. exists n. split; [done|lia].
  - split; split; intros Hx; try discriminate; auto.
    destruct Hx as (m & Hx & _). discriminate.
Qed.

(** C8, counterexample.  A count of 0 is at most 3, and the answer is
    [Shutdown]. *)
Lemma error_count_zero_shutdown :
  ¬ (∀ count : Z, count ≤ 3 →
       eh_action (error (Some count)) = ErrorAction.Continue).
Proof. intros H. specialize (H 0 ltac:(lia)). discriminate. Qed.

End ErrorHandlerFacts.


(** ** Clients *)

Import BaseLanguageClient Paths.

(** Reduce the projections of updated clients, and nothing else. *)
Ltac fields :=
  cbn [_name _clientOptions _state _notificationHandlers
       _notificationDisposables _pendingNotificationHandlers
       _requestHandlers _requestDisposables _pendingRequestHandlers
       _progressHandlers _pendingProgressHandlers _progressDisposables
       _onStart _onStop _connection _idleInterval _initializeResult
       _capabilities _diagnostics _diagnosticQueue _diagnosticQueueState
       _features _dynamicFeatures _p2c connections effects
       with_clientOptions with_state with_notificationHandlers
       with_notificationDisposables with_pendingNotificationHandlers
       with_requestHandlers with_requestDisposables
       with_pendingRequestHandlers with_progressHandlers
       with_pendingProgressHandlers with_progressDisposables
       with_onStart with_onStop with_connection with_idleInterval
       with_initializeResult with_capabilities with_diagnostics
       with_diagnosticQueue with_diagnosticQueueState with_features
       with_dynamicFeatures with_connections with_effects emit emits fst snd].

(** Two clients with the same fields are the same client. *)
Lemma client_ext (c1 c2 : Client) :
  _name c1 = _name c2 →
  _clientOptions c1 = _clientOptions c2 →
  _state c1 = _state c2 →
  _notificationHandlers c1 = _notificationHandlers c2 →
  _notificationDisposables c1 = _notificationDisposables c2 →
  _pendingNotificationHandlers c1 = _pendingNotificationHandlers c2 →
  _requestHandlers c1 = _requestHandlers c2 →
  _requestDisposables c1 = _requestDisposables c2 →
  _pendingRequestHandlers c1 = _pendingRequestHandlers c2 →
  _progressHandlers c1 = _progressHandlers c2 →
  _pendingProgressHandlers c1 = _pendingProgressHandlers c2 →
  _progressDisposables c1 = _progressDisposables c2 →
  _onStart c1 = _onStart c2 →
  _onStop c1 = _onStop c2 →
  _connection c1 = _connection c2 →
  _idleInterval c1 = _idleInterval c2 →
  _initializeResult c1 = _initializeResult c2 →
  _capabilities c1 = _capabilities c2 →
  _diagnostics c1 = _diagnostics c2 →
  _diagnosticQueue c1 = _diagnosticQueue c2 →
  _diagnosticQueueState c1 = _diagnosticQueueState c2 →
  _features c1 = _features c2 →
  _dynamicFeatures c1 = _dynamicFeatures c2 →
  _p2c c1 = _p2c c2 →
  connections c1 = connections c2 →
  effects c1 = effects c2 →
  c1 = c2.
Proof. destruct c1, c2. cbn. intros. by subst. Qed.

Ltac client_eq := apply client_ext; fields; try reflexivity.

Lemma emits_nil c : emits [] c = c.
Proof. client_eq. by rewrite app_nil_r. Qed.

Lemma emits_emits es1 es2 c : emits es2 (emits es1 c) = emits (es1 ++ es2) c.
Proof. client_eq. by rewrite app_assoc. Qed.

Lemma emit_emits e c : emit e c = emits [e] c.
Proof. done. Qed.

Lemma set_state_eq v c :
  set_state v c = emits (stateChange (_state c) v) (with_state v c).
Proof.
  unfold set_state, stateChange. fields. case_decide; [|done].
  by rewrite emits_nil.
Qed.

Lemma initializeFailed_eq connection e c :
  initializeFailed connection e c =
  emits (initializeFailedEffects connection e (_clientOptions c)) c.
Proof.
  unfold initializeFailed, initializeFailedEffects, error.
  repeat case_match; rewrite ?emit_emits, ?emits_emits; try done.
Qed.

Lemma hookFileEvents_eq c :
  hookFileEvents c = emits (hookFileEventsEffects (_clientOptions c)) c.
Proof.
  unfold hookFileEvents, hookFileEventsEffects.
  case_match; by rewrite ?emits_nil.
Qed.

Lemma armIdleTimer_eq c :
  armIdleTimer c =
  emits (armIdleTimerEffects (_clientOptions c))
    (with_idleInterval
       (if decide (suspend_mode (_clientOptions c) = SuspendMode.off)
        then _idleInterval c else true) c).
Proof.
  unfold armIdleTimer, armIdleTimerEffects. case_decide; client_eq.
  by rewrite app_nil_r.
Qed.

Lemma ensureDiagnostics_eq c :
  ensureDiagnostics c =
  emits (ensureDiagnosticsEffects c) (with_diagnostics true c).
Proof.
  unfold ensureDiagnostics, ensureDiagnosticsEffects.
  destruct (_diagnostics c) eqn:E; client_eq; by rewrite ?app_nil_r.
Qed.

Lemma bindPendingRequests_fold (connection : nat) l (c : Client) :
  fold_left (bindRequest connection) l c =
  with_requestDisposables
    (boundDisposables requestBinding connection l (_requestDisposables c))
    (emits (map (λ entry, Conn connection (requestBinding entry)) l) c).
Proof.
  unfold boundDisposables.
  revert c. induction l as [|[m h] l IH]; intros c; simpl.
  - client_eq. by rewrite app_nil_r.
  - rewrite IH. client_eq. by rewrite <- app_assoc.
Qed.

Lemma bindPendingRequests_eq (connection : nat) (c : Client) :
  bindPendingRequests connection c =
  with_pendingRequestHandlers []
    (with_requestDisposables
       (boundDisposables requestBinding connection (_pendingRequestHandlers c) (_requestDisposables c))
       (emits (map (λ entry, Conn connection (requestBinding entry)) (_pendingRequestHandlers c)) c)).
Proof. unfold bindPendingRequests. by rewrite bindPendingRequests_fold. Qed.

Lemma bindPendingNotifications_fold (connection : nat) l (c : Client) :
  fold_left (bindNotification connection) l c =
  with_notificationDisposables
    (boundDisposables notificationBinding connection l (_notificationDisposables c))
    (emits (map (λ entry, Conn connection (notificationBinding entry)) l) c).
Proof.
  unfold boundDisposables.
  revert c. induction l as [|[m h] l IH]; intros c; simpl.
  - client_eq. by rewrite app_nil_r.
  - rewrite IH. client_eq. by rewrite <- app_assoc.
Qed.

Lemma bindPendingNotifications_eq (connection : nat) (c : Client) :
  bindPendingNotifications connection c =
  with_pendingNotificationHandlers []
    (with_notificationDisposables
       (boundDisposables notificationBinding connection (_pendingNotificationHandlers c) (_notificationDisposables c))
       (emits (map (λ entry, Conn connection (notificationBinding entry)) (_pendingNotificationHandlers c)) c)).
Proof. unfold bindPendingNotifications. by rewrite bindPendingNotifications_fold. Qed.

Lemma bindPendingProgress_fold (connection : nat) l (c : Client) :
  fold_left (bindProgress connection) l c =
  with_progressDisposables
    (boundDisposables progressBinding connection l (_progressDisposables c))
    (emits (map (λ entry, Conn connection (progressBinding entry)) l) c).
Proof.
  unfold boundDisposables.
  revert c. induction l as [|[t [ty h]] l IH]; intros c; simpl.
  - client_eq. by rewrite app_nil_r.
  - rewrite IH. client_eq. by rewrite <- app_assoc.
Qed.

Lemma bindPendingProgress_eq (connection : nat) (c : Client) :
  bindPendingProgress connection c =
  with_pendingProgressHandlers []
    (with_progressDisposables
       (boundDisposables progressBinding connection (_pendingProgressHandlers c) (_progressDisposables c))
       (emits (map (λ entry, Conn connection (progressBinding entry)) (_pendingProgressHandlers c)) c)).
Proof. unfold bindPendingProgress. by rewrite bindPendingProgress_fold. Qed.

Ltac flatten_effects :=
  repeat (first [rewrite <- app_assoc | rewrite app_nil_r
                | progress cbn [app map]]).

Lemma cleanUp_eq channel diagnostics c :
  cleanUp channel diagnostics c =
  emits (cleanUpEffects channel diagnostics c)
    (with_idleInterval false
       (with_diagnostics (if diagnostics then false else _diagnostics c) c)).
Proof.
  unfold cleanUp, cleanUpEffects, cleanUpChannel, featureEffects. cbv zeta.
  destruct channel, diagnostics, (_diagnostics c) eqn:Hd,
    (_idleInterval c) eqn:Hi;
    do 3 (fields; rewrite ?Hd, ?Hi; cbn [andb]);
    client_eq; do 3 (fields; rewrite ?Hd, ?Hi; cbn [andb]);
    flatten_effects; reflexivity.
Qed.

Lemma doInitialize_accepted env connection token c result :
  connection_initialize env = Ok result →
  acceptedEncoding result →
  doInitialize env connection token c =
  match initialized_sent env with
  | Ok _ =>
      (Ok result,
       emits (handshakeEffects connection token c
              ++ hookFileEventsEffects (_clientOptions c)
              ++ [Host HookConfigurationChanged]
              ++ featureEffects F_initialize (_features c))
         (handshakeClient connection result c))
  | Throw e =>
      (Throw e,
       emits (handshakeEffects connection token c
              ++ initializeFailedEffects connection e (_clientOptions c))
         (handshakeClient connection result c))
  end.
Proof.
  intros Hinit Henc. unfold doInitialize. rewrite Hinit.
  assert (match positionEncoding (capabilities result) with
          | Some encoding =>
              if decide (encoding = "utf-16") then None else Some encoding
          | None => None
          end = None) as ->.
  { destruct Henc as [-> | ->]; done. }
  cbv zeta.
  rewrite set_state_eq; fields.
  rewrite bindPendingNotifications_eq; fields.
  rewrite bindPendingRequests_eq; fields.
  rewrite bindPendingProgress_eq; fields.
  rewrite armIdleTimer_eq; fields.
  unfold handshakeEffects, handshakeClient, featureEffects.
  destruct (initialized_sent env);
    rewrite ?hookFileEvents_eq, ?initializeFailed_eq;
    unfold initializeFeatures; f_equal; client_eq;
    flatten_effects; reflexivity.
Qed.

Lemma doInitialize_refused env connection token c result encoding :
  connection_initialize env = Ok result →
  positionEncoding (capabilities result) = Some encoding →
  encoding ≠ "utf-16" →
  doInitialize env connection token c =
  (Throw (unsupportedEncoding encoding c),
   emits ([Conn connection (C_initialize token)]
          ++ initializeFailedEffects connection
               (unsupportedEncoding encoding c) (_clientOptions c)) c).
Proof.
  intros Hinit Henc Hne. unfold doInitialize. rewrite Hinit, Henc.
  rewrite decide_False by done. cbv zeta.
  rewrite initializeFailed_eq. f_equal. client_eq. by flatten_effects.
Qed.

Lemma initialize_started env connection c result :
  connection_initialize env = Ok result →
  acceptedEncoding result →
  initialized_sent env = Ok tt →
  initialize env connection c =
  (Ok result,
   emits ([Conn connection C_trace]
          ++ featureEffects F_fillClientCapabilities (_features c)
          ++ featureEffects F_fillInitializeParams
               (filter (λ f, hasFillInitializeParams f = true) (_features c))
          ++ progressEffects env c PP_new
          ++ handshakeEffects connection (workDoneToken env c) c
          ++ hookFileEventsEffects (_clientOptions c)
          ++ [Host HookConfigurationChanged]
          ++ featureEffects F_initialize (_features c)
          ++ progressEffects env c PP_done)
     (handshakeClient connection result c)).
Proof.
  intros Hinit Henc Hsent. unfold initialize, workDoneToken, progressEffects.
  cbv zeta. fields.
  destruct (progressOnInitialization (_clientOptions c));
    rewrite (doInitialize_accepted _ _ _ _ result) by done;
    rewrite Hsent; f_equal;
    unfold handshakeClient, handshakeEffects, featureEffects; client_eq;
    flatten_effects; reflexivity.
Qed.

Lemma initialize_refused env connection c result encoding :
  connection_initialize env = Ok result →
  positionEncoding (capabilities result) = Some encoding →
  encoding ≠ "utf-16" →
  initialize env connection c =
  (Throw (unsupportedEncoding encoding c),
   emits ([Conn connection C_trace]
          ++ featureEffects F_fillClientCapabilities (_features c)
          ++ featureEffects F_fillInitializeParams
               (filter (λ f, hasFillInitializeParams f = true) (_features c))
          ++ progressEffects env c PP_new
          ++ [Conn connection (C_initialize (workDoneToken env c))]
          ++ initializeFailedEffects connection
               (unsupportedEncoding encoding c) (_clientOptions c)
          ++ progressEffects env c PP_cancel) c).
Proof.
  intros Hinit Henc Hne. unfold initialize, workDoneToken, progressEffects.
  cbv zeta. fields.
  destruct (progressOnInitialization (_clientOptions c));
    rewrite (doInitialize_refused _ _ _ _ result encoding) by done;
    f_equal; client_eq; unfold featureEffects; fields;
    flatten_effects; reflexivity.
Qed.

Lemma startNow_started env c result :
  createMessageTransports env = Ok tt →
  connection_initialize env = Ok result →
  acceptedEncoding result →
  initialized_sent env = Ok tt →
  startNow env c =
  (Resolved tt, emits (startedEffects env c) (startedClient result c)).
Proof.
  intros Htr Hinit Henc Hsent. unfold startNow, startConnection.
  rewrite Htr. cbv zeta.
  rewrite ensureDiagnostics_eq; fields.
  rewrite set_state_eq; fields.
  rewrite (initialize_started _ _ _ result) by done.
  f_equal. unfold startedEffects, startedClient, connectEffects, connectedClient,
    handshakeClient, handshakeEffects, workDoneToken, progressEffects.
  client_eq. flatten_effects. reflexivity.
Qed.

Lemma startNow_refused env c result encoding :
  createMessageTransports env = Ok tt →
  connection_initialize env = Ok result →
  positionEncoding (capabilities result) = Some encoding →
  encoding ≠ "utf-16" →
  startNow env c =
  (Rejected (unsupportedEncoding encoding c),
   emits (refusedEffects env (unsupportedEncoding encoding c) c)
     (refusedClient (unsupportedEncoding encoding c) c)).
Proof.
  intros Htr Hinit Henc Hne. unfold startNow, startConnection.
  rewrite Htr. cbv zeta.
  rewrite ensureDiagnostics_eq; fields.
  rewrite set_state_eq; fields.
  rewrite (initialize_refused _ _ _ result encoding) by done.
  rewrite set_state_eq; fields.
  unfold error, unsupportedEncoding. fields.
  f_equal. unfold refusedEffects, refusedClient, connectEffects, connectedClient,
    workDoneToken, progressEffects, unsupportedEncoding.
  client_eq. flatten_effects. reflexivity.
Qed.

(** ** A refused handshake *)

Lemma neverRunning_nil : neverRunning [].
Proof. intros old H. by apply elem_of_nil in H. Qed.

Lemma neverRunning_app es1 es2 :
  neverRunning es1 → neverRunning es2 → neverRunning (es1 ++ es2).
Proof.
  intros H1 H2 old H. apply elem_of_app in H as [H|H]; [by eapply H1 | by eapply H2].
Qed.

Lemma neverRunning_cons e es :
  (∀ old, e ≠ StateChange old State.Running) → neverRunning es →
  neverRunning (e :: es).
Proof.
  intros H1 H2 old H. apply elem_of_cons in H as [H|H]; [by eapply H1 | by eapply H2].
Qed.

Lemma neverRunning_map {A} (f : A → Effect) (l : list A) :
  (∀ a old, f a ≠ StateChange old State.Running) → neverRunning (map f l).
Proof.
  intros Hf old H. apply list_elem_of_fmap in H as (a & H & _). by eapply Hf.
Qed.

Lemma neverRunning_stateChange old new :
  new ≠ ClientState.Running → neverRunning (stateChange old new).
Proof.
  intros Hne. unfold stateChange. case_decide; [apply neverRunning_nil|].
  apply neverRunning_cons; [|apply neverRunning_nil].
  intros o [= _ H']. by destruct new.
Qed.

Ltac never_running :=
  repeat first
    [ assumption
    | apply neverRunning_nil
    | apply neverRunning_app
    | apply neverRunning_cons; [by intros ?|]
    | apply neverRunning_map; by intros ? ?
    | apply neverRunning_stateChange; done ].

Lemma neverRunning_initializeFailed connection e options :
  neverRunning (initializeFailedEffects connection e options).
Proof.
  unfold initializeFailedEffects. repeat case_match; never_running.
Qed.

Lemma neverRunning_connect env c : neverRunning (connectEffects env c).
Proof.
  unfold connectEffects, ensureDiagnosticsEffects, featureEffects,
    progressEffects.
  repeat case_match; never_running.
Qed.

Lemma neverRunning_refused env e c : neverRunning (refusedEffects env e c).
Proof.
  unfold refusedEffects, progressEffects.
  pose proof (neverRunning_connect env c).
  pose proof (neverRunning_initializeFailed (connections c) e (_clientOptions c)).
  repeat case_match; never_running.
Qed.

(** C6.  When the initialize response reports a position encoding other
    than utf-16, [doInitialize] throws the unsupported-encoding error and
    leaves every field of the client as it was, its state included: all it
    adds are effects, none of which announces [Running].  A [start()] that
    gets this response is rejected with that error and ends in
    [StartFailed], again without announcing [Running]. *)
Theorem unsupported_encoding_refused (env : StartEnv)
    (result : InitializeResult) (encoding : string) :
  connection_initialize env = Ok result →
  positionEncoding (capabilities result) = Some encoding →
  encoding ≠ "utf-16" →
  (∀ connection token c, ∃ new,
     doInitialize env connection token c =
       (Throw (unsupportedEncoding encoding c), emits new c) ∧
     neverRunning new) ∧
  (∀ c, _onStart c = None → _onStop c = None →
     createMessageTransports env = Ok tt →
     ∃ new c',
       start env c = (Rejected (unsupportedEncoding encoding c), c') ∧
       effects c' = effects c ++ new ∧ neverRunning new ∧
       _state c' = ClientState.StartFailed ∧
       _onStart c' = Some (Rejected (unsupportedEncoding encoding c))).
Proof.
  intros Hinit Henc Hne. split.
  - intros connection token c. eexists. split.
    + by apply (doInitialize_refused _ _ _ _ result).
    + pose proof (neverRunning_initializeFailed connection
                    (unsupportedEncoding encoding c) (_clientOptions c)).
      never_running; done.
  - intros c Hstart Hstop Htr. unfold start. rewrite Hstart, Hstop.
    rewrite (startNow_refused _ _ result encoding) by done.
    eexists _, _. split; [reflexivity|]. split_and!; try reflexivity.
    apply neverRunning_refused.
Qed.

Lemma unsupported_encoding_refused_witness :
  ∃ new c',
    start (Sample.env (Sample.result (Some "utf-8") None)) Sample.client =
      (Rejected (unsupportedEncoding "utf-8" Sample.client), c') ∧
    effects c' = effects Sample.client ++ new ∧ neverRunning new ∧
    _state c' = ClientState.StartFailed ∧
    _onStart c' = Some (Rejected (unsupportedEncoding "utf-8" Sample.client)).
Proof.
  apply (proj2 (unsupported_encoding_refused
                  (Sample.env (Sample.result (Some "utf-8") None))
                  (Sample.result (Some "utf-8") None) "utf-8"
                  eq_refl eq_refl ltac:(done))
           Sample.client eq_refl eq_refl eq_refl).
Defined.

(** ** The resolved text-document-sync options *)

(** C7.  When the initialize response is accepted and reports
    [textDocumentSync] as a number, the capabilities [doInitialize] stores
    resolve it: kind 2 to [{ openClose: true, change: 2,
    save: { includeText: false } }], kind 0 to [{ openClose: false,
    change: 0, save: undefined }]. *)
Theorem numeric_sync_kind_resolved (env : StartEnv) (connection : nat)
    (token : option string) (c : Client) (result : InitializeResult) :
  connection_initialize env = Ok result →
  acceptedEncoding result →
  let c' := (doInitialize env connection token c).2 in
  (textDocumentSync (capabilities result) = Some (TDS_number 2) →
   resolvedTextDocumentSync <$> _capabilities c' =
   Some (Some {| openClose := Some true; change := Some 2;
                 willSave := None; willSaveWaitUntil := None;
                 save := Some (SaveOptions (Some false)) |})) ∧
  (textDocumentSync (capabilities result) = Some (TDS_number 0) →
   resolvedTextDocumentSync <$> _capabilities c' =
   Some (Some {| openClose := Some false; change := Some 0;
                 willSave := None; willSaveWaitUntil := None;
                 save := None |})).
Proof.
  intros Hinit Henc c'. subst c'.
  rewrite (doInitialize_accepted _ _ _ _ result) by done.
  unfold handshakeClient.
  destruct (initialized_sent env); split; intros ->; reflexivity.
Qed.

Lemma numeric_sync_kind_resolved_witness :
  resolvedTextDocumentSync
    <$> _capabilities
          (doInitialize (Sample.env (Sample.result None (Some (TDS_number 2))))
             0 None Sample.client).2 =
  Some (Some {| openClose := Some true; change := Some 2;
                willSave := None; willSaveWaitUntil := None;
                save := Some (SaveOptions (Some false)) |}).
Proof.
  apply (proj1 (numeric_sync_kind_resolved
                  (Sample.env (Sample.result None (Some (TDS_number 2))))
                  0%nat None Sample.client
                  (Sample.result None (Some (TDS_number 2)))
                  eq_refl (or_introl eq_refl))).
  reflexivity.
Defined.

(** ** Failed requests *)

(** C9.  A response error with code [RequestCancelled] or
    [ServerCancelled] gives the default value when the caller's token is
    cancelled, and otherwise (token not cancelled, or no token) throws a
    cancellation error that carries the error's data when it has some.  A
    response error with code [ContentModified] throws a cancellation error
    when the method is in [RequestsToCancelOnContentModified] and gives the
    default value when it is not.  In all these cases the client is left as
    it was: nothing is logged.  The error codes and the three method names
    of the set are parameters; the two groups of codes are assumed
    distinct. *)
Theorem failed_request_cancellation
    (RequestCancelled ServerCancelled ContentModified : Z)
    (full range delta : string)
    (T : Type) (method : string) (token : option bool) (message : string)
    (data : option ErrorData) (defaultValue : T) (showNotification : bool)
    (c : Client) :
  ContentModified ≠ RequestCancelled →
  ContentModified ≠ ServerCancelled →
  let handle code :=
    handleFailedRequest RequestCancelled ServerCancelled ContentModified
      full range delta method token (ResponseError code message data)
      defaultValue showNotification c in
  (∀ code, code = RequestCancelled ∨ code = ServerCancelled →
     (token = Some true → handle code = (Ok defaultValue, c)) ∧
     (token ≠ Some true →
      handle code =
      (Throw (match data with
              | Some d => LSPCancellationError d
              | None => CancellationError
              end), c))) ∧
  (method ∈ RequestsToCancelOnContentModified full range delta →
   handle ContentModified = (Throw CancellationError, c)) ∧
  (method ∉ RequestsToCancelOnContentModified full range delta →
   handle ContentModified = (Ok defaultValue, c)).
Proof.
  intros Hne1 Hne2 handle. subst handle. cbv beta. unfold handleFailedRequest.
  split_and!.
  - intros code Hcode.
    assert (bool_decide (code = RequestCancelled)
            || bool_decide (code = ServerCancelled) = true) as ->.
    { apply orb_true_iff. by rewrite !bool_decide_eq_true. }
    split.
    + by intros ->.
    + intros Htoken. destruct token as [[]|]; try done; by destruct data.
  - intros Hin.
    rewrite !bool_decide_eq_false_2 by done. cbn [orb].
    by rewrite !bool_decide_eq_true_2 by done.
  - intros Hnotin.
    rewrite (bool_decide_eq_false_2 (ContentModified = _)) by done.
    rewrite (bool_decide_eq_false_2 (ContentModified = _)) by done.
    cbn [orb].
    rewrite bool_decide_eq_true_2 by done.
    by rewrite bool_decide_eq_false_2 by done.
Qed.

Lemma failed_request_cancellation_witness :
  handleFailedRequest (-32800) (-32802) (-32801)
    "textDocument/semanticTokens/full" "textDocument/semanticTokens/range"
    "textDocument/semanticTokens/full/delta"
    "textDocument/semanticTokens/range" None
    (ResponseError (-32801) "content modified" None) 7%nat true Sample.client
  = (Throw CancellationError, Sample.client).
Proof.
  apply (proj1 (proj2 (failed_request_cancellation (-32800) (-32802) (-32801)
           "textDocument/semanticTokens/full" "textDocument/semanticTokens/range"
           "textDocument/semanticTokens/full/delta" nat
           "textDocument/semanticTokens/range" None "content modified" None
           7%nat true Sample.client ltac:(done) ltac:(done)))).
  unfold RequestsToCancelOnContentModified. apply elem_of_cons. right. left.
Defined.

(** ** Workspace edits *)

Lemma versionMismatch_stale opened changes uri v doc :
  TextDocumentEdit uri (Some v) ∈ changes →
  0 < v →
  JSMap.get uri opened = Some doc →
  td_version doc ≠ v →
  versionMismatch opened changes = true.
Proof.
  intros Hin Hv Hget Hne.
  induction changes as [|change rest IH]; [by apply elem_of_nil in Hin|].
  apply elem_of_cons in Hin as [<- | Hin].
  - simpl. rewrite !bool_decide_eq_true_2 by lia. simpl.
    rewrite Hget. by rewrite bool_decide_eq_true_2.
  - specialize (IH Hin). simpl. repeat case_match; done.
Qed.

(** C3, as the code has it.  When the document changes of an edit hold a
    text-document edit that names a version [v > 0] of a document that is
    open at another version, [handleApplyWorkspaceEdit] asks the host for the
    conversion of the edit and for nothing else: [Workspace.applyEdit] is
    not called.  It resolves to [{ applied: false }] when the conversion
    succeeded and rejects with the conversion's error otherwise. *)
Theorem stale_edit_refused (env : ApplyEditEnv) (edit : WorkspaceEdit)
    (c : Client) (changes : list DocumentChange) (uri : string) (v : Z)
    (doc : TextDocument) :
  documentChanges edit = Some changes →
  TextDocumentEdit uri (Some v) ∈ changes →
  0 < v →
  JSMap.get uri (openTextDocuments (Workspace_textDocuments env)) = Some doc →
  td_version doc ≠ v →
  let out := handleApplyWorkspaceEdit env edit c in
  out.2 = emit (Host AsWorkspaceEdit) c ∧
  (asWorkspaceEdit_settles env = Ok tt →
   out.1 = Resolved {| applied := false |}) ∧
  (∀ e, asWorkspaceEdit_settles env = Throw e → out.1 = Rejected e).
Proof.
  intros Hch Hin Hv Hget Hne out. subst out. unfold handleApplyWorkspaceEdit.
  cbv zeta. rewrite Hch.
  rewrite (versionMismatch_stale _ _ uri v doc) by done.
  destruct (asWorkspaceEdit_settles env) as [[]|e]; split_and!; try done.
  by intros e' [= ->].
Qed.

Lemma stale_edit_refused_witness :
  (handleApplyWorkspaceEdit Sample.editEnv
     {| documentChanges := Some [TextDocumentEdit "file:///a.ts" (Some 2)] |}
     Sample.client).1 = Resolved {| applied := false |}.
Proof.
  apply (proj1 (proj2 (stale_edit_refused Sample.editEnv
           {| documentChanges := Some [TextDocumentEdit "file:///a.ts" (Some 2)] |}
           Sample.client [TextDocumentEdit "file:///a.ts" (Some 2)]
           "file:///a.ts" 2 {| td_uri := "file:///a.ts"; td_version := 3 |}
           eq_refl ltac:(left) ltac:(lia) eq_refl ltac:(done)))).
  reflexivity.
Defined.

(** C3, counterexample.  An edit that names version -1 of a document open
    at version 3 passes the check ([version >= 0] fails, so the change is
    skipped) and is applied. *)
Lemma negative_version_applied :
  ¬ (∀ (env : ApplyEditEnv) (edit : WorkspaceEdit) (c : Client)
       (changes : list DocumentChange) (uri : string) (v v' : Z)
       (doc : TextDocument),
       asWorkspaceEdit_settles env = Ok tt →
       documentChanges edit = Some changes →
       TextDocumentEdit uri (Some v) ∈ changes →
       JSMap.get uri (openTextDocuments (Workspace_textDocuments env)) = Some doc →
       td_version doc = v' → v' ≠ v → 0 ≤ v' →
       (handleApplyWorkspaceEdit env edit c).1 = Resolved {| applied := false |} ∧
       Host Workspace_applyEdit ∉ effects (handleApplyWorkspaceEdit env edit c).2).
Proof.
  intros H.
  destruct (H Sample.editEnv
              {| documentChanges := Some [TextDocumentEdit "file:///a.ts" (Some (-1))] |}
              Sample.client [TextDocumentEdit "file:///a.ts" (Some (-1))]
              "file:///a.ts" (-1) 3 {| td_uri := "file:///a.ts"; td_version := 3 |}
              eq_refl eq_refl ltac:(left) eq_refl eq_refl ltac:(lia) ltac:(lia))
    as [Hres _].
  vm_compute in Hres. discriminate.
Qed.

(** ** Registration requests *)

Lemma registerCall_emits es c r : registerCall (emits es c) r = registerCall c r.
Proof. done. Qed.

Lemma registerThrown_emits es c r :
  registerThrown (emits es c) r = registerThrown c r.
Proof. done. Qed.

(** The loop, registration by registration. *)
Lemma handleRegistrationRequest_app before rest c :
  Forall (λ r, is_Some (JSMap.get (r_method r) (_dynamicFeatures c))) before →
  Forall (λ r, registerThrown c r = None) before →
  handleRegistrationRequest (before ++ rest) c =
  handleRegistrationRequest rest (emits (omap (registerCall c) before) c).
Proof.
  revert c. induction before as [|r before IH]; intros c Hknown Hquiet.
  - by rewrite emits_nil.
  - apply Forall_cons in Hknown as [[feature Hf] Hknown].
    apply Forall_cons in Hquiet as [Hr Hquiet].
    simpl. rewrite Hf.
    unfold registerThrown in Hr. rewrite Hf in Hr. simpl in Hr. rewrite Hr.
    rewrite emit_emits, IH by done.
    rewrite emits_emits. unfold registerCall at 2.
    rewrite Hf. reflexivity.
Qed.

Lemma handleRegistrationRequest_unknown rs c :
  Exists (λ r, JSMap.get (r_method r) (_dynamicFeatures c) = None) rs →
  ∃ e, (handleRegistrationRequest rs c).1 = Rejected e.
Proof.
  revert c. induction rs as [|r rs IH]; intros c Hex.
  - by apply Exists_nil in Hex.
  - simpl. destruct (JSMap.get (r_method r) (_dynamicFeatures c)) eqn:Hf.
    + apply Exists_cons in Hex as [Hex|Hex]; [congruence|].
      destruct (registerOutcome _ _); [by eexists|].
      by apply IH.
    + by eexists.
Qed.

(** C10, as the code has it.  A batch with a registration whose method has
    no dynamic feature is rejected.  When no [register] call of the
    registrations before it throws, [register] has been called for each of
    them, in order, and for no other registration, and the rejection names
    the unknown method.  When one of them throws, the batch is rejected with
    what it threw: [register] has been called for the registrations up to
    and including that one, and for none after it.  Nothing is rolled
    back. *)
Theorem registration_batch_not_atomic (c : Client)
    (before after : list Registration) (unknown : Registration) :
  Forall (λ r, is_Some (JSMap.get (r_method r) (_dynamicFeatures c))) before →
  JSMap.get (r_method unknown) (_dynamicFeatures c) = None →
  let out := handleRegistrationRequest (before ++ unknown :: after) c in
  (∃ e, out.1 = Rejected e) ∧
  (Forall (λ r, registerThrown c r = None) before →
   out = (Rejected (unknownMethod unknown),
          emits (omap (registerCall c) before) c)) ∧
  (∀ applied thrower skipped e,
     before = applied ++ thrower :: skipped →
     Forall (λ r, registerThrown c r = None) applied →
     registerThrown c thrower = Some e →
     out = (Rejected e, emits (omap (registerCall c) (applied ++ [thrower])) c)).
Proof.
  intros Hknown Hunknown out.
  assert (Hquiet : Forall (λ r, registerThrown c r = None) before →
     out = (Rejected (unknownMethod unknown),
          emits (omap (registerCall c) before) c)).
  { intros Hquiet. subst out. rewrite handleRegistrationRequest_app by done.
    simpl. fields. by rewrite Hunknown. }
  assert (Hthrows : ∀ applied thrower skipped e,
     before = applied ++ thrower :: skipped →
     Forall (λ r, registerThrown c r = None) applied →
     registerThrown c thrower = Some e →
     out = (Rejected e, emits (omap (registerCall c) (applied ++ [thrower])) c)).
  { intros applied thrower skipped e -> Happlied Hthrower. subst out.
    apply Forall_app in Hknown as [Hk1 Hk2].
    apply Forall_cons in Hk2 as [[feature Hf] _].
    rewrite <- app_assoc. rewrite handleRegistrationRequest_app by done.
    simpl. fields. rewrite Hf.
    unfold registerThrown in Hthrower. rewrite Hf in Hthrower. simpl in Hthrower.
    change (registrationData thrower (emits _ c))
      with (registrationData thrower c).
    rewrite Hthrower. f_equal. client_eq.
    assert (registerCall c thrower =
            Some (FeatureDo (featureName feature)
                    (F_register (registrationData thrower c)))) as Hcall.
    { unfold registerCall. by rewrite Hf. }
    rewrite omap_app. cbn [omap list_omap]. rewrite Hcall.
    by rewrite <- app_assoc. }
  split_and!; [|done|done].
  apply handleRegistrationRequest_unknown, Exists_app. right. by left.
Qed.

Lemma registration_batch_not_atomic_witness :
  handleRegistrationRequest
    ([Sample.registration "1" "textDocument/hover"]
     ++ Sample.registration "2" "custom/unknown"
        :: [Sample.registration "3" "textDocument/hover"])
    Sample.featureClient =
  (Rejected (unknownMethod (Sample.registration "2" "custom/unknown")),
   emits (omap (registerCall Sample.featureClient)
            [Sample.registration "1" "textDocument/hover"])
     Sample.featureClient).
Proof.
  apply (proj1 (proj2 (registration_batch_not_atomic Sample.featureClient
           [Sample.registration "1" "textDocument/hover"]
           [Sample.registration "3" "textDocument/hover"]
           (Sample.registration "2" "custom/unknown")
           ltac:(repeat constructor; by eexists) eq_refl))).
  repeat constructor.
Defined.

(** C10, counterexample.  In the batch broken, hover, unknown the call of
    [register] for the first registration throws: the batch is rejected
    there and [register] is never called for the second one, although it
    comes before the unknown method. *)
Lemma registration_before_unknown_skipped :
  ¬ (∀ (c : Client) (before after : list Registration) (unknown : Registration),
       Forall (λ r, is_Some (JSMap.get (r_method r) (_dynamicFeatures c))) before →
       JSMap.get (r_method unknown) (_dynamicFeatures c) = None →
       effects (handleRegistrationRequest (before ++ unknown :: after) c).2 =
       effects c ++ omap (registerCall c) before).
Proof.
  intros H.
  specialize (H Sample.featureClient
                [Sample.registration "1" "custom/broken";
                 Sample.registration "2" "textDocument/hover"]
                [] (Sample.registration "3" "custom/unknown")
                ltac:(repeat constructor; by eexists) eq_refl).
  vm_compute in H. discriminate.
Qed.

(** ** Stop *)

(** C5, as the code has it.  The handlers chained on the race leave the
    client stopped and reset (state [Stopped]; start promise, stop promise
    and connection undefined) from whatever client they run on and however
    the race ended: the promise resolves, after [exit], [end] and
    [dispose] on the connection, when the connection won; it rejects with
    the timeout error, the connection neither ended nor disposed, when the
    timer won; it rejects with the error of [shutdown] or [exit] when one of
    them failed.  A [stop()] on a client that is not [Stopped] and has no
    stop in flight runs these handlers once [$start()] has given it a
    connection, after setting the state to [Stopping] and sending
    [shutdown]; it is rejected with the error of [$start()], and goes no
    further, when [$start()] fails, as it does on a client whose start
    failed.  On a [Stopped] client [stop()] does nothing, and while a stop
    is in flight it returns the promise of that stop. *)
Theorem stop_ends_stopped :
  (∀ (race : StopRace) (connection : nat) (c : Client),
     let out := stopSettle race connection c in
     stoppedAndReset out.2 ∧
     (race = ConnectionWon →
      out.1 = Resolved tt ∧
      effects out.2 =
        effects c
        ++ [Conn connection C_exit; Conn connection C_end;
            Conn connection C_dispose]
        ++ stateChange (_state c) ClientState.Stopped
        ++ [Host CleanUpChannel]) ∧
     (∀ exitSent, race = TimeoutWon exitSent →
      out.1 = Rejected (JSError "Stopping the server timed out") ∧
      effects out.2 =
        effects c
        ++ (if exitSent then [Conn connection C_exit] else [])
        ++ [LogError "Stopping server timed out" (Show false)]
        ++ stateChange (_state c) ClientState.Stopped
        ++ [Host CleanUpChannel]) ∧
     (∀ e, race = ShutdownRejected e ∨ race = ExitRejected e →
      out.1 = Rejected e)) ∧
  (∀ (env : StopEnv) (timeout : Z) (c c1 : Client) (connection : nat),
     _state c ≠ ClientState.Stopped →
     (_state c = ClientState.Stopping → _onStop c = None) →
     start' (stop_start env) c = (Resolved connection, c1) →
     stop env timeout c =
       stopSettle (stop_race env) connection (stopBegin timeout connection c1) ∧
     _state (stopBegin timeout connection c1) = ClientState.Stopping ∧
     _onStop (stopBegin timeout connection c1) = Some Suspended ∧
     _initializeResult (stopBegin timeout connection c1) = None ∧
     Conn connection C_shutdown ∈ effects (stopBegin timeout connection c1)) ∧
  (∀ (env : StopEnv) (timeout : Z) (c c1 : Client) (e : Error),
     _state c ≠ ClientState.Stopped →
     (_state c = ClientState.Stopping → _onStop c = None) →
     start' (stop_start env) c = (Rejected e, c1) →
     stop env timeout c = (Rejected e, c1)) ∧
  (∀ (env : StopEnv) (timeout : Z) (c : Client),
     _state c = ClientState.StartFailed →
     stop env timeout c =
       (Rejected (JSError "Previous start failed. Can't restart server."), c)) ∧
  (∀ (env : StopEnv) (timeout : Z) (c : Client),
     _state c = ClientState.Stopped → stop env timeout c = (Resolved tt, c)) ∧
  (∀ (env : StopEnv) (timeout : Z) (c : Client) (promise : Promise),
     _state c = ClientState.Stopping → _onStop c = Some promise →
     stop env timeout c = (promise, c)).
Proof.
  split_and!.
  - intros race connection c out. subst out. unfold stopSettle, stoppedAndReset.
    destruct race as [|exitSent|e|e]; cbv zeta beta iota;
      rewrite set_state_eq; unfold cleanUpChannel, error; fields.
    + split_and!; try done.
      * intros _. split; [done|]. by flatten_effects.
      * intros e [|]; done.
    + split_and!; try done.
      * intros b [= <-]. split; [done|].
        destruct exitSent; fields; by flatten_effects.
      * intros e [|]; done.
    + split_and!; try done. intros e' [[= ->]|]; done.
    + split_and!; try done. intros e' [|[= ->]]; done.
  - intros env timeout c c1 connection Hstate Hstopping Hstart.
    unfold stop. rewrite decide_False by done.
    assert ((if decide (_state c = ClientState.Stopping) then _onStop c else None)
            = None) as ->.
    { case_decide; auto. }
    rewrite Hstart. split; [done|].
    unfold stopBegin. cbv zeta. rewrite set_state_eq. unfold cleanUp.
    cbv zeta. fields.
    split_and!.
    + by repeat case_match.
    + by repeat case_match.
    + by repeat case_match.
    + repeat case_match; fields; rewrite !elem_of_app; right; left.
  - intros env timeout c c1 e Hstate Hstopping Hstart.
    unfold stop. rewrite decide_False by done.
    assert ((if decide (_state c = ClientState.Stopping) then _onStop c else None)
            = None) as ->.
    { case_decide; auto. }
    by rewrite Hstart.
  - intros env timeout c Hstate. unfold stop, start'.
    rewrite decide_False by (rewrite Hstate; done).
    rewrite (decide_False (P:=_state c = ClientState.Stopping))
      by (rewrite Hstate; done).
    by rewrite decide_True.
  - intros env timeout c Hstate. unfold stop. by rewrite decide_True.
  - intros env timeout c promise Hstate Hstop. unfold stop.
    rewrite decide_False by (rewrite Hstate; done).
    by rewrite decide_True, Hstop.
Qed.

(** C5, counterexample.  After a start that failed (the server answered
    with the encoding utf-8) the state is [StartFailed]; [stop()] is then
    rejected by [$start()] and the state stays [StartFailed]. *)
Lemma stop_after_failed_start :
  ¬ (∀ (env : StopEnv) (timeout : Z) (c : Client),
       _state c ≠ ClientState.Stopped →
       _state (stop env timeout c).2 = ClientState.Stopped).
Proof.
  intros H.
  specialize (H (Sample.stopEnv ConnectionWon) 2000 Sample.failedStart ltac:(by vm_compute)).
  vm_compute in H. discriminate.
Qed.

(** A run of [stop()] on the sample client once started: [$start()] hands
    over the connection, and the client ends stopped and reset however the
    race ends. *)
Example sample_stop_running (race : StopRace) :
  let running := (start (Sample.env (Sample.result None None)) Sample.client).2 in
  _state running = ClientState.Running ∧
  (start' (Sample.env (Sample.result None None)) running).1 = Resolved 0%nat ∧
  stoppedAndReset (stop (Sample.stopEnv race) 2000 running).2.
Proof.
  split_and!; [by vm_compute..|].
  destruct race as [|[]|e|e]; by vm_compute.
Qed.

(** ** Pending handlers *)

Section MakePending.
Context {K V : Type} `{EqDecision K}.
Implicit Types (registered pending : JSMap.t K V).

Lemma makePending_get registered pending k :
  JSMap.get k (makePending registered pending) =
  match JSMap.get k pending with
  | Some v => Some v
  | None => JSMap.get k registered
  end.
Proof.
  unfold makePending. revert pending.
  induction registered as [|[k' v'] registered IH]; intros pending; simpl.
  - by destruct (JSMap.get k pending).
  - rewrite IH. unfold JSMap.has.
    destruct (JSMap.get k' pending) as [w|] eqn:Hk'.
    + case_decide; subst; [by rewrite Hk'|done].
    + case_decide; subst.
      * by rewrite JSMapFacts.get_set_eq, Hk'.
      * by rewrite JSMapFacts.get_set_ne.
Qed.

Lemma makePending_NoDup registered pending :
  NoDup (JSMap.keys pending) →
  NoDup (JSMap.keys (makePending registered pending)).
Proof.
  unfold makePending. revert pending.
  induction registered as [|[k' v'] registered IH]; intros pending Hnd; simpl.
  - done.
  - apply IH. case_match; [done|]. by apply JSMapFacts.NoDup_keys_set.
Qed.

Lemma makePending_agree registered pending k :
  (∀ v, JSMap.get k pending = Some v → JSMap.get k registered = Some v) →
  JSMap.get k (makePending registered pending) = JSMap.get k registered.
Proof.
  intros Hagree. rewrite makePending_get.
  destruct (JSMap.get k pending) eqn:E; [|done]. symmetry. by apply Hagree.
Qed.

(** Reading the entries of one key off a map gives its value, once. *)
Lemma omap_key (m : JSMap.t K V) (k : K) :
  NoDup (JSMap.keys m) →
  omap (λ entry : K * V, if decide (entry.1 = k) then Some entry.2 else None) m =
  option_list (JSMap.get k m).
Proof.
  unfold JSMap.keys. induction m as [|[k' v'] m IH]; intros Hnd; [done|].
  apply NoDup_cons in Hnd as [Hk' Hnd]. simpl in Hk'.
  cbn [omap list_omap JSMap.get fst snd].
  destruct (decide (k' = k)) as [->|Hne].
  - rewrite decide_True by done. cbn. f_equal. rewrite IH by done.
    apply JSMapFacts.get_None_keys in Hk'. unfold JSMap.keys in Hk'.
    by rewrite Hk'.
  - rewrite (decide_False (P:=k = k')) by done. by apply IH.
Qed.

End MakePending.

(** ** Registered handlers are bound once *)

Lemma omap_map {A B C} (f : B → option C) (g : A → B) (l : list A) :
  omap f (map g l) = omap (λ a, f (g a)) l.
Proof. induction l as [|a l IH]; [done|]. csimpl. by rewrite IH. Qed.

Lemma omap_pointwise {A B} (f g : A → option B) (l : list A) :
  (∀ a, f a = g a) → omap f l = omap g l.
Proof.
  intros Hfg. induction l as [|a l IH]; [done|]. csimpl. by rewrite Hfg, IH.
Qed.

Lemma omap_silent {A B} (f : A → option B) (l : list A) :
  (∀ a, f a = None) → omap f l = [].
Proof.
  intros Hf. induction l as [|a l IH]; [done|]. csimpl. by rewrite Hf.
Qed.

(** The pieces of the effects of [start()] that bind no application
    handler. *)
Ltac silent_pieces f :=
  repeat match goal with
  | |- context [omap f (stateChange ?a ?b)] =>
      replace (omap f (stateChange a b)) with (@nil AppHandler)
        by (unfold stateChange; by case_decide)
  | |- context [omap f (ensureDiagnosticsEffects ?c)] =>
      replace (omap f (ensureDiagnosticsEffects c)) with (@nil AppHandler)
        by (unfold ensureDiagnosticsEffects; by case_match)
  | |- context [omap f (progressEffects ?e ?c ?p)] =>
      replace (omap f (progressEffects e c p)) with (@nil AppHandler)
        by (unfold progressEffects; by case_match)
  | |- context [omap f (armIdleTimerEffects ?o)] =>
      replace (omap f (armIdleTimerEffects o)) with (@nil AppHandler)
        by (unfold armIdleTimerEffects; by case_decide)
  | |- context [omap f (hookFileEventsEffects ?o)] =>
      replace (omap f (hookFileEventsEffects o)) with (@nil AppHandler)
        by (unfold hookFileEventsEffects; by case_match)
  | |- context [omap f (featureEffects ?call ?fs)] =>
      replace (omap f (featureEffects call fs)) with (@nil AppHandler)
        by (unfold featureEffects; by rewrite omap_map, omap_silent)
  end.

Lemma started_requests env c method :
  boundRequestHandlers (connections c) method (startedEffects env c) =
  omap (λ entry : string * AppHandler,
          if decide (entry.1 = method) then Some entry.2 else None)
    (makePending (_requestHandlers c) (_pendingRequestHandlers c)).
Proof.
  unfold boundRequestHandlers, startedEffects, connectEffects, handshakeEffects,
    connectedClient.
  fields. rewrite !omap_app.
  silent_pieces (requestBound (connections c) method).
  rewrite !omap_map.
  rewrite (omap_silent _ (makePending (_notificationHandlers c) _)) by done.
  rewrite (omap_silent _ (makePending (_progressHandlers c) _)) by done.
  cbn [omap list_omap app requestBound startBindings ownBindings].
  rewrite !app_nil_r.
  apply omap_pointwise. intros [m h]. cbn.
  repeat case_decide; try done; exfalso; intuition.
Qed.

Lemma started_notifications env c method :
  boundNotificationHandlers (connections c) method (startedEffects env c) =
  omap (λ entry : string * AppHandler,
          if decide (entry.1 = method) then Some entry.2 else None)
    (makePending (_notificationHandlers c) (_pendingNotificationHandlers c)).
Proof.
  unfold boundNotificationHandlers, startedEffects, connectEffects,
    handshakeEffects, connectedClient.
  fields. rewrite !omap_app.
  silent_pieces (notificationBound (connections c) method).
  rewrite !omap_map.
  rewrite (omap_silent _ (makePending (_requestHandlers c) _)) by done.
  rewrite (omap_silent _ (makePending (_progressHandlers c) _)) by done.
  cbn [omap list_omap app notificationBound startBindings ownBindings].
  rewrite !app_nil_r.
  apply omap_pointwise. intros [m h]. cbn.
  repeat case_decide; try done; exfalso; intuition.
Qed.

(** C1.  Take a client whose registry maps are maps and whose pending
    handlers are registered with the same handler (as they are before a
    start), with no start in flight and no stop pending, and a start that
    succeeds: the transport is created, the server answers with an accepted
    encoding and the [initialized] notification is sent.  Then [start()]
    resolves with the client [Running] on a new connection, and among the
    effects it added each method of the registered request handlers is
    bound to that connection exactly once, with its registered handler, and
    no other method is bound to an application handler; the same holds of
    the notification handlers.  The pending maps are empty afterwards and
    the registered maps are as they were. *)
Theorem registered_handlers_bound_once (env : StartEnv) (c : Client)
    (result : InitializeResult) :
  registryReady c →
  _onStart c = None →
  (_onStop c = None ∨ _onStop c = Some (Resolved tt)) →
  createMessageTransports env = Ok tt →
  connection_initialize env = Ok result →
  acceptedEncoding result →
  initialized_sent env = Ok tt →
  ∃ new c',
    start env c = (Resolved tt, c') ∧
    effects c' = effects c ++ new ∧
    _state c' = ClientState.Running ∧
    _connection c' = Some (connections c) ∧
    (∀ method,
       boundRequestHandlers (connections c) method new =
       option_list (JSMap.get method (_requestHandlers c))) ∧
    (∀ method,
       boundNotificationHandlers (connections c) method new =
       option_list (JSMap.get method (_notificationHandlers c))) ∧
    _pendingRequestHandlers c' = [] ∧
    _pendingNotificationHandlers c' = [] ∧
    _requestHandlers c' = _requestHandlers c ∧
    _notificationHandlers c' = _notificationHandlers c.
Proof.
  intros (HR & HpR & HN & HpN & HagreeR & HagreeN) Hstart Hstop Htr Hinit Henc Hsent.
  exists (startedEffects env c).
  assert (∃ c0, start env c = startNow env c0 ∧ c0 = with_onStop None c)
    as (c0 & -> & Hc0).
  { unfold start. rewrite Hstart.
    destruct Hstop as [Hs | Hs]; rewrite Hs; eexists; split; try reflexivity.
    client_eq. by rewrite Hs. }
  rewrite (startNow_started env c0 result) by done.
  eexists. split; [reflexivity|]. subst c0.
  split_and!; try done.
  - intros method. rewrite started_requests.
    rewrite omap_key by by apply makePending_NoDup.
    f_equal. apply makePending_agree, HagreeR.
  - intros method. rewrite started_notifications.
    rewrite omap_key by by apply makePending_NoDup.
    f_equal. apply makePending_agree, HagreeN.
Qed.

(** ** The registry before a start *)

Lemma registerFeatures_fields features c :
  let c' := registerFeatures features c in
  _state c' = _state c ∧ _onStart c' = _onStart c ∧ _onStop c' = _onStop c ∧
  _pendingRequestHandlers c' = _pendingRequestHandlers c ∧
  _requestHandlers c' = _requestHandlers c ∧
  _pendingNotificationHandlers c' = _pendingNotificationHandlers c ∧
  _notificationHandlers c' = _notificationHandlers c ∧
  _requestDisposables c' = _requestDisposables c ∧
  _notificationDisposables c' = _notificationDisposables c.
Proof.
  unfold registerFeatures. revert c.
  induction features as [|f features IH]; intros c; [done|].
  simpl. destruct (IH (registerFeature f c)) as (-> & -> & -> & -> & -> & -> & -> & -> & ->).
  unfold registerFeature. by destruct f.
Qed.

Lemma create_neverStarted name options p2c builtin :
  neverStarted (create name options p2c builtin).
Proof.
  unfold create, neverStarted.
  match goal with |- context [registerFeatures _ ?c0] =>
    destruct (registerFeatures_fields builtin c0)
      as (-> & -> & -> & -> & -> & -> & -> & -> & ->)
  end.
  fields. split_and!; try done; apply NoDup_nil_2.
Qed.

Lemma registryCall_neverStarted call c :
  neverStarted c → neverStarted (registryCall call c).
Proof.
  intros (Hstate & Hstart & Hstop & HR & HN & HdR & HdN & HndR & HndN).
  unfold neverStarted.
  destruct call as [m h|m h|m|m]; cbn [registryCall].
  - unfold onRequest, activeConnection. fields. rewrite Hstate.
    rewrite decide_False by done. fields. rewrite HR.
    split_and!; try done. by apply JSMapFacts.NoDup_keys_set.
  - unfold onNotification, activeConnection. fields. rewrite Hstate.
    rewrite decide_False by done. fields. rewrite HN.
    split_and!; try done. by apply JSMapFacts.NoDup_keys_set.
  - unfold disposeRequest, disposeRequestBinding. fields. rewrite HdR.
    cbn [JSMap.get]. fields. rewrite HR.
    split_and!; try done. by apply JSMapFacts.NoDup_keys_delete.
  - unfold disposeNotification, disposeNotificationBinding. fields. rewrite HdN.
    cbn [JSMap.get]. fields. rewrite HN.
    split_and!; try done. by apply JSMapFacts.NoDup_keys_delete.
Qed.

Lemma registryCalls_neverStarted calls c :
  neverStarted c → neverStarted (registryCalls calls c).
Proof.
  unfold registryCalls. revert c.
  induction calls as [|call calls IH]; intros c Hc; [done|].
  simpl. by apply IH, registryCall_neverStarted.
Qed.

Lemma neverStarted_ready c : neverStarted c → registryReady c.
Proof.
  intros (Hstate & Hstart & Hstop & HR & HN & HdR & HdN & HndR & HndN).
  unfold registryReady. rewrite HR, HN. split_and!; done.
Qed.

(** What is registered after a call, for a client that was never
    started: the last registration of a method stands until it is disposed
    of. *)
Lemma registered_after_call call c method :
  neverStarted c →
  JSMap.get method (_requestHandlers (registryCall call c)) =
  match call with
  | CallOnRequest method' handler =>
      if decide (method' = method) then Some handler
      else JSMap.get method (_requestHandlers c)
  | CallDisposeRequest method' =>
      if decide (method' = method) then None
      else JSMap.get method (_requestHandlers c)
  | _ => JSMap.get method (_requestHandlers c)
  end.
Proof.
  intros (Hstate & Hstart & Hstop & HR & HN & HdR & HdN & HndR & HndN).
  destruct call as [m h|m h|m|m]; cbn [registryCall].
  - unfold onRequest, activeConnection. fields. rewrite Hstate.
    rewrite decide_False by done. fields.
    case_decide; subst.
    + by rewrite JSMapFacts.get_set_eq.
    + by rewrite JSMapFacts.get_set_ne.
  - unfold onNotification, activeConnection. fields. rewrite Hstate.
    by rewrite decide_False by done.
  - unfold disposeRequest, disposeRequestBinding. fields. rewrite HdR.
    cbn [JSMap.get reg_key reg_branch]. fields.
    case_decide; subst.
    + by rewrite JSMapFacts.get_delete_eq.
    + by rewrite JSMapFacts.get_delete_ne.
  - unfold disposeNotification, disposeNotificationBinding. fields. rewrite HdN.
    done.
Qed.

Lemma registered_handlers_bound_once_witness :
  ∃ new c',
    start (Sample.env (Sample.result None None)) Sample.registered =
      (Resolved tt, c') ∧
    effects c' = effects Sample.registered ++ new ∧
    _state c' = ClientState.Running ∧
    _connection c' = Some (connections Sample.registered) ∧
    (∀ method,
       boundRequestHandlers (connections Sample.registered) method new =
       option_list (JSMap.get method (_requestHandlers Sample.registered))) ∧
    (∀ method,
       boundNotificationHandlers (connections Sample.registered) method new =
       option_list (JSMap.get method (_notificationHandlers Sample.registered))) ∧
    _pendingRequestHandlers c' = [] ∧
    _pendingNotificationHandlers c' = [] ∧
    _requestHandlers c' = _requestHandlers Sample.registered ∧
    _notificationHandlers c' = _notificationHandlers Sample.registered.
Proof.
  apply (registered_handlers_bound_once
           (Sample.env (Sample.result None None)) Sample.registered
           (Sample.result None None)).
  - unfold registryReady. split_and!;
      try (apply (bool_decide_unpack _); by vm_compute);
      by vm_compute.
  - reflexivity.
  - left. reflexivity.
  - reflexivity.
  - reflexivity.
  - left. reflexivity.
  - reflexivity.
Defined.

(** On the sample: the request registered twice is bound once, with the
    later handler; the one disposed of is not bound. *)
Example sample_request_bound_once :
  ∃ new c',
    start (Sample.env (Sample.result None None)) Sample.registered =
      (Resolved tt, c') ∧
    effects c' = effects Sample.registered ++ new ∧
    boundRequestHandlers 0 "a/x" new = [3%nat] ∧
    boundRequestHandlers 0 "c/z" new = [] ∧
    boundNotificationHandlers 0 "b/y" new = [2%nat].
Proof.
  eexists _, _. split; [vm_compute; reflexivity|].
  split; [vm_compute; reflexivity|]. by vm_compute.
Qed.

(** ** The diagnostics queue *)

Lemma first_get {K V} `{EqDecision K} (m : JSMap.t K V) k v :
  JSMap.first m = Some (k, v) → JSMap.get k m = Some v.
Proof.
  destruct m as [|[k' v'] m]; [done|]. intros [= -> ->]. simpl.
  by rewrite decide_True.
Qed.

Section Superseded.
Variables (key : string) (latest : list Diagnostic) (p2c : P2C).

Local Abbreviation upToDate := (Paths.upToDate key latest p2c).
Local Abbreviation fresh := (Paths.fresh key latest p2c).

Lemma fresh_nil : fresh [].
Proof. intros ? H. by apply elem_of_nil in H. Qed.

Lemma fresh_app es1 es2 : fresh es1 → fresh es2 → fresh (es1 ++ es2).
Proof.
  intros H1 H2 converted H. unfold deliveries in H. rewrite omap_app in H.
  apply elem_of_app in H as [H|H]; [by apply H1 | by apply H2].
Qed.

Lemma fresh_silent es : deliveries key es = [] → fresh es.
Proof. intros H ? Hin. rewrite H in Hin. by apply elem_of_nil in Hin. Qed.

Lemma queueStep_upToDate event c :
  upToDate c → ¬ publishes key event →
  ∃ new, effects (queueStep event c) = effects c ++ new ∧
         fresh new ∧ upToDate (queueStep event c).
Proof.
  intros (Hp2c & Hnd & Hqueue & Hbusy) Hevent.
  destruct event as [uri batch| |resolved| |channel diagnostics];
    cbn [queueStep publishes] in *.
  - (* a publish for another key *)
    unfold handleDiagnostics, triggerDiagnosticQueue.
    destruct (_diagnostics c); cbn [negb].
    2:{ exists []. rewrite app_nil_r. split_and!; try done. apply fresh_nil. }
    eexists. split.
    { destruct (_diagnosticQueueState c) as [|document converting cancelled];
        [|case_decide]; fields; reflexivity. }
    split; [by apply fresh_silent|].
    unfold Paths.upToDate.
    destruct (_diagnosticQueueState c) as [|document converting cancelled] eqn:Hs;
      [|case_decide]; fields; rewrite ?Hs; split_and!; try done;
      try (by apply JSMapFacts.NoDup_keys_set);
      try (intros b; rewrite JSMapFacts.get_set_ne by done; apply Hqueue).
    intros b cancelled' [= -> -> ->]. by destruct Hevent.
  - (* the drain *)
    unfold workDiagnosticQueue.
    destruct (_diagnosticQueueState c) as [|document converting cancelled] eqn:Hs.
    2:{ exists []. rewrite app_nil_r. split_and!; try done. apply fresh_nil.
        unfold Paths.upToDate. by rewrite Hs. }
    destruct (JSMap.first (_diagnosticQueue c)) as [[document batch]|] eqn:Hfirst.
    2:{ exists []. rewrite app_nil_r. split_and!; try done. apply fresh_nil.
        unfold Paths.upToDate. by rewrite Hs. }
    eexists. split; [fields; reflexivity|]. split; [by apply fresh_silent|].
    unfold Paths.upToDate. fields. split_and!; try done.
    + by apply JSMapFacts.NoDup_keys_delete.
    + intros b. destruct (decide (document = key)) as [->|Hne].
      * by rewrite JSMapFacts.get_delete_eq.
      * rewrite JSMapFacts.get_delete_ne by done. apply Hqueue.
    + intros b cancelled [= -> -> <-]. right.
      apply Hqueue. by apply first_get.
  - (* the conversion settles *)
    unfold conversionSettled, setDiagnostics, triggerDiagnosticQueue.
    destruct (_diagnosticQueueState c) as [|document converting cancelled] eqn:Hs.
    { exists []. rewrite app_nil_r. split_and!; try done. apply fresh_nil.
      unfold Paths.upToDate. by rewrite Hs. }
    assert (Hframe : ∀ c', _p2c c' = _p2c c →
              _diagnosticQueue c' = _diagnosticQueue c →
              upToDate (emit (Host SetImmediate_workDiagnosticQueue)
                          (with_diagnosticQueueState Idle c'))).
    { intros c' H1 H2. unfold Paths.upToDate. fields. rewrite H1, H2.
      split_and!; done. }
    destruct (resolved && negb cancelled) eqn:Hdeliver.
    2:{ eexists. split; [fields; reflexivity|].
        split; [by apply fresh_silent|]. by apply Hframe. }
    apply andb_true_iff in Hdeliver as [-> Hcancelled].
    apply negb_true_iff in Hcancelled as ->.
    assert (Hconverted : document = key →
              asDiagnostics (_p2c c) converting = asDiagnostics p2c latest).
    { intros ->. destruct (Hbusy converting false eq_refl) as [? | ->]; [done|].
      by rewrite Hp2c. }
    destruct (middleware_handleDiagnostics (_clientOptions c)).
    + eexists. split; [fields; rewrite <- app_assoc; reflexivity|].
      split; [|by apply Hframe].
      intros converted Hin. cbn in Hin. case_decide.
      * apply list_elem_of_singleton in Hin as ->. by apply Hconverted.
      * by apply elem_of_nil in Hin.
    + destruct (_diagnostics c) eqn:Hd; cbn [negb].
      * eexists. split; [fields; rewrite <- app_assoc; reflexivity|].
        split; [|by apply Hframe].
        intros converted Hin. cbn in Hin. case_decide.
        -- apply list_elem_of_singleton in Hin as ->. by apply Hconverted.
        -- by apply elem_of_nil in Hin.
      * eexists. split; [fields; reflexivity|].
        split; [by apply fresh_silent|]. by apply Hframe.
  - (* start creates the collection *)
    rewrite ensureDiagnostics_eq. eexists. split; [fields; reflexivity|].
    split; [unfold ensureDiagnosticsEffects; case_match; by apply fresh_silent|].
    unfold Paths.upToDate. fields. by split_and!.
  - (* clean-up *)
    rewrite cleanUp_eq. eexists. split; [fields; reflexivity|].
    split.
    + unfold cleanUpEffects, featureEffects.
      apply fresh_silent. unfold deliveries. rewrite !omap_app, omap_map.
      rewrite (omap_silent _ (rev (_features c))) by done.
      by repeat case_match.
    + unfold Paths.upToDate. fields. by split_and!.
Qed.

Lemma queueRun_upToDate events c :
  upToDate c → Forall (λ event, ¬ publishes key event) events →
  ∃ new, effects (queueRun events c) = effects c ++ new ∧
         fresh new ∧ upToDate (queueRun events c).
Proof.
  unfold queueRun. revert c.
  induction events as [|event events IH]; intros c Hc Hevents.
  - exists []. rewrite app_nil_r. split_and!; try done. apply fresh_nil.
  - apply Forall_cons in Hevents as [Hevent Hevents]. simpl.
    destruct (queueStep_upToDate event c Hc Hevent) as (new1 & H1 & Hf1 & Hc1).
    destruct (IH _ Hc1 Hevents) as (new2 & H2 & Hf2 & Hc2).
    exists (new1 ++ new2). rewrite H2, H1, app_assoc.
    split_and!; try done. by apply fresh_app.
Qed.

End Superseded.

(** Whatever the outcome of a conversion, its [finally] makes the queue
    idle and schedules a drain after anything handed to the host. *)
Lemma conversionSettled_idle (busy : Client) (resolved : bool)
    (document : string) (batch : list Diagnostic) (cancelled : bool) :
  _diagnosticQueueState busy = Busy document batch cancelled →
  _diagnosticQueueState (conversionSettled resolved busy) = Idle ∧
  ∃ handed,
    effects (conversionSettled resolved busy) =
    effects busy ++ handed ++ [Host SetImmediate_workDiagnosticQueue].
Proof.
  intros Hbusy.
  unfold conversionSettled, setDiagnostics, triggerDiagnosticQueue.
  rewrite Hbusy.
  destruct (resolved && negb cancelled);
    [destruct (middleware_handleDiagnostics (_clientOptions busy));
       [|destruct (_diagnostics busy)]|]; cbn [negb]; fields;
    (split; [reflexivity|]).
  - eexists [_]. by rewrite <- app_assoc.
  - eexists [_]. by rewrite <- app_assoc.
  - by exists [].
  - by exists [].
Qed.

(** C2, as the code has it.  Let the diagnostic collection exist and the
    queue be busy converting a batch [p1] for [key] when a batch [p2] for
    [key] is published.  Then the token of the conversion in flight is
    cancelled at once, [p2] is the pending batch of [key] and a drain is
    scheduled.  When the conversion of [p1] settles, resolved or not, nothing
    is handed to the host: the queue becomes idle and a drain is scheduled
    again.  From then on, whatever happens short of another publish for
    [key], every result handed to the host for [key] is the conversion of
    [p2]; and when nothing else was pending, the settling of the first
    conversion, a drain and the settling of the second hand the host
    exactly that result.  Whenever a conversion settles, the queue becomes idle
    and the last thing done is to schedule a drain. *)
Theorem newer_publish_supersedes (c : Client) (key : string)
    (p1 p2 : list Diagnostic) (cancelled : bool) :
  _diagnostics c = true →
  NoDup (JSMap.keys (_diagnosticQueue c)) →
  _diagnosticQueueState c = Busy key p1 cancelled →
  let c2 := handleDiagnostics key p2 c in
  _diagnosticQueueState c2 = Busy key p1 true ∧
  JSMap.get key (_diagnosticQueue c2) = Some p2 ∧
  effects c2 = effects c ++ [Host SetImmediate_workDiagnosticQueue] ∧
  (∀ resolved,
     let c3 := conversionSettled resolved c2 in
     _diagnosticQueueState c3 = Idle ∧
     effects c3 = effects c2 ++ [Host SetImmediate_workDiagnosticQueue]) ∧
  (∀ events,
     Forall (λ event, ¬ publishes key event) events →
     ∃ new,
       effects (queueRun events c2) = effects c2 ++ new ∧
       ∀ converted,
         converted ∈ deliveries key new →
         converted = asDiagnostics (_p2c c) p2) ∧
  (_diagnosticQueue c = [] →
   ∀ resolved, ∃ new,
     effects (queueRun [Converted resolved; Tick; Converted true] c2) =
       effects c2 ++ new ∧
     deliveries key new = [asDiagnostics (_p2c c) p2]) ∧
  (∀ (busy : Client) resolved document batch cancelled',
     _diagnosticQueueState busy = Busy document batch cancelled' →
     _diagnosticQueueState (conversionSettled resolved busy) = Idle ∧
     ∃ handed,
       effects (conversionSettled resolved busy) =
       effects busy ++ handed ++ [Host SetImmediate_workDiagnosticQueue]).
Proof.
  intros Hd Hnd Hs c2.
  assert (Hc2 : c2 = emit (Host SetImmediate_workDiagnosticQueue)
                  (with_diagnosticQueue
                     (JSMap.set key p2 (_diagnosticQueue c))
                     (with_diagnosticQueueState (Busy key p1 true) c))).
  { subst c2. unfold handleDiagnostics, triggerDiagnosticQueue.
    rewrite Hd, Hs. cbn [negb]. by rewrite decide_True. }
  split_and!.
  - by rewrite Hc2.
  - rewrite Hc2. fields. apply JSMapFacts.get_set_eq.
  - by rewrite Hc2.
  - intros resolved c3. subst c3. unfold conversionSettled.
    rewrite Hc2. fields. rewrite andb_false_r. by fields.
  - intros events Hevents.
    destruct (queueRun_upToDate key p2 (_p2c c) events c2) as (new & H1 & H2 & _);
      [|done|by exists new].
    rewrite Hc2. unfold Paths.upToDate. fields. split_and!; try done.
    + by apply JSMapFacts.NoDup_keys_set.
    + intros batch. rewrite JSMapFacts.get_set_eq. by intros [= <-].
    + intros batch cancelled' [= _ <-]. by left.
  - intros Hempty resolved. rewrite Hc2. unfold queueRun. cbn [fold_left queueStep].
    unfold conversionSettled at 2. fields. rewrite andb_false_r.
    unfold triggerDiagnosticQueue, workDiagnosticQueue. fields.
    rewrite Hempty. cbn [JSMap.set JSMap.first head JSMap.delete].
    rewrite decide_True by done. fields.
    unfold conversionSettled, setDiagnostics, triggerDiagnosticQueue. fields.
    rewrite Hd. cbn [andb negb].
    destruct (middleware_handleDiagnostics (_clientOptions c)); fields;
      eexists; (split; [rewrite <- !app_assoc; reflexivity|]);
      cbn; by rewrite decide_True.
  - intros busy resolved document batch cancelled' Hbusy.
    exact (conversionSettled_idle busy resolved document batch cancelled' Hbusy).
Qed.

Lemma newer_publish_supersedes_witness :
  _diagnosticQueueState
    (handleDiagnostics "file:///a.ts" [mkDiagnostic "new"] Sample.converting) =
  Busy "file:///a.ts" [mkDiagnostic "old"] true.
Proof.
  exact (proj1 (newer_publish_supersedes
           Sample.converting
           "file:///a.ts" [mkDiagnostic "old"] [mkDiagnostic "new"] false
           ltac:(vm_compute; reflexivity)
           ltac:(vm_compute; apply NoDup_nil_2)
           ltac:(vm_compute; reflexivity))).
Defined.

(** C2, counterexample.  Once [stop()] has begun the diagnostic collection
    is gone and [handleDiagnostics] returns at its first statement: a
    publish for the document being converted cancels nothing. *)
Lemma publish_while_stopping_ignored :
  ¬ (∀ (c : Client) (key : string) (p1 p2 : list Diagnostic) (cancelled : bool),
       NoDup (JSMap.keys (_diagnosticQueue c)) →
       _diagnosticQueueState c = Busy key p1 cancelled →
       _diagnosticQueueState (handleDiagnostics key p2 c) = Busy key p1 true).
Proof.
  intros H.
  specialize (H Sample.stopping "file:///a.ts" [mkDiagnostic "old"]
                [mkDiagnostic "new"] false ltac:(apply NoDup_nil_2) eq_refl).
  vm_compute in H. discriminate.
Qed.

(** With a diagnostics middleware the stale result is then handed on: the
    batch published while stopping is dropped, and the conversion of the
    first batch reaches the middleware. *)
Example stale_result_reaches_middleware :
  deliveries "file:///a.ts"
    (drop (length (effects Sample.stoppingWithMiddleware))
       (effects
          (queueRun
             [Publish "file:///a.ts" [mkDiagnostic "new"]; Converted true; Tick]
             Sample.stoppingWithMiddleware))) =
  [[mkVDiagnostic "old"]].
Proof. by vm_compute. Qed.

(** ** Further properties of the registry, the life cycle and the queue *)

(** X1.  A request handler registered and disposed of before the client is
    started is not pending when the client starts, and a successful start
    does not bind its method to an application handler. *)
Theorem disposed_before_start_never_bound (env : StartEnv)
    (result : InitializeResult) (fresh : Client) (calls : list RegistryCall)
    (method : string) :
  neverStarted fresh →
  createMessageTransports env = Ok tt →
  connection_initialize env = Ok result →
  acceptedEncoding result →
  initialized_sent env = Ok tt →
  let c := registryCall (CallDisposeRequest method) (registryCalls calls fresh) in
  JSMap.get method (_pendingRequestHandlers c) = None ∧
  ∃ new c',
    start env c = (Resolved tt, c') ∧
    effects c' = effects c ++ new ∧
    boundRequestHandlers (connections c) method new = [].
Proof.
  intros Hfresh Htr Hinit Henc Hsent c.
  pose proof (registryCalls_neverStarted calls fresh Hfresh) as Hcalls.
  pose proof (registryCall_neverStarted (CallDisposeRequest method) _ Hcalls) as Hc.
  pose proof (registered_after_call (CallDisposeRequest method) _ method Hcalls) as Hget.
  cbv beta iota in Hget. rewrite decide_True in Hget by done.
  fold c in Hc, Hget.
  destruct Hc as (Hstate & Hstart & Hstop & HR & HN & HdR & HdN & HndR & HndN).
  split; [by rewrite HR|].
  exists (startedEffects env c). eexists. split.
  { unfold start. rewrite Hstart, Hstop. by apply (startNow_started _ _ result). }
  split; [done|].
  rewrite started_requests, omap_key.
  - rewrite makePending_get, HR, Hget. done.
  - apply makePending_NoDup. by rewrite HR.
Qed.

Lemma disposed_before_start_never_bound_witness :
  ∃ new c',
    start (Sample.env (Sample.result None None))
      (registryCall (CallDisposeRequest "c/z")
         (registryCalls [CallOnRequest "c/z" 4%nat] Sample.client)) =
      (Resolved tt, c') ∧
    effects c' =
      effects (registryCall (CallDisposeRequest "c/z")
                 (registryCalls [CallOnRequest "c/z" 4%nat] Sample.client))
      ++ new ∧
    boundRequestHandlers
      (connections (registryCall (CallDisposeRequest "c/z")
                      (registryCalls [CallOnRequest "c/z" 4%nat] Sample.client)))
      "c/z" new = [].
Proof.
  exact (proj2 (disposed_before_start_never_bound
           (Sample.env (Sample.result None None)) (Sample.result None None)
           Sample.client [CallOnRequest "c/z" 4%nat] "c/z"
           (create_neverStarted "sample" Sample.options Sample.p2c [])
           eq_refl eq_refl (or_introl eq_refl) eq_refl)).
Defined.

(** X3.  Features are kept in the order of their registration, and
    [cleanUp] cancels the file event delayer and then disposes of the
    features in the reverse order; it makes no other call on a feature. *)
Theorem features_disposed_in_reverse (features : list Feature)
    (channel diagnostics : bool) (c : Client) :
  _features (registerFeatures features c) = _features c ++ features ∧
  ∃ rest,
    effects (cleanUp channel diagnostics c) =
      effects c
      ++ [Host FileEventDelayer_cancel]
      ++ map (λ f, FeatureDo (featureName f) F_dispose) (rev (_features c))
      ++ rest ∧
    ∀ name call, FeatureDo name call ∉ rest.
Proof.
  split.
  - unfold registerFeatures. revert c.
    induction features as [|f features IH]; intros c; simpl.
    + by rewrite app_nil_r.
    + rewrite IH. unfold registerFeature. destruct f; fields;
        by rewrite <- app_assoc.
  - rewrite cleanUp_eq. unfold cleanUpEffects, featureEffects. fields.
    eexists. split; [reflexivity|].
    intros name call Hin.
    repeat (apply elem_of_app in Hin as [Hin|Hin]); repeat case_match;
      repeat (apply elem_of_cons in Hin as [Hin|Hin]; [done|]);
      by apply elem_of_nil in Hin.
Qed.

(** X4.  An unregistration batch with a method that has no dynamic feature
    is rejected with an error naming the method; [unregister] has been
    called for the unregistrations before it, in order, and for none
    after. *)
Theorem unregistration_unknown_rejected (c : Client)
    (before after : list Unregistration) (unknown : Unregistration) :
  Forall (λ u, is_Some (JSMap.get (u_method u) (_dynamicFeatures c))) before →
  JSMap.get (u_method unknown) (_dynamicFeatures c) = None →
  handleUnregistrationRequest (before ++ unknown :: after) c =
  (Rejected (JSError ("No feature implementation for " +:+ u_method unknown
                      +:+ " found. Unregistration failed.")),
   emits (omap (λ u, feature ← JSMap.get (u_method u) (_dynamicFeatures c);
                     Some (FeatureDo (featureName feature)
                             (F_unregister (u_id u)))) before) c).
Proof.
  intros Hknown Hunknown. revert c Hknown Hunknown.
  induction before as [|u before IH]; intros c Hknown Hunknown.
  - simpl. rewrite Hunknown. by rewrite emits_nil.
  - apply Forall_cons in Hknown as [[feature Hf] Hknown].
    simpl. rewrite Hf. rewrite IH by done. fields. simpl.
    by rewrite emit_emits, emits_emits.
Qed.

Lemma unregistration_unknown_rejected_witness :
  (handleUnregistrationRequest
     ([Sample.unregistration "1" "textDocument/hover"]
      ++ Sample.unregistration "2" "custom/unknown" :: [])
     Sample.featureClient).1 =
  Rejected (JSError "No feature implementation for custom/unknown found. Unregistration failed.").
Proof.
  exact (f_equal fst (unregistration_unknown_rejected Sample.featureClient
           [Sample.unregistration "1" "textDocument/hover"] []
           (Sample.unregistration "2" "custom/unknown")
           ltac:(repeat constructor; by eexists) eq_refl)).
Defined.

(** X5.  Two publishes for one document, with no drain between them, leave
    one pending entry for it, holding the later batch, at the place of the
    first in the queue. *)
Theorem latest_publish_wins (c : Client) (key : string)
    (p1 p2 : list Diagnostic) :
  _diagnostics c = true →
  let c1 := handleDiagnostics key p1 c in
  let c2 := handleDiagnostics key p2 c1 in
  JSMap.get key (_diagnosticQueue c2) = Some p2 ∧
  JSMap.keys (_diagnosticQueue c2) = JSMap.keys (_diagnosticQueue c1).
Proof.
  intros Hd c1 c2.
  assert (Hq1 : _diagnosticQueue c1 = JSMap.set key p1 (_diagnosticQueue c)).
  { subst c1. unfold handleDiagnostics, triggerDiagnosticQueue. rewrite Hd.
    cbn [negb]. by repeat case_match. }
  assert (Hd1 : _diagnostics c1 = true).
  { subst c1. unfold handleDiagnostics, triggerDiagnosticQueue. rewrite Hd.
    cbn [negb]. by repeat case_match. }
  assert (Hq2 : _diagnosticQueue c2 = JSMap.set key p2 (_diagnosticQueue c1)).
  { subst c2. unfold handleDiagnostics, triggerDiagnosticQueue. rewrite Hd1.
    cbn [negb]. by repeat case_match. }
  rewrite Hq2. split; [apply JSMapFacts.get_set_eq|].
  rewrite JSMapFacts.keys_set.
  assert (JSMap.has key (_diagnosticQueue c1) = true) as ->; [|done].
  apply JSMapFacts.has_true. rewrite Hq1, JSMapFacts.get_set_eq. by eexists.
Qed.

Lemma latest_publish_wins_witness :
  JSMap.get "file:///a.ts"
    (_diagnosticQueue
       (handleDiagnostics "file:///a.ts" [mkDiagnostic "new"]
          (handleDiagnostics "file:///a.ts" [mkDiagnostic "old"]
             Sample.converting))) =
  Some [mkDiagnostic "new"].
Proof.
  exact (proj1 (latest_publish_wins Sample.converting "file:///a.ts"
                  [mkDiagnostic "old"] [mkDiagnostic "new"]
                  ltac:(vm_compute; reflexivity))).
Defined.

(** A [stop()] that arrives while another is in flight, between its
    synchronous part and the end of the race, returns the pending promise of
    that stop and changes nothing. *)
Lemma second_stop_joins_first (env : StopEnv) (timeout timeout' : Z)
    (connection : nat) (c : Client) :
  let stopping := stopBegin timeout connection c in
  stop env timeout' stopping = (Suspended, stopping).
Proof.
  intros stopping.
  assert (_state stopping = ClientState.Stopping ∧
          _onStop stopping = Some Suspended) as [Hs Hp].
  { subst stopping. unfold stopBegin. cbv zeta.
    rewrite set_state_eq, cleanUp_eq. by fields. }
  unfold stop. rewrite Hs, Hp. reflexivity.
Qed.

(** X8.  Disposing of a registration twice is the same as disposing of it
    once, when the disposables map is a map. *)
Theorem dispose_request_idempotent (r : HandlerRegistration string)
    (c : Client) :
  NoDup (JSMap.keys (_requestDisposables c)) →
  NoDup (JSMap.keys (_requestHandlers c)) →
  NoDup (JSMap.keys (_pendingRequestHandlers c)) →
  disposeRequest r (disposeRequest r c) = disposeRequest r c.
Proof.
  intros Hd Hr Hp. unfold disposeRequest, disposeRequestBinding.
  destruct r as [method branch]. cbn [reg_key reg_branch].
  pose proof (JSMapFacts.get_delete_eq method _ Hd) as Hgone.
  pose proof (JSMapFacts.get_delete_eq method _ Hr) as Hr'.
  pose proof (JSMapFacts.get_delete_eq method _ Hp) as Hp'.
  destruct branch; fields;
    destruct (JSMap.get method (_requestDisposables c)) as [d|] eqn:Hget;
    fields; rewrite ?Hgone, ?Hget; client_eq;
    rewrite ?(JSMapFacts.delete_absent method (JSMap.delete method _)); done.
Qed.

Lemma dispose_request_idempotent_witness :
  disposeRequest {| reg_key := "a/x"; reg_branch := WasPending |}
    (disposeRequest {| reg_key := "a/x"; reg_branch := WasPending |}
       Sample.registered) =
  disposeRequest {| reg_key := "a/x"; reg_branch := WasPending |}
    Sample.registered.
Proof.
  exact (dispose_request_idempotent
           {| reg_key := "a/x"; reg_branch := WasPending |} Sample.registered
           ltac:(vm_compute; apply NoDup_nil_2)
           ltac:(apply (bool_decide_unpack _); vm_compute; exact I)
           ltac:(apply (bool_decide_unpack _); vm_compute; exact I)).
Defined.

(** ** The close handler *)

Lemma handleConnectionClosed_refused {H} `{ErrorHandler H} env now (h h' : H) c message :
  _state c ≠ ClientState.Stopped →
  (_state c = ClientState.Stopping ∧ h' = h ∧ message = None) ∨
  (_state c ≠ ClientState.Stopping ∧
   (handler_closed now h =
      (Ok {| ch_action := CloseAction.DoNotRestart; ch_message := message |}, h') ∨
    ∃ e, handler_closed now h = (Throw e, h') ∧ message = None)) →
  handleConnectionClosed env now h c =
  (h', emits (closedEffects message c) (closedClient c)).
Proof.
  intros Hns Hcase. unfold handleConnectionClosed.
  rewrite decide_False by done.
  unfold closedEffects, closedClient, disposeConnectionEffects.
  destruct (_connection c) as [connection|] eqn:Hconn; cbv zeta; fields.
  all: destruct Hcase as [(Hs & -> & ->) | (Hs & [Hh | (e & Hh & ->)])].
  all: try rewrite (decide_True _ _ Hs).
  all: try rewrite (decide_False _ _ Hs).
  all: try rewrite Hh.
  all: cbn [ch_action ch_message default].
  all: unfold error; rewrite cleanUp_eq; fields.
  all: destruct (decide (_state c = ClientState.Starting)) as [Hst|Hst];
    rewrite set_state_eq; fields; f_equal; client_eq; flatten_effects; reflexivity.
Qed.

Lemma handleConnectionClosed_restart {H} `{ErrorHandler H} env now (h h' : H) c message :
  _state c ≠ ClientState.Stopped →
  _state c ≠ ClientState.Stopping →
  handler_closed now h =
    (Ok {| ch_action := CloseAction.Restart; ch_message := message |}, h') →
  handleConnectionClosed env now h c =
  match start env (emits (restartingEffects message c) (restartingClient c)) with
  | (Rejected e, c) => (h', error "Restarting server failed" Force c)
  | (_, c) => (h', c)
  end.
Proof.
  intros Hns Hs Hh. unfold handleConnectionClosed.
  rewrite decide_False by done.
  unfold restartingEffects, restartingClient, disposeConnectionEffects.
  destruct (_connection c) as [connection|] eqn:Hconn; cbv zeta; fields.
  all: rewrite (decide_False _ _ Hs), Hh; cbn [ch_action ch_message default].
  all: unfold info; rewrite cleanUp_eq; fields.
  all: rewrite set_state_eq; fields.
  all: match goal with
       | |- match start _ ?a with _ => _ end = match start _ ?b with _ => _ end =>
           replace a with b; [reflexivity|]
       end.
  all: client_eq; flatten_effects; reflexivity.
Qed.

Lemma omap_nil_app {A B} (f : A → option B) (l1 l2 : list A) :
  omap f l1 = [] → omap f l2 = [] → omap f (l1 ++ l2) = [].
Proof. intros H1 H2. by rewrite omap_app, H1, H2. Qed.

Ltac silent :=
  repeat first
    [ reflexivity
    | apply omap_nil_app
    | rewrite omap_map; apply omap_silent; (by intros []) || (by intros ?)
    | progress unfold stateChange, progressEffects, armIdleTimerEffects,
        hookFileEventsEffects, featureEffects, disposeConnectionEffects,
        ensureDiagnosticsEffects, initializeFailedEffects, cleanUpEffects
    | case_match ].

Lemma started_collection env c :
  _diagnostics c = true →
  omap collectionLifetime (startedEffects env c) = [].
Proof.
  intros Hd. unfold startedEffects, connectEffects, handshakeEffects,
    ensureDiagnosticsEffects. rewrite Hd. fields.
  silent.
Qed.

Lemma start_runs env c :
  _onStart c = None →
  start env c =
  match _onStop c with
  | Some (Rejected e) => (Rejected e, c)
  | Some Suspended => (Suspended, c)
  | Some (Resolved _) => startNow env (with_onStop None c)
  | None => startNow env c
  end.
Proof. intros Hstart. unfold start. by rewrite Hstart. Qed.

(** X17.  A connection that closes while the client is stopping, or after
    it stopped, is a normal shutdown: the error handler is not asked (for
    the default handler, the close does not count as a crash), nothing is
    restarted, and a stopping client is left [Stopped] with no connection,
    no start promise and a resolved stop promise. *)
Theorem close_during_shutdown_not_counted {H : Type} `{ErrorHandler H}
    (env : StartEnv) (now : Z) (h : H) (c : Client) :
  (_state c = ClientState.Stopped → handleConnectionClosed env now h c = (h, c)) ∧
  (_state c = ClientState.Stopping →
   let out := handleConnectionClosed env now h c in
   out.1 = h ∧
   _state out.2 = ClientState.Stopped ∧
   _connection out.2 = None ∧
   _onStart out.2 = None ∧
   _onStop out.2 = Some (Resolved tt) ∧
   connections out.2 = connections c ∧
   effects out.2 =
     effects c
     ++ disposeConnectionEffects c
     ++ [LogError "Connection to server got closed. Server will not be restarted." Force]
     ++ cleanUpEffects false true c).
Proof.
  split.
  - intros Hs. unfold handleConnectionClosed. by rewrite decide_True.
  - intros Hs out. subst out.
    rewrite (handleConnectionClosed_refused env now h h c None)
      by (rewrite ?Hs; auto).
    unfold closedClient, closedEffects. fields. rewrite Hs.
    rewrite decide_False by done.
    split_and!; try done. unfold stateChange. rewrite decide_True by done.
    by rewrite !app_nil_r.
Qed.

Lemma close_during_shutdown_not_counted_witness :
  DefaultErrorHandler.restarts
    (handleConnectionClosed (Sample.env (Sample.result None None)) 1000
       (DefaultErrorHandler.create "sample" 4) Sample.stopping).1 = [] ∧
  _state (handleConnectionClosed (Sample.env (Sample.result None None)) 1000
            (DefaultErrorHandler.create "sample" 4) Sample.stopping).2 =
  ClientState.Stopped.
Proof.
  pose proof (proj2 (close_during_shutdown_not_counted
                (Sample.env (Sample.result None None)) 1000
                (DefaultErrorHandler.create "sample" 4) Sample.stopping)
                ltac:(vm_compute; reflexivity)) as (H1 & H2 & _).
  split; [exact (f_equal DefaultErrorHandler.restarts H1) | exact H2].
Defined.

(** X18.  With the default error handler: when a connection closes outside
    a shutdown, more than [maxRestartCount] closes are then on record and
    the oldest is at most three minutes old, the client is not restarted.
    It logs the crash message with a forced notification, disposes of its
    features and its diagnostic collection and is left without connection or
    start promise, [StartFailed] when it was starting and [Stopped]
    otherwise. *)
Theorem crash_loop_ends_client (env : StartEnv) (now : Z)
    (h : DefaultErrorHandler.t) (c : Client) :
  _state c ≠ ClientState.Stopped →
  _state c ≠ ClientState.Stopping →
  DefaultErrorHandler.maxRestartCount h
    < Z.of_nat (length (DefaultErrorHandler.restarts h)) + 1 →
  now - default now (head (DefaultErrorHandler.restarts h)) ≤ 3 * 60 * 1000 →
  let out := handleConnectionClosed env now h c in
  DefaultErrorHandler.restarts out.1 = DefaultErrorHandler.restarts h ++ [now] ∧
  _state out.2 = (if decide (_state c = ClientState.Starting)
                  then ClientState.StartFailed else ClientState.Stopped) ∧
  _connection out.2 = None ∧
  _onStart out.2 = None ∧
  _onStop out.2 = Some (Resolved tt) ∧
  _diagnostics out.2 = false ∧
  connections out.2 = connections c ∧
  effects out.2 =
    effects c
    ++ disposeConnectionEffects c
    ++ [LogError (DefaultErrorHandler.crashMessage h) Force]
    ++ cleanUpEffects false true c
    ++ stateChange (_state c)
         (if decide (_state c = ClientState.Starting)
          then ClientState.StartFailed else ClientState.Stopped).
Proof.
  intros Hns Hs Hcount Hspan out. subst out.
  assert (Hclosed : DefaultErrorHandler.closed now h =
            ({| ch_action := CloseAction.DoNotRestart;
                ch_message := Some (DefaultErrorHandler.crashMessage h) |},
             {| DefaultErrorHandler.clientName := DefaultErrorHandler.clientName h;
                DefaultErrorHandler.maxRestartCount := DefaultErrorHandler.maxRestartCount h;
                DefaultErrorHandler.restarts := DefaultErrorHandler.restarts h ++ [now] |})).
  { unfold DefaultErrorHandler.closed.
    rewrite at_index_last, at_index_first.
    rewrite bool_decide_eq_false_2 by (rewrite length_app; simpl; lia).
    by rewrite bool_decide_eq_true_2 by done. }
  rewrite (handleConnectionClosed_refused env now h
             {| DefaultErrorHandler.clientName := DefaultErrorHandler.clientName h;
                DefaultErrorHandler.maxRestartCount := DefaultErrorHandler.maxRestartCount h;
                DefaultErrorHandler.restarts := DefaultErrorHandler.restarts h ++ [now] |}
             c (Some (DefaultErrorHandler.crashMessage h))).
  - unfold closedClient, closedEffects. by fields.
  - done.
  - right. split; [done|]. left. cbn [handler_closed DefaultErrorHandler_handler].
    by rewrite Hclosed.
Qed.

Lemma crash_loop_ends_client_witness :
  _state
    (handleConnectionClosed (Sample.env (Sample.result None None)) 3000
       {| DefaultErrorHandler.clientName := "sample";
          DefaultErrorHandler.maxRestartCount := 1;
          DefaultErrorHandler.restarts := [1000] |}
       Sample.converting).2 = ClientState.Stopped.
Proof.
  exact (proj1 (proj2 (crash_loop_ends_client
           (Sample.env (Sample.result None None)) 3000
           {| DefaultErrorHandler.clientName := "sample";
              DefaultErrorHandler.maxRestartCount := 1;
              DefaultErrorHandler.restarts := [1000] |}
           Sample.converting
           ltac:(vm_compute; discriminate) ltac:(vm_compute; discriminate)
           ltac:(vm_compute; reflexivity) ltac:(vm_compute; discriminate)))).
Defined.

(** X19.  When a connection closes outside a shutdown and the error handler
    answers [Restart], and the start that follows succeeds, the client is
    [Running] again on a new connection.  Every registered request and
    notification handler is bound to the new connection exactly once, and
    the diagnostic collection is kept: it is neither disposed of nor
    created again. *)
Theorem closed_connection_restarts {H : Type} `{ErrorHandler H}
    (env : StartEnv) (now : Z) (h h' : H) (c : Client)
    (message : option string) (result : InitializeResult) :
  _state c ≠ ClientState.Stopped →
  _state c ≠ ClientState.Stopping →
  handler_closed now h =
    (Ok {| ch_action := CloseAction.Restart; ch_message := message |}, h') →
  registryReady c →
  _diagnostics c = true →
  createMessageTransports env = Ok tt →
  connection_initialize env = Ok result →
  acceptedEncoding result →
  initialized_sent env = Ok tt →
  ∃ new c',
    handleConnectionClosed env now h c = (h', c') ∧
    effects c' = effects c ++ new ∧
    _state c' = ClientState.Running ∧
    _connection c' = Some (connections c) ∧
    (∀ method,
       boundRequestHandlers (connections c) method new =
       option_list (JSMap.get method (_requestHandlers c))) ∧
    (∀ method,
       boundNotificationHandlers (connections c) method new =
       option_list (JSMap.get method (_notificationHandlers c))) ∧
    _diagnostics c' = true ∧
    omap collectionLifetime new = [].
Proof.
  intros Hns Hs Hh (HR & HpR & HN & HpN & HagreeR & HagreeN) Hd Htr Hinit Henc Hsent.
  rewrite (handleConnectionClosed_restart env now h h' c message) by done.
  rewrite start_runs by reflexivity.
  replace (_onStop (emits (restartingEffects message c) (restartingClient c)))
    with (Some (Resolved tt)) by reflexivity.
  remember (with_onStop None (emits (restartingEffects message c) (restartingClient c)))
    as c0 eqn:Hc0.
  assert (Hconn : connections c0 = connections c) by (by subst c0).
  assert (Heff : effects c0 = effects c ++ restartingEffects message c) by (by subst c0).
  assert (Hreq : _requestHandlers c0 = _requestHandlers c) by (by subst c0).
  assert (Hpreq : _pendingRequestHandlers c0 = _pendingRequestHandlers c) by (by subst c0).
  assert (Hnot : _notificationHandlers c0 = _notificationHandlers c) by (by subst c0).
  assert (Hpnot : _pendingNotificationHandlers c0 = _pendingNotificationHandlers c)
    by (by subst c0).
  assert (Hd0 : _diagnostics c0 = true) by (by subst c0).
  clear Hc0.
  rewrite (startNow_started env c0 result) by done.
  exists (restartingEffects message c ++ startedEffects env c0),
    (emits (startedEffects env c0) (startedClient result c0)).
  split; [reflexivity|].
  split_and!.
  - unfold startedClient, handshakeClient, connectedClient. fields.
    by rewrite Heff, app_assoc.
  - unfold startedClient, handshakeClient, connectedClient. by fields.
  - unfold startedClient, handshakeClient, connectedClient. fields. by rewrite Hconn.
  - intros method. unfold boundRequestHandlers. rewrite omap_app.
    replace (omap (requestBound (connections c) method) (restartingEffects message c))
      with (@nil AppHandler).
    2:{ symmetry. unfold restartingEffects, cleanUpEffects. silent. }
    rewrite <- Hconn. fold (boundRequestHandlers (connections c0) method (startedEffects env c0)).
    rewrite started_requests, Hreq, Hpreq.
    rewrite omap_key by by apply makePending_NoDup.
    cbn [app]. f_equal. apply makePending_agree, HagreeR.
  - intros method. unfold boundNotificationHandlers. rewrite omap_app.
    replace (omap (notificationBound (connections c) method) (restartingEffects message c))
      with (@nil AppHandler).
    2:{ symmetry. unfold restartingEffects, cleanUpEffects. silent. }
    rewrite <- Hconn.
    fold (boundNotificationHandlers (connections c0) method (startedEffects env c0)).
    rewrite started_notifications, Hnot, Hpnot.
    rewrite omap_key by by apply makePending_NoDup.
    cbn [app]. f_equal. apply makePending_agree, HagreeN.
  - unfold startedClient, handshakeClient, connectedClient. by fields.
  - apply omap_nil_app.
    + unfold restartingEffects, cleanUpEffects. cbn [andb]. silent.
    + by apply started_collection.
Qed.

Lemma closed_connection_restarts_witness :
  ∃ new c',
    handleConnectionClosed (Sample.env (Sample.result None None)) 1000
      (DefaultErrorHandler.create "sample" 4) Sample.running =
      ({| DefaultErrorHandler.clientName := "sample";
          DefaultErrorHandler.maxRestartCount := 4;
          DefaultErrorHandler.restarts := [1000] |}, c') ∧
    effects c' = effects Sample.running ++ new ∧
    _state c' = ClientState.Running ∧
    _connection c' = Some (connections Sample.running) ∧
    (∀ method,
       boundRequestHandlers (connections Sample.running) method new =
       option_list (JSMap.get method (_requestHandlers Sample.running))) ∧
    (∀ method,
       boundNotificationHandlers (connections Sample.running) method new =
       option_list (JSMap.get method (_notificationHandlers Sample.running))) ∧
    _diagnostics c' = true ∧
    omap collectionLifetime new = [].
Proof.
  apply (closed_connection_restarts
           (Sample.env (Sample.result None None)) 1000
           (DefaultErrorHandler.create "sample" 4)
           {| DefaultErrorHandler.clientName := "sample";
              DefaultErrorHandler.maxRestartCount := 4;
              DefaultErrorHandler.restarts := [1000] |}
           Sample.running None (Sample.result None None)).
  - by vm_compute.
  - by vm_compute.
  - reflexivity.
  - unfold registryReady. split_and!;
      try (apply (bool_decide_unpack _); by vm_compute);
      by vm_compute.
  - by vm_compute.
  - reflexivity.
  - reflexivity.
  - left. reflexivity.
  - reflexivity.
Defined.

(** ** Errors of the connection *)

Lemma stop_running env timeout connection c :
  runningOn connection c →
  stop env timeout c =
  stopSettle (stop_race env) connection (stopBegin timeout connection c).
Proof.
  intros (Hs & Hstart & Hconn). unfold stop, start', start.
  rewrite Hs, Hstart, Hconn.
  rewrite !decide_False by done. reflexivity.
Qed.

Lemma stopSettle_reset race connection c :
  stoppedAndReset (stopSettle race connection c).2.
Proof.
  unfold stopSettle, stoppedAndReset.
  destruct race as [|exitSent|e|e]; cbv zeta beta iota;
    rewrite set_state_eq; unfold cleanUpChannel, error; by fields.
Qed.

Lemma stopSettle_rejected race connection c e :
  (stopSettle race connection c).1 = Rejected e →
  race ≠ ConnectionWon.
Proof. by destruct race. Qed.

Lemma stopSettle_settled race connection c :
  (stopSettle race connection c).1 =
  match race with
  | ConnectionWon => Resolved tt
  | TimeoutWon _ => Rejected (JSError "Stopping the server timed out")
  | ShutdownRejected e | ExitRejected e => Rejected e
  end.
Proof. by destruct race. Qed.

Lemma stopBegin_eq timeout connection c :
  stopBegin timeout connection c =
  emits (stopBeginEffects timeout connection c) (stoppingClient c).
Proof.
  unfold stopBegin, stopBeginEffects, stoppingClient. cbv zeta.
  rewrite set_state_eq, cleanUp_eq. fields.
  client_eq. unfold cleanUpEffects. fields. flatten_effects. reflexivity.
Qed.

Lemma stopSettle_eq race connection c :
  stopSettle race connection c =
  (raceSettled race,
   emits (raceEffects race connection
          ++ stateChange (_state c) ClientState.Stopped
          ++ [Host CleanUpChannel])
     (stoppedClient c)).
Proof.
  unfold stopSettle, raceEffects, raceSettled, stoppedClient.
  destruct race as [|[]|e|e]; cbv zeta beta iota;
    rewrite set_state_eq; unfold cleanUpChannel, error; fields;
    f_equal; client_eq; flatten_effects; reflexivity.
Qed.

(** X20.  With the default error handler a connection error is ignored
    while its count is a number other than 0 and at most 3.  Any other
    count, on a running client, logs that the connection is erroring with a
    forced notification and stops the client: the shutdown request is sent
    and the client ends [Stopped] and reset; a stop that fails is logged
    once more, as the last thing done, and the failure goes no further. *)
Theorem connection_error_shuts_down (env : StopEnv) (err : Error)
    (count : option Z) (h : DefaultErrorHandler.t) (c : Client) :
  let out := handleConnectionError env err count h c in
  let erroring :=
    LogError ("Client " +:+ _name c
              +:+ ": connection to server is erroring. Shutting down server.") Force in
  out.1 = Ok tt ∧ out.2.1 = h ∧
  (∀ n, count = Some n → n ≠ 0 → n ≤ 3 → out.2.2 = c) ∧
  (count = None ∨ count = Some 0 ∨ (∃ n, count = Some n ∧ 3 < n) →
   ∀ connection, runningOn connection c →
     stoppedAndReset out.2.2 ∧
     ∃ rest,
       effects out.2.2 = effects c ++ [erroring] ++ rest ∧
       Conn connection C_shutdown ∈ rest ∧
       (stop_race env ≠ ConnectionWon →
        last rest = Some (LogError "Stopping server failed" (Show false)))).
Proof.
  cbv zeta. unfold handleConnectionError.
  cbn [handler_error DefaultErrorHandler_handler].
  destruct (eh_action (DefaultErrorHandler.error count)) eqn:Haction.
  - split_and!; try done.
    intros Hcount. exfalso. revert Haction. unfold DefaultErrorHandler.error.
    destruct Hcount as [-> | [-> | (n & -> & Hn)]]; try done.
    rewrite (bool_decide_eq_false_2 (n ≤ 3)) by lia.
    by rewrite andb_false_r.
  - assert (Hmsg : eh_message (DefaultErrorHandler.error count) = None).
    { unfold DefaultErrorHandler.error. by repeat case_match. }
    rewrite Hmsg. cbn [default].
    set (logged := error _ Force c).
    destruct (stop env 2000 logged) as [settled c'] eqn:Hstop.
    split_and!.
    + by destruct settled.
    + by destruct settled.
    + intros n -> Hn0 Hn3. exfalso. revert Haction.
      unfold DefaultErrorHandler.error.
      by rewrite !bool_decide_eq_true_2 by done.
    + intros _ connection (Hs & Hstart & Hconn).
      rewrite (stop_running env 2000 connection logged) in Hstop by done.
      rewrite stopSettle_eq, stopBegin_eq in Hstop.
      injection Hstop as <- <-.
      split.
      { destruct (stop_race env); unfold stoppedAndReset, stoppedClient, error;
          by fields. }
      subst logged.
      destruct (stop_race env) as [|exitSent|e|e] eqn:Hrace;
        cbn [raceSettled];
        unfold stoppedClient, stoppingClient, stopBeginEffects, error; fields;
        eexists; (split; [rewrite <- !app_assoc; reflexivity|]);
        (split; [repeat (rewrite elem_of_app || rewrite elem_of_cons); tauto|]);
        intros Hne; try done;
        rewrite !app_assoc; by rewrite last_snoc.
Qed.

Lemma connection_error_shuts_down_witness :
  stoppedAndReset
    (handleConnectionError (Sample.stopEnv ConnectionWon) (JSError "write EPIPE")
       (Some 4) (DefaultErrorHandler.create "sample" 4) Sample.running).2.2.
Proof.
  refine (proj1
            (proj2 (proj2 (proj2
               (connection_error_shuts_down
                  (Sample.stopEnv ConnectionWon) (JSError "write EPIPE") (Some 4)
                  (DefaultErrorHandler.create "sample" 4) Sample.running)))
               _ 0%nat _)).
  - right. right. exists 4. split; [reflexivity|lia].
  - split_and!; vm_compute; reflexivity.
Defined.

(** ** The outcomes of a start *)

(** [start()] around its [try] block. *)
Lemma startNow_eq env c :
  startNow env c =
  match startConnection env
          (emits (ensureDiagnosticsEffects c
                  ++ stateChange (_state c) ClientState.Starting)
             (startingClient c)) with
  | (Ok _, c1) => (Resolved tt, with_onStart (Some (Resolved tt)) c1)
  | (Throw e, c1) =>
      (Rejected e,
       emits (stateChange (_state c1) ClientState.StartFailed
              ++ [LogError (_name c1 +:+ " client: couldn't create connection to server.")
                    Force])
         (with_onStart (Some (Rejected e))
            (with_state ClientState.StartFailed c1)))
  end.
Proof.
  unfold startNow. cbv zeta.
  rewrite ensureDiagnostics_eq; fields.
  rewrite set_state_eq; fields.
  match goal with
  | |- match startConnection _ ?a with _ => _ end = _ =>
      replace a with
        (emits (ensureDiagnosticsEffects c
                ++ stateChange (_state c) ClientState.Starting)
           (startingClient c))
        by (unfold startingClient; client_eq; flatten_effects; reflexivity)
  end.
  destruct (startConnection env _) as [[u|e] c1]; [reflexivity|].
  rewrite set_state_eq. unfold error. fields.
  f_equal. client_eq. flatten_effects. reflexivity.
Qed.

Lemma startConnection_eq env c :
  startConnection env c =
  match createMessageTransports env with
  | Throw e => (Throw e, c)
  | Ok _ =>
      match initialize env (connections c)
              (emits (map (Conn (connections c)) startBindings)
                 (with_connection (Some (connections c))
                    (with_connections (S (connections c)) c))) with
      | (Ok _, c) => (Ok tt, c)
      | (Throw e, c) => (Throw e, c)
      end
  end.
Proof.
  unfold startConnection. destruct (createMessageTransports env); [|done].
  cbv zeta. fields. reflexivity.
Qed.

Lemma startNow_unreached env c e :
  createMessageTransports env = Throw e →
  startNow env c =
  (Rejected e,
   emits (unreachedEffects c)
     (with_onStart (Some (Rejected e))
        (with_state ClientState.StartFailed (startingClient c)))).
Proof.
  intros Htr. rewrite startNow_eq. unfold startConnection. rewrite Htr.
  unfold unreachedEffects, startingClient. fields.
  f_equal. client_eq. flatten_effects. reflexivity.
Qed.

Lemma initialize_rejected env connection c e :
  connection_initialize env = Throw e →
  initialize env connection c =
  (Throw e,
   emits ([Conn connection C_trace]
          ++ featureEffects F_fillClientCapabilities (_features c)
          ++ featureEffects F_fillInitializeParams
               (filter (λ f, hasFillInitializeParams f = true) (_features c))
          ++ progressEffects env c PP_new
          ++ [Conn connection (C_initialize (workDoneToken env c))]
          ++ initializeFailedEffects connection e (_clientOptions c)
          ++ progressEffects env c PP_cancel) c).
Proof.
  intros Hinit. unfold initialize, workDoneToken, progressEffects, doInitialize.
  rewrite Hinit. cbv zeta. fields.
  destruct (progressOnInitialization (_clientOptions c));
    rewrite initializeFailed_eq; fields;
    f_equal; client_eq; unfold featureEffects; fields;
    flatten_effects; reflexivity.
Qed.

Lemma startNow_rejected env c e :
  createMessageTransports env = Ok tt →
  connection_initialize env = Throw e →
  startNow env c =
  (Rejected e, emits (refusedEffects env e c) (refusedClient e c)).
Proof.
  intros Htr Hinit. rewrite startNow_eq, startConnection_eq, Htr.
  rewrite (initialize_rejected _ _ _ e) by done.
  unfold refusedEffects, refusedClient, connectEffects, connectedClient,
    startingClient, workDoneToken, progressEffects.
  fields. f_equal. client_eq. flatten_effects. reflexivity.
Qed.

Lemma initialize_unsent env connection c result e :
  connection_initialize env = Ok result →
  acceptedEncoding result →
  initialized_sent env = Throw e →
  initialize env connection c =
  (Throw e,
   emits ([Conn connection C_trace]
          ++ featureEffects F_fillClientCapabilities (_features c)
          ++ featureEffects F_fillInitializeParams
               (filter (λ f, hasFillInitializeParams f = true) (_features c))
          ++ progressEffects env c PP_new
          ++ handshakeEffects connection (workDoneToken env c) c
          ++ initializeFailedEffects connection e (_clientOptions c)
          ++ progressEffects env c PP_cancel)
     (handshakeClient connection result c)).
Proof.
  intros Hinit Henc Hsent. unfold initialize, workDoneToken, progressEffects.
  cbv zeta. fields.
  destruct (progressOnInitialization (_clientOptions c));
    rewrite (doInitialize_accepted _ _ _ _ result) by done;
    rewrite Hsent; f_equal;
    unfold handshakeClient, handshakeEffects, featureEffects; client_eq;
    flatten_effects; reflexivity.
Qed.

Lemma startNow_unsent env c result e :
  createMessageTransports env = Ok tt →
  connection_initialize env = Ok result →
  acceptedEncoding result →
  initialized_sent env = Throw e →
  startNow env c =
  (Rejected e,
   emits (unsentEffects env e c)
     (with_onStart (Some (Rejected e))
        (with_state ClientState.StartFailed
           (handshakeClient (connections c) result (connectedClient c))))).
Proof.
  intros Htr Hinit Henc Hsent. rewrite startNow_eq, startConnection_eq, Htr.
  rewrite (initialize_unsent _ _ _ result e) by done.
  unfold unsentEffects, connectEffects, connectedClient, startingClient,
    handshakeClient, handshakeEffects, workDoneToken, progressEffects.
  fields. f_equal. client_eq. flatten_effects. reflexivity.
Qed.

Lemma start_startable env c :
  startable c → start env c = startNow env (with_onStop None c).
Proof.
  intros (Hstart & Hstop). rewrite start_runs by done.
  destruct Hstop as [Hs | Hs]; rewrite Hs; [|done].
  f_equal. client_eq. by rewrite Hs.
Qed.

Lemma start_in_flight env c promise :
  _onStart c = Some promise → start env c = (promise, c).
Proof. intros Hstart. unfold start. by rewrite Hstart. Qed.

Lemma handshake_cases env : Handshake env.
Proof.
  destruct (createMessageTransports env) as [[]|e] eqn:Htr;
    [|by eapply Unreached].
  destruct (connection_initialize env) as [result|e] eqn:Hinit;
    [|by eapply InitializeRejected].
  destruct (positionEncoding (capabilities result)) as [encoding|] eqn:Henc.
  - destruct (decide (encoding = "utf-16")) as [->|Hne].
    + destruct (initialized_sent env) as [[]|e] eqn:Hsent.
      * eapply Accepted; eauto. by right.
      * eapply Unsent; eauto. by right.
    + by eapply EncodingRefused.
  - destruct (initialized_sent env) as [[]|e] eqn:Hsent.
    + eapply Accepted; eauto. by left.
    + eapply Unsent; eauto. by left.
Qed.

(** X6.  A [start()] on a client with no start in flight and no stop
    pending, once the handshake is over, is resolved exactly when the
    handshake succeeded, with the client [Running] on a new connection.
    Otherwise it is rejected and the client is
    [StartFailed], which neither [needsStart()] nor [needsStop()] reports,
    and the last thing done is to log the failure with a forced
    notification.  Either way a second [start()] returns the promise of the
    first and does nothing. *)
Theorem start_settles_once (env env' : StartEnv) (c : Client) :
  startable c →
  let out := start env c in
  (handshakeSucceeds env →
   out.1 = Resolved tt ∧ _state out.2 = ClientState.Running ∧
   _connection out.2 = Some (connections c)) ∧
  (¬ handshakeSucceeds env →
   (∃ e, out.1 = Rejected e) ∧ _state out.2 = ClientState.StartFailed ∧
   needsStart out.2 = false ∧ needsStop out.2 = false ∧
   last (effects out.2) =
     Some (LogError (_name c +:+ " client: couldn't create connection to server.")
             Force)) ∧
  start env' out.2 = out.
Proof.
  intros Hc out. subst out. unfold handshakeSucceeds.
  rewrite (start_startable env c Hc).
  set (c0 := with_onStop None c).
  assert (Hname : _name c0 = _name c) by done.
  assert (Hconns : connections c0 = connections c) by done.
  clearbody c0.
  destruct (handshake_cases env) as
    [e Htr|e Htr Hinit|result encoding Htr Hinit Henc Hne
    |result e Htr Hinit Henc Hsent|result Htr Hinit Henc Hsent].
  - rewrite (startNow_unreached env c0 e) by done.
    split_and!.
    + intros [Htr' _]. rewrite Htr in Htr'. discriminate.
    + intros _. unfold unreachedEffects, startingClient. fields.
      split_and!; eauto. rewrite !app_assoc, last_snoc. by rewrite Hname.
    + by erewrite start_in_flight.
  - rewrite (startNow_rejected env c0 e) by done.
    split_and!.
    + intros (_ & r & Hinit' & _). rewrite Hinit in Hinit'. discriminate.
    + intros _. unfold refusedEffects, refusedClient, connectedClient. fields.
      split_and!; eauto. rewrite !app_assoc, last_snoc. by rewrite Hname.
    + by erewrite start_in_flight.
  - rewrite (startNow_refused env c0 result encoding) by done.
    split_and!.
    + intros (_ & r & Hinit' & [Hacc|Hacc] & _); rewrite Hinit in Hinit';
        injection Hinit' as <-; rewrite Henc in Hacc; [discriminate|by injection Hacc].
    + intros _. unfold refusedEffects, refusedClient, connectedClient. fields.
      split_and!; eauto. rewrite !app_assoc, last_snoc. by rewrite Hname.
    + by erewrite start_in_flight.
  - rewrite (startNow_unsent env c0 result e) by done.
    split_and!.
    + intros (_ & r & _ & _ & Hsent'). rewrite Hsent in Hsent'. discriminate.
    + intros _. unfold unsentEffects, handshakeClient, connectedClient. fields.
      split_and!; eauto. rewrite !app_assoc, last_snoc. by rewrite Hname.
    + by erewrite start_in_flight.
  - rewrite (startNow_started env c0 result) by done.
    split_and!.
    + intros _. unfold startedClient, handshakeClient, connectedClient. fields.
      by rewrite Hconns.
    + intros Hno. destruct Hno. split; [done|]. by exists result.
    + by erewrite start_in_flight.
Qed.

Lemma start_settles_once_witness :
  start (Sample.env (Sample.result (Some "utf-8") None))
    (start (Sample.env (Sample.result None None)) Sample.client).2 =
  start (Sample.env (Sample.result None None)) Sample.client.
Proof.
  exact (proj2 (proj2 (start_settles_once
           (Sample.env (Sample.result None None))
           (Sample.env (Sample.result (Some "utf-8") None))
           Sample.client (conj eq_refl (or_introl eq_refl))))).
Defined.

Ltac quiet :=
  repeat first
    [ reflexivity
    | apply omap_nil_app
    | rewrite omap_map; apply omap_silent; (by intros []) || (by intros ?)
    | progress unfold progressEffects, armIdleTimerEffects,
        hookFileEventsEffects, featureEffects, disposeConnectionEffects,
        ensureDiagnosticsEffects, initializeFailedEffects, cleanUpEffects
    | case_match ].

Lemma stateEvents_app es1 es2 :
  stateEvents (es1 ++ es2) = stateEvents es1 ++ stateEvents es2.
Proof. apply omap_app. Qed.

Lemma stateEvents_stateChange old new :
  stateEvents (stateChange old new) =
  if decide (getPublicState new = getPublicState old) then []
  else [(getPublicState old, getPublicState new)].
Proof. unfold stateChange. by case_decide. Qed.

Lemma stateEvents_connect env c :
  stateEvents (connectEffects env c) =
  stateEvents (stateChange (_state c) ClientState.Starting).
Proof.
  unfold connectEffects. rewrite !stateEvents_app.
  replace (stateEvents (ensureDiagnosticsEffects c)) with (@nil (State.t * State.t))
    by (symmetry; unfold stateEvents; quiet).
  cbn [app]. rewrite <- (app_nil_r (stateEvents (stateChange _ _))) at 2.
  f_equal. rewrite <- !stateEvents_app. unfold stateEvents. quiet.
Qed.

Lemma stateEvents_handshake connection token c :
  stateEvents (handshakeEffects connection token c) =
  stateEvents (stateChange (_state c) ClientState.Running).
Proof.
  unfold handshakeEffects.
  change (stateEvents ([Conn connection (C_initialize token)] ++ ?l))
    with (stateEvents l).
  rewrite stateEvents_app.
  rewrite <- (app_nil_r (stateEvents (stateChange _ _))) at 2.
  f_equal. unfold stateEvents. quiet.
Qed.

Lemma stateEvents_initializeFailed connection e options :
  stateEvents (initializeFailedEffects connection e options) = [].
Proof. unfold stateEvents. quiet. Qed.

Lemma stateEvents_progress env c call :
  stateEvents (progressEffects env c call) = [].
Proof. unfold stateEvents. quiet. Qed.

Lemma stateEvents_cleanUp channel diagnostics c :
  stateEvents (cleanUpEffects channel diagnostics c) = [].
Proof. unfold stateEvents. quiet. Qed.

(** X2.  What the listeners of [onDidChangeState] see of a [start()] on a
    client whose public state is [Stopped]: first Stopped to Starting.
    When the server's response is accepted, Starting to Running follows;
    if sending the [initialized] notification then fails, Running to
    Stopped follows.  When the server is not reached, the
    request fails or the encoding is refused, Starting to Stopped follows
    and [Running] is never announced. *)
Theorem start_announces_states (env : StartEnv) (c : Client) :
  startable c →
  getPublicState (_state c) = State.Stopped →
  ∃ new,
    effects (start env c).2 = effects c ++ new ∧
    (handshakeSucceeds env →
     stateEvents new =
       [(State.Stopped, State.Starting); (State.Starting, State.Running)]) ∧
    (responseAccepted env → (∃ e, initialized_sent env = Throw e) →
     stateEvents new =
       [(State.Stopped, State.Starting); (State.Starting, State.Running);
        (State.Running, State.Stopped)]) ∧
    (¬ responseAccepted env →
     stateEvents new =
       [(State.Stopped, State.Starting); (State.Starting, State.Stopped)]).
Proof.
  intros Hc Hpublic. unfold handshakeSucceeds, responseAccepted.
  rewrite (start_startable env c Hc).
  set (c0 := with_onStop None c).
  assert (Heff : effects c0 = effects c) by done.
  assert (Hstate : getPublicState (_state c0) = State.Stopped) by done.
  clearbody c0.
  assert (Hstarting : stateEvents (stateChange (_state c0) ClientState.Starting) =
                      [(State.Stopped, State.Starting)]).
  { rewrite stateEvents_stateChange, Hstate. done. }
  destruct (handshake_cases env) as
    [e Htr|e Htr Hinit|result encoding Htr Hinit Henc Hne
    |result e Htr Hinit Henc Hsent|result Htr Hinit Henc Hsent].
  - rewrite (startNow_unreached env c0 e) by done.
    exists (unreachedEffects c0). split.
    { unfold startingClient. fields. by rewrite Heff. }
    assert (stateEvents (unreachedEffects c0) =
            [(State.Stopped, State.Starting); (State.Starting, State.Stopped)])
      as ->.
    { unfold unreachedEffects. rewrite !stateEvents_app, Hstarting.
      replace (stateEvents (ensureDiagnosticsEffects c0))
        with (@nil (State.t * State.t)) by (symmetry; unfold stateEvents; quiet).
      done. }
    split_and!; try done.
    + intros [Htr' _]. rewrite Htr in Htr'. discriminate.
    + intros [Htr' _]. rewrite Htr in Htr'. discriminate.
  - rewrite (startNow_rejected env c0 e) by done.
    exists (refusedEffects env e c0). split.
    { unfold refusedClient, connectedClient. fields. by rewrite Heff. }
    assert (stateEvents (refusedEffects env e c0) =
            [(State.Stopped, State.Starting); (State.Starting, State.Stopped)])
      as ->.
    { unfold refusedEffects.
      rewrite !stateEvents_app, stateEvents_connect, Hstarting,
        stateEvents_initializeFailed, stateEvents_progress.
      done. }
    split_and!; try done.
    + intros (_ & r & Hinit' & _). rewrite Hinit in Hinit'. discriminate.
    + intros (_ & r & Hinit' & _). rewrite Hinit in Hinit'. discriminate.
  - rewrite (startNow_refused env c0 result encoding) by done.
    exists (refusedEffects env (unsupportedEncoding encoding c0) c0). split.
    { unfold refusedClient, connectedClient. fields. by rewrite Heff. }
    assert (stateEvents (refusedEffects env (unsupportedEncoding encoding c0) c0) =
            [(State.Stopped, State.Starting); (State.Starting, State.Stopped)])
      as ->.
    { unfold refusedEffects.
      rewrite !stateEvents_app, stateEvents_connect, Hstarting,
        stateEvents_initializeFailed, stateEvents_progress.
      done. }
    split_and!; try done.
    + intros (_ & r & Hinit' & [Hacc|Hacc] & _); rewrite Hinit in Hinit';
        injection Hinit' as <-; rewrite Henc in Hacc;
        [discriminate|by injection Hacc].
    + intros (_ & r & Hinit' & [Hacc|Hacc]); rewrite Hinit in Hinit';
        injection Hinit' as <-; rewrite Henc in Hacc;
        [discriminate|by injection Hacc].
  - rewrite (startNow_unsent env c0 result e) by done.
    exists (unsentEffects env e c0). split.
    { unfold handshakeClient, connectedClient. fields. by rewrite Heff. }
    assert (stateEvents (unsentEffects env e c0) =
            [(State.Stopped, State.Starting); (State.Starting, State.Running);
             (State.Running, State.Stopped)]) as ->.
    { unfold unsentEffects.
      rewrite !stateEvents_app, stateEvents_connect, Hstarting,
        stateEvents_handshake, stateEvents_initializeFailed,
        stateEvents_progress.
      done. }
    split_and!; try done.
    + intros (_ & r & _ & _ & Hsent'). rewrite Hsent in Hsent'. discriminate.
    + intros Hno. destruct Hno. split; [done|]. by exists result.
  - rewrite (startNow_started env c0 result) by done.
    exists (startedEffects env c0). split.
    { unfold startedClient, handshakeClient, connectedClient. fields.
      by rewrite Heff. }
    assert (stateEvents (startedEffects env c0) =
            [(State.Stopped, State.Starting); (State.Starting, State.Running)])
      as ->.
    { unfold startedEffects.
      rewrite !stateEvents_app, stateEvents_connect, Hstarting,
        stateEvents_handshake, stateEvents_progress.
      replace (stateEvents (hookFileEventsEffects (_clientOptions c0)))
        with (@nil (State.t * State.t)) by (symmetry; unfold stateEvents; quiet).
      replace (stateEvents (featureEffects F_initialize (_features c0)))
        with (@nil (State.t * State.t)) by (symmetry; unfold stateEvents; quiet).
      done. }
    split_and!; try done.
    + intros _ (e & Hsent'). rewrite Hsent in Hsent'. discriminate.
    + intros Hno. destruct Hno. split; [done|]. by exists result.
Qed.

Lemma start_announces_states_witness :
  ∃ new,
    effects (start (Sample.env (Sample.result (Some "utf-8") None))
               Sample.client).2 = effects Sample.client ++ new ∧
    stateEvents new =
      [(State.Stopped, State.Starting); (State.Starting, State.Stopped)].
Proof.
  destruct (start_announces_states
              (Sample.env (Sample.result (Some "utf-8") None)) Sample.client
              (conj eq_refl (or_introl eq_refl)) eq_refl)
    as (new & Heff & _ & _ & Hrefused).
  exists new. split; [exact Heff|].
  apply Hrefused. intros (_ & result & [= <-] & [Henc|Henc]); discriminate.
Defined.

(** ** A start after a stop *)

Lemma started_collection_created env c :
  _diagnostics c = false →
  omap collectionLifetime (startedEffects env c) =
  [DiagnosticCollection_create (diagnosticCollectionName (_clientOptions c))].
Proof.
  intros Hd. unfold startedEffects. rewrite omap_app.
  match goal with
  | |- _ ++ omap collectionLifetime ?rest = _ =>
      replace (omap collectionLifetime rest) with (@nil HostCall)
        by (symmetry; unfold handshakeEffects; silent)
  end.
  unfold connectEffects, ensureDiagnosticsEffects. rewrite Hd, omap_app.
  match goal with
  | |- (_ ++ omap collectionLifetime ?rest) ++ _ = _ =>
      replace (omap collectionLifetime rest) with (@nil HostCall)
        by (symmetry; silent)
  end.
  reflexivity.
Qed.

(** A successful start binds the registered handlers once. *)
Lemma started_bound_once env c0 c :
  registryReady c →
  _requestHandlers c0 = _requestHandlers c →
  _pendingRequestHandlers c0 = _pendingRequestHandlers c →
  _notificationHandlers c0 = _notificationHandlers c →
  _pendingNotificationHandlers c0 = _pendingNotificationHandlers c →
  (∀ method,
     boundRequestHandlers (connections c0) method (startedEffects env c0) =
     option_list (JSMap.get method (_requestHandlers c))) ∧
  (∀ method,
     boundNotificationHandlers (connections c0) method (startedEffects env c0) =
     option_list (JSMap.get method (_notificationHandlers c))).
Proof.
  intros (HR & HpR & HN & HpN & HagreeR & HagreeN) Hreq Hpreq Hnot Hpnot.
  split; intros method.
  - rewrite started_requests, Hreq, Hpreq.
    rewrite omap_key by by apply makePending_NoDup.
    f_equal. apply makePending_agree, HagreeR.
  - rewrite started_notifications, Hnot, Hpnot.
    rewrite omap_key by by apply makePending_NoDup.
    f_equal. apply makePending_agree, HagreeN.
Qed.

(** What a [stop()] of a running client leaves of it. *)
Lemma stop_running_fields senv timeout connection c :
  runningOn connection c →
  let stopped := (stop senv timeout c).2 in
  _onStart stopped = None ∧ _onStop stopped = None ∧
  connections stopped = connections c ∧
  _requestHandlers stopped = _requestHandlers c ∧
  _pendingRequestHandlers stopped = _pendingRequestHandlers c ∧
  _notificationHandlers stopped = _notificationHandlers c ∧
  _pendingNotificationHandlers stopped = _pendingNotificationHandlers c ∧
  _diagnostics stopped = false ∧
  _clientOptions stopped = _clientOptions c.
Proof.
  intros Hrun. cbv zeta. rewrite (stop_running senv timeout connection c Hrun).
  rewrite stopSettle_eq, stopBegin_eq.
  split_and!; reflexivity.
Qed.

(** X14.  Whatever the outcome of the race, a [stop()] of a running client
    leaves it such that a later successful [start()] runs the whole start
    again: the client is [Running] on a new connection, every registered
    request and notification handler is bound to it exactly once, and a
    new diagnostic collection is created in place of the one that [stop()]
    disposed of. *)
Theorem stopped_client_restarts (senv : StopEnv) (timeout : Z)
    (env : StartEnv) (connection : nat) (c : Client)
    (result : InitializeResult) :
  runningOn connection c →
  registryReady c →
  createMessageTransports env = Ok tt →
  connection_initialize env = Ok result →
  acceptedEncoding result →
  initialized_sent env = Ok tt →
  let stopped := (stop senv timeout c).2 in
  ∃ new c',
    start env stopped = (Resolved tt, c') ∧
    effects c' = effects stopped ++ new ∧
    _state c' = ClientState.Running ∧
    _connection c' = Some (connections c) ∧
    (∀ method,
       boundRequestHandlers (connections c) method new =
       option_list (JSMap.get method (_requestHandlers c))) ∧
    (∀ method,
       boundNotificationHandlers (connections c) method new =
       option_list (JSMap.get method (_notificationHandlers c))) ∧
    omap collectionLifetime new =
      [DiagnosticCollection_create (diagnosticCollectionName (_clientOptions c))].
Proof.
  intros Hrun Hready Htr Hinit Henc Hsent stopped.
  destruct (stop_running_fields senv timeout connection c Hrun)
    as (HonStart & HonStop & Hconn & Hreq & Hpreq & Hnot & Hpnot & Hd0 & Hopt).
  fold stopped in HonStart, HonStop, Hconn, Hreq, Hpreq, Hnot, Hpnot, Hd0, Hopt.
  clearbody stopped.
  rewrite (start_startable env stopped) by (split; [done|by left]).
  set (c0 := with_onStop None stopped).
  rewrite (startNow_started env c0 result) by done.
  exists (startedEffects env c0),
    (emits (startedEffects env c0) (startedClient result c0)).
  destruct (started_bound_once env c0 c Hready Hreq Hpreq Hnot Hpnot)
    as (HboundR & HboundN).
  change (connections c0) with (connections stopped) in HboundR, HboundN.
  rewrite Hconn in HboundR, HboundN.
  split_and!; try done.
  - subst c0. unfold startedClient, handshakeClient, connectedClient. fields.
    by rewrite Hconn.
  - rewrite started_collection_created by done. subst c0. fields.
    by rewrite Hopt.
Qed.

Lemma stopped_client_restarts_witness :
  ∃ new c',
    start (Sample.env (Sample.result None None))
      (stop (Sample.stopEnv (TimeoutWon false)) 2000 Sample.running).2 =
      (Resolved tt, c') ∧
    effects c' =
      effects (stop (Sample.stopEnv (TimeoutWon false)) 2000 Sample.running).2
      ++ new ∧
    _state c' = ClientState.Running ∧
    _connection c' = Some (connections Sample.running) ∧
    (∀ method,
       boundRequestHandlers (connections Sample.running) method new =
       option_list (JSMap.get method (_requestHandlers Sample.running))) ∧
    (∀ method,
       boundNotificationHandlers (connections Sample.running) method new =
       option_list (JSMap.get method (_notificationHandlers Sample.running))) ∧
    omap collectionLifetime new =
      [DiagnosticCollection_create
         (diagnosticCollectionName (_clientOptions Sample.running))].
Proof.
  apply (stopped_client_restarts (Sample.stopEnv (TimeoutWon false)) 2000
           (Sample.env (Sample.result None None)) 0%nat Sample.running
           (Sample.result None None)).
  - split_and!; by vm_compute.
  - unfold registryReady. split_and!;
      try (apply (bool_decide_unpack _); by vm_compute);
      by vm_compute.
  - reflexivity.
  - reflexivity.
  - left. reflexivity.
  - reflexivity.
Defined.

(** ** Progress handlers *)

Ltac drop_quiet f :=
  repeat match goal with
  | |- context [omap f ?piece] =>
      replace (omap f piece) with (@nil (ProgressType * Handler))
        by (symmetry; silent)
  end.

Lemma started_progress env c token :
  boundProgressHandlers (connections c) token (startedEffects env c) =
  omap (λ entry : ProgressToken * (ProgressType * AppHandler),
          if decide (entry.1 = token)
          then Some (entry.2.1, UserHandler entry.2.2) else None)
    (makePending (_progressHandlers c) (_pendingProgressHandlers c)).
Proof.
  unfold boundProgressHandlers, startedEffects, connectEffects, handshakeEffects,
    connectedClient.
  fields. rewrite !omap_app.
  drop_quiet (progressBound (connections c) token).
  rewrite ?omap_map. cbn [app]. rewrite ?app_nil_r.
  apply omap_pointwise. intros [t [ty h]]. cbn.
  repeat case_decide; try done; exfalso; intuition.
Qed.

Lemma omap_key_fmap {K V W} `{EqDecision K} (g : V → W) (m : JSMap.t K V) (k : K) :
  NoDup (JSMap.keys m) →
  omap (λ entry : K * V, if decide (entry.1 = k) then Some (g entry.2) else None) m =
  option_list (g <$> JSMap.get k m).
Proof.
  intros Hnd.
  transitivity
    (g <$> omap (λ entry : K * V,
                   if decide (entry.1 = k) then Some entry.2 else None) m).
  - clear Hnd. induction m as [|[k' v] m IH]; [done|].
    csimpl. case_decide; csimpl; by rewrite IH.
  - rewrite omap_key by done. by destruct (JSMap.get k m).
Qed.

(** X10.  [onProgress] on a client with a live connection binds its
    handler at once, wrapped in [middleware.handleWorkDoneProgress] when
    that is configured and the type is the work-done one.  A progress
    handler registered before the start is bound by a successful start
    exactly once, and as it was given: the middleware is not put around
    it. *)
Theorem progress_middleware_only_when_live :
  (∀ (connection : nat) (c : Client) (type : ProgressType)
     (token : ProgressToken) (handler : AppHandler),
     activeConnection c = Some connection →
     effects (onProgress type token handler c).2 =
       effects c
       ++ [Conn connection
             (C_onProgress type token
                (if WorkDoneProgress_is type
                    && middleware_handleWorkDoneProgress (_clientOptions c)
                 then WrappedHandler handler else UserHandler handler))]) ∧
  (∀ (env : StartEnv) (c : Client) (result : InitializeResult),
     startable c → progressReady c →
     createMessageTransports env = Ok tt →
     connection_initialize env = Ok result →
     acceptedEncoding result →
     initialized_sent env = Ok tt →
     ∃ new c',
       start env c = (Resolved tt, c') ∧
       effects c' = effects c ++ new ∧
       ∀ token,
         boundProgressHandlers (connections c) token new =
         option_list
           ((λ data : ProgressType * AppHandler, (data.1, UserHandler data.2))
              <$> JSMap.get token (_progressHandlers c))).
Proof.
  split.
  - intros connection c type token handler Hactive.
    unfold onProgress, realHandler. cbv zeta.
    replace (activeConnection (with_progressHandlers _ c)) with (Some connection)
      by (rewrite <- Hactive; reflexivity).
    by fields.
  - intros env c result Hc (HP & HpP & Hagree) Htr Hinit Henc Hsent.
    rewrite (start_startable env c Hc).
    rewrite (startNow_started env _ result) by done.
    eexists _, _. split; [reflexivity|]. split.
    { unfold startedClient, handshakeClient, connectedClient. by fields. }
    intros token.
    change (connections c) with (connections (with_onStop None c)).
    rewrite started_progress. fields.
    rewrite (omap_key_fmap (λ data : ProgressType * AppHandler,
                              (data.1, UserHandler data.2)))
      by by apply makePending_NoDup.
    do 2 f_equal. apply makePending_agree, Hagree.
Qed.

Lemma progress_middleware_only_when_live_witness :
  ∃ new c',
    start (Sample.env (Sample.result None None)) Sample.progressClient =
      (Resolved tt, c') ∧
    effects c' = effects Sample.progressClient ++ new ∧
    boundProgressHandlers (connections Sample.progressClient)
      (TokenString "build") new =
    [(WorkDoneProgressType, UserHandler 7%nat)].
Proof.
  destruct (proj2 progress_middleware_only_when_live
              (Sample.env (Sample.result None None)) Sample.progressClient
              (Sample.result None None)
              (conj eq_refl (or_introl eq_refl))
              ltac:(unfold progressReady; split_and!;
                    [apply (bool_decide_unpack _); by vm_compute
                    |apply (bool_decide_unpack _); by vm_compute
                    |by vm_compute])
              eq_refl eq_refl (or_introl eq_refl) eq_refl)
    as (new & c' & Hrun & Heff & Hbound).
  exists new, c'. split_and!; [exact Hrun|exact Heff|].
  by rewrite Hbound.
Defined.

(** ** The features during a start *)

Lemma featureCalls_app es1 es2 :
  featureCalls (es1 ++ es2) = featureCalls es1 ++ featureCalls es2.
Proof. apply omap_app. Qed.

Lemma featureCalls_featureEffects call features :
  featureCalls (featureEffects call features) = callsOf call features.
Proof.
  unfold featureCalls, featureEffects, callsOf.
  induction features as [|f features IH]; [done|]. cbn. f_equal. exact IH.
Qed.

Ltac no_feature_calls :=
  repeat match goal with
  | |- context [featureCalls ?piece] =>
      lazymatch piece with
      | featureEffects _ _ => fail
      | _ =>
          replace (featureCalls piece) with (@nil (string * FeatureCall))
            by (symmetry; unfold featureCalls;
                repeat first
                  [ reflexivity
                  | apply omap_nil_app
                  | rewrite omap_map; apply omap_silent;
                    (by intros []) || (by intros ?)
                  | progress unfold stateChange, progressEffects,
                      armIdleTimerEffects, hookFileEventsEffects,
                      ensureDiagnosticsEffects, initializeFailedEffects
                  | case_match ])
      end
  end.

Lemma featureCalls_connect env c :
  featureCalls (connectEffects env c) =
  callsOf F_fillClientCapabilities (_features c)
  ++ callsOf F_fillInitializeParams
       (filter (λ f, hasFillInitializeParams f = true) (_features c)).
Proof.
  unfold connectEffects. rewrite !featureCalls_app, !featureCalls_featureEffects.
  no_feature_calls. by rewrite app_nil_r.
Qed.

Lemma featureCalls_handshake connection token c :
  featureCalls (handshakeEffects connection token c) = [].
Proof.
  unfold handshakeEffects. rewrite !featureCalls_app. by no_feature_calls.
Qed.

(** X13.  What a [start()] asks of the features.  Before the initialize
    request every feature fills in the client capabilities, in the order of
    registration, and then those that have the method fill in the
    initialize parameters.  Features are initialized only when the
    handshake succeeds: then each is initialized once, in the order of
    registration, after the [initialized] notification was sent.  A start
    that fails initializes no feature. *)
Theorem features_initialized_after_handshake (env : StartEnv) (c : Client) :
  startable c →
  ∃ new,
    effects (start env c).2 = effects c ++ new ∧
    (handshakeSucceeds env →
     ∃ before after,
       new = before
             ++ Conn (connections c) (C_sendNotification Method.initialized)
             :: after ∧
       featureCalls before =
         callsOf F_fillClientCapabilities (_features c)
         ++ callsOf F_fillInitializeParams
              (filter (λ f, hasFillInitializeParams f = true) (_features c)) ∧
       featureCalls after = callsOf F_initialize (_features c)) ∧
    (¬ handshakeSucceeds env →
     ∀ name, (name, F_initialize) ∉ featureCalls new).
Proof.
  intros Hc. unfold handshakeSucceeds.
  rewrite (start_startable env c Hc).
  set (c0 := with_onStop None c).
  assert (Heff : effects c0 = effects c) by done.
  assert (Hfeatures : _features c0 = _features c) by done.
  assert (Hconn : connections c0 = connections c) by done.
  clearbody c0.
  assert (Hnone : ∀ name,
            (name, F_initialize) ∉
            callsOf F_fillClientCapabilities (_features c0)
            ++ callsOf F_fillInitializeParams
                 (filter (λ f, hasFillInitializeParams f = true) (_features c0))).
  { intros name Hin. unfold callsOf in Hin.
    apply elem_of_app in Hin as [Hin|Hin];
      apply list_elem_of_fmap in Hin as (f & [= _ ?] & _). }
  destruct (handshake_cases env) as
    [e Htr|e Htr Hinit|result encoding Htr Hinit Henc Hne
    |result e Htr Hinit Henc Hsent|result Htr Hinit Henc Hsent].
  - rewrite (startNow_unreached env c0 e) by done.
    exists (unreachedEffects c0). split.
    { unfold startingClient. fields. by rewrite Heff. }
    split.
    + intros [Htr' _]. rewrite Htr in Htr'. discriminate.
    + intros _ name. unfold unreachedEffects. rewrite !featureCalls_app.
      no_feature_calls. apply not_elem_of_nil.
  - rewrite (startNow_rejected env c0 e) by done.
    exists (refusedEffects env e c0). split.
    { unfold refusedClient, connectedClient. fields. by rewrite Heff. }
    split.
    + intros (_ & r & Hinit' & _). rewrite Hinit in Hinit'. discriminate.
    + intros _ name. unfold refusedEffects.
      rewrite !featureCalls_app, featureCalls_connect. no_feature_calls.
      rewrite !app_nil_r. apply Hnone.
  - rewrite (startNow_refused env c0 result encoding) by done.
    exists (refusedEffects env (unsupportedEncoding encoding c0) c0). split.
    { unfold refusedClient, connectedClient. fields. by rewrite Heff. }
    split.
    + intros (_ & r & Hinit' & [Hacc|Hacc] & _); rewrite Hinit in Hinit';
        injection Hinit' as <-; rewrite Henc in Hacc;
        [discriminate|by injection Hacc].
    + intros _ name. unfold refusedEffects.
      rewrite !featureCalls_app, featureCalls_connect. no_feature_calls.
      rewrite !app_nil_r. apply Hnone.
  - rewrite (startNow_unsent env c0 result e) by done.
    exists (unsentEffects env e c0). split.
    { unfold handshakeClient, connectedClient. fields. by rewrite Heff. }
    split.
    + intros (_ & r & _ & _ & Hsent'). rewrite Hsent in Hsent'. discriminate.
    + intros _ name. unfold unsentEffects.
      rewrite !featureCalls_app, featureCalls_connect, featureCalls_handshake.
      no_feature_calls. rewrite !app_nil_r. apply Hnone.
  - rewrite (startNow_started env c0 result) by done.
    exists (startedEffects env c0). split.
    { unfold startedClient, handshakeClient, connectedClient. fields.
      by rewrite Heff. }
    split.
    + intros _.
      exists (connectEffects env c0
              ++ removelast (handshakeEffects (connections c0)
                               (workDoneToken env c0) (connectedClient c0))),
        (hookFileEventsEffects (_clientOptions c0)
         ++ [Host HookConfigurationChanged]
         ++ featureEffects F_initialize (_features c0)
         ++ progressEffects env c0 PP_done).
      assert (Hsplit : handshakeEffects (connections c0) (workDoneToken env c0)
                         (connectedClient c0) =
                       removelast (handshakeEffects (connections c0)
                                     (workDoneToken env c0) (connectedClient c0))
                       ++ [Conn (connections c0)
                             (C_sendNotification Method.initialized)]).
      { unfold handshakeEffects. rewrite !app_assoc.
        by rewrite removelast_last. }
      split_and!.
      * unfold startedEffects. rewrite Hsplit at 1.
        rewrite <- Hconn, <- !app_assoc. reflexivity.
      * rewrite featureCalls_app, featureCalls_connect, Hfeatures.
        replace (featureCalls (removelast _)) with (@nil (string * FeatureCall));
          [by rewrite app_nil_r|].
        pose proof (featureCalls_handshake (connections c0)
                      (workDoneToken env c0) (connectedClient c0)) as Hh.
        rewrite Hsplit, featureCalls_app in Hh.
        by apply app_eq_nil in Hh as [-> _].
      * rewrite !featureCalls_app, featureCalls_featureEffects, Hfeatures.
        no_feature_calls. by rewrite app_nil_r.
    + intros Hno. destruct Hno. split; [done|]. by exists result.
Qed.

Lemma features_initialized_after_handshake_witness :
  ∃ new,
    effects (start (Sample.env (Sample.result None None))
               Sample.featureClient).2 =
      effects Sample.featureClient ++ new ∧
    ∃ before after,
      new = before
            ++ Conn (connections Sample.featureClient)
                 (C_sendNotification Method.initialized)
            :: after ∧
      featureCalls after =
        [("hover", F_initialize); ("broken", F_initialize)].
Proof.
  destruct (features_initialized_after_handshake
              (Sample.env (Sample.result None None)) Sample.featureClient
              (conj eq_refl (or_introl eq_refl)))
    as (new & Heff & Hok & _).
  exists new. split; [exact Heff|].
  destruct Hok as (before & after & Hnew & _ & Hafter).
  { split; [reflexivity|]. exists (Sample.result None None).
    split_and!; try reflexivity. by left. }
  exists before, after. split; [exact Hnew|exact Hafter].
Defined.

(** ** Draining the diagnostics queue *)

Lemma drain_round c document batch rest :
  _diagnostics c = true →
  _diagnosticQueueState c = Idle →
  _diagnosticQueue c = (document, batch) :: rest →
  queueRun [Tick; Converted true] c =
  emits (drainEffects c (document, batch))
    (with_diagnosticQueueState Idle (with_diagnosticQueue rest c)).
Proof.
  intros Hd Hs Hq. unfold queueRun. cbn [fold_left queueStep].
  unfold workDiagnosticQueue. rewrite Hs, Hq.
  cbn [JSMap.first head JSMap.delete]. rewrite decide_True by done.
  unfold conversionSettled, setDiagnostics, triggerDiagnosticQueue, drainEffects.
  fields. rewrite Hd. cbn [andb negb fst snd].
  destruct (middleware_handleDiagnostics (_clientOptions c));
    client_eq; by rewrite <- !app_assoc.
Qed.

Lemma drain_rounds queue c :
  _diagnostics c = true →
  _diagnosticQueueState c = Idle →
  _diagnosticQueue c = queue →
  queueRun (drainRounds queue) c =
  emits (flat_map (drainEffects c) queue)
    (with_diagnosticQueueState Idle (with_diagnosticQueue [] c)).
Proof.
  revert c. induction queue as [|[document batch] rest IH]; intros c Hd Hs Hq.
  - cbn. client_eq; try done. by rewrite app_nil_r.
  - unfold drainRounds. cbn [flat_map]. unfold queueRun.
    rewrite fold_left_app.
    change (fold_left (λ c event, queueStep event c) [Tick; Converted true] c)
      with (queueRun [Tick; Converted true] c).
    rewrite (drain_round c document batch rest) by done.
    change (fold_left (λ c event, queueStep event c) ?l ?x)
      with (queueRun (drainRounds rest) x).
    rewrite IH by done.
    client_eq. cbn [flat_map]. rewrite <- app_assoc. reflexivity.
Qed.

(** X7.  The queue hands its entries on in the order in which it holds
    them.  From an idle queue, while the diagnostic collection exists, one
    drain and one resolved conversion per pending entry empty the queue:
    for each entry in turn the client asks for the conversion, hands the
    converted batch to the middleware when one is configured and to the
    diagnostic collection otherwise, and schedules the next drain.  As the
    queue holds a document once, a pending document is handed on exactly
    once, and no other document is. *)
Theorem queue_drains_in_order (c : Client) :
  _diagnostics c = true →
  _diagnosticQueueState c = Idle →
  let c' := queueRun (drainRounds (_diagnosticQueue c)) c in
  _diagnosticQueue c' = [] ∧
  _diagnosticQueueState c' = Idle ∧
  effects c' = effects c ++ flat_map (drainEffects c) (_diagnosticQueue c) ∧
  (NoDup (JSMap.keys (_diagnosticQueue c)) →
   ∀ document,
     deliveries document (flat_map (drainEffects c) (_diagnosticQueue c)) =
     option_list (asDiagnostics (_p2c c) <$> JSMap.get document (_diagnosticQueue c))).
Proof.
  intros Hd Hs c'. subst c'. rewrite (drain_rounds _ c) by done.
  split_and!; try done.
  intros Hnd document.
  rewrite <- (omap_key_fmap (asDiagnostics (_p2c c)) (_diagnosticQueue c) document Hnd).
  unfold deliveries. clear Hnd.
  induction (_diagnosticQueue c) as [|[key batch] queue IH]; [done|].
  cbn [flat_map]. rewrite omap_app, IH. unfold drainEffects. csimpl.
  destruct (middleware_handleDiagnostics (_clientOptions c)); csimpl;
    case_decide; done.
Qed.

Lemma queue_drains_in_order_witness :
  effects
    (queueRun
       (drainRounds
          (_diagnosticQueue
             (queueRun [Publish "file:///b.ts" [mkDiagnostic "b"];
                        Publish "file:///a.ts" [mkDiagnostic "a"];
                        Publish "file:///b.ts" [mkDiagnostic "b2"]]
                Sample.running)))
       (queueRun [Publish "file:///b.ts" [mkDiagnostic "b"];
                  Publish "file:///a.ts" [mkDiagnostic "a"];
                  Publish "file:///b.ts" [mkDiagnostic "b2"]]
          Sample.running)) =
  effects
    (queueRun [Publish "file:///b.ts" [mkDiagnostic "b"];
               Publish "file:///a.ts" [mkDiagnostic "a"];
               Publish "file:///b.ts" [mkDiagnostic "b2"]]
       Sample.running)
  ++ flat_map
       (drainEffects
          (queueRun [Publish "file:///b.ts" [mkDiagnostic "b"];
                     Publish "file:///a.ts" [mkDiagnostic "a"];
                     Publish "file:///b.ts" [mkDiagnostic "b2"]]
             Sample.running))
       (_diagnosticQueue
          (queueRun [Publish "file:///b.ts" [mkDiagnostic "b"];
                     Publish "file:///a.ts" [mkDiagnostic "a"];
                     Publish "file:///b.ts" [mkDiagnostic "b2"]]
             Sample.running)).
Proof.
  exact (proj1 (proj2 (proj2 (queue_drains_in_order
           (queueRun [Publish "file:///b.ts" [mkDiagnostic "b"];
                      Publish "file:///a.ts" [mkDiagnostic "a"];
                      Publish "file:///b.ts" [mkDiagnostic "b2"]]
              Sample.running)
           ltac:(vm_compute; reflexivity) ltac:(vm_compute; reflexivity))))).
Defined.

(** On the sample: two documents are published, the first of them twice;
    the host receives the first document's later batch, then the second
    document's. *)
Example sample_queue_order :
  let published :=
    queueRun [Publish "file:///b.ts" [mkDiagnostic "b"];
              Publish "file:///a.ts" [mkDiagnostic "a"];
              Publish "file:///b.ts" [mkDiagnostic "b2"]]
      Sample.running in
  omap (λ e, match e with
             | Host (DiagnosticCollection_set document _ batch) =>
                 Some (document, batch)
             | _ => None
             end)
    (effects (queueRun (drainRounds (_diagnosticQueue published)) published)) =
  [("file:///b.ts", [mkVDiagnostic "b2"]); ("file:///a.ts", [mkVDiagnostic "a"])].
Proof. by vm_compute. Qed.

(** ** Applied and refused workspace edits *)

Lemma versionMismatch_true opened changes :
  versionMismatch opened changes = true → stale opened changes.
Proof.
  unfold stale.
  induction changes as [|change changes IH]; [done|].
  assert (Hrest : versionMismatch opened changes = true →
                  ∃ uri version document,
                    TextDocumentEdit uri (Some version) ∈ change :: changes ∧
                    0 < version ∧ JSMap.get uri opened = Some document ∧
                    td_version document ≠ version).
  { intros H. destruct (IH H) as (uri & version & document & Hin & Hrest).
    exists uri, version, document. split; [by right|done]. }
  destruct change as [uri [version|]| | |]; cbn [versionMismatch]; try done.
  destruct (bool_decide (version ≠ 0) && bool_decide (0 ≤ version)) eqn:Hguard;
    [|done].
  apply andb_true_iff in Hguard as [Hne Hle].
  apply bool_decide_eq_true_1 in Hne, Hle.
  destruct (JSMap.get uri opened) as [document|] eqn:Hget; [|done].
  case_bool_decide as Hversion; [|done].
  intros _. exists uri, version, document.
  split_and!; [by left|lia|done|done].
Qed.

(** The open documents by Uri: of two documents with one Uri the later
    stands. *)
Lemma openTextDocuments_get documents uri :
  JSMap.get uri (openTextDocuments documents) =
  last (filter (λ document, td_uri document = uri) documents).
Proof.
  unfold openTextDocuments.
  assert (Hgen : ∀ m,
            JSMap.get uri
              (fold_left (λ m document, JSMap.set (td_uri document) document m)
                 documents m) =
            match last (filter (λ document, td_uri document = uri) documents) with
            | Some document => Some document
            | None => JSMap.get uri m
            end).
  { induction documents as [|document documents IH]; intros m; [done|].
    cbn [fold_left]. rewrite IH. rewrite filter_cons.
    case_decide as Huri.
    - rewrite last_cons.
      destruct (last (filter _ documents)); [done|].
      by rewrite <- Huri, JSMapFacts.get_set_eq.
    - destruct (last (filter _ documents)); [done|].
      by rewrite JSMapFacts.get_set_ne. }
  rewrite Hgen. by destruct (last _).
Qed.

(** X27.  [handleApplyWorkspaceEdit] first has the edit converted, and
    is rejected with the error of the conversion when that fails.
    Otherwise it passes the edit to [Workspace.applyEdit] unless one of its
    document changes is stale, that is, edits a document that is open at
    another version than the positive version the change names; of the
    host's text documents with one Uri the last counts.  An edit without
    [documentChanges] is always passed on.  What it answers then is what
    the host answered: [applied] is the host's result, and a failure of the
    host rejects the request.  A stale edit is answered with [applied]
    false and the host is not asked. *)
Theorem workspace_edit_applied_unless_stale (env : ApplyEditEnv)
    (edit : WorkspaceEdit) (c : Client) :
  let out := handleApplyWorkspaceEdit env edit c in
  let opened := openTextDocuments (Workspace_textDocuments env) in
  let isStale := ∃ changes, documentChanges edit = Some changes ∧ stale opened changes in
  (∀ uri, JSMap.get uri opened =
          last (filter (λ document, td_uri document = uri)
                  (Workspace_textDocuments env))) ∧
  (∀ e, asWorkspaceEdit_settles env = Throw e →
        out = (Rejected e, emit (Host AsWorkspaceEdit) c)) ∧
  (asWorkspaceEdit_settles env = Ok tt →
   (isStale →
    out = (Resolved {| applied := false |}, emit (Host AsWorkspaceEdit) c)) ∧
   (¬ isStale →
    out.2 = emits [Host AsWorkspaceEdit; Host Workspace_applyEdit] c ∧
    out.1 = match applyEdit_settles env with
            | Ok value => Resolved {| applied := value |}
            | Throw e => Rejected e
            end)).
Proof.
  cbv zeta. split_and!.
  - intros uri. apply openTextDocuments_get.
  - intros e He. unfold handleApplyWorkspaceEdit. by rewrite He.
  - intros Hok. unfold handleApplyWorkspaceEdit. rewrite Hok. cbv zeta.
    destruct (documentChanges edit) as [changes|] eqn:Hchanges.
    + destruct (versionMismatch _ changes) eqn:Hmismatch.
      * split; [done|]. intros Hno. exfalso. apply Hno.
        exists changes. split; [done|]. by apply versionMismatch_true.
      * split.
        -- intros (changes' & [= <-] & uri & version & document & Hin & Hpos & Hget & Hne).
           rewrite (versionMismatch_stale _ changes uri version document) in Hmismatch
             by done.
           discriminate.
        -- intros _. destruct (applyEdit_settles env); split; try done;
             client_eq; by rewrite <- app_assoc.
    + split.
      * intros (changes & [=] & _).
      * intros _. destruct (applyEdit_settles env); split; try done;
          client_eq; by rewrite <- app_assoc.
Qed.

(** ** Dynamic features *)

Lemma getFeature_registerFeatures features c method :
  getFeature method (registerFeatures features c) =
  match last (filter (registersFor method) features) with
  | Some f => Some f
  | None => getFeature method c
  end.
Proof.
  unfold registerFeatures, getFeature. revert c.
  induction features as [|f features IH]; intros c; [done|].
  cbn [fold_left]. rewrite IH, filter_cons.
  case_decide as Hf.
  - rewrite last_cons. destruct (last (filter _ features)); [done|].
    destruct f as [|name fills method' throws]; [done|]. cbn in Hf. subst method'.
    unfold registerFeature. fields. by rewrite JSMapFacts.get_set_eq.
  - destruct (last (filter _ features)); [done|].
    destruct f as [|name fills method' throws]; [done|]. cbn in Hf.
    unfold registerFeature. fields. by rewrite JSMapFacts.get_set_ne.
Qed.

(** X11.  Of the dynamic features registered for one method the last
    stands: [getFeature] answers with it, and a registration request for
    the method goes to it alone.  The features registered before it are
    still features of the client, which fills in, initializes and disposes
    of each of them. *)
Theorem last_registered_feature_stands (features : list Feature) (c : Client)
    (method : string) (f : Feature) (r : Registration) :
  last (filter (registersFor method) features) = Some f →
  r_method r = method →
  let c' := registerFeatures features c in
  getFeature method c' = Some f ∧
  _features c' = _features c ++ features ∧
  handleRegistrationRequest [r] c' =
    (match registerOutcome f (registrationData r c') with
     | Some e => Rejected e
     | None => Resolved tt
     end,
     emit (FeatureDo (featureName f) (F_register (registrationData r c'))) c').
Proof.
  intros Hlast Hr c'. subst c'.
  pose proof (getFeature_registerFeatures features c method) as Hget.
  rewrite Hlast in Hget. split_and!.
  - done.
  - unfold registerFeatures. clear Hlast Hget. revert c.
    induction features as [|f' features IH]; intros c; cbn [fold_left].
    + by rewrite app_nil_r.
    + rewrite IH. unfold registerFeature. destruct f'; fields;
        by rewrite <- app_assoc.
  - cbn [handleRegistrationRequest]. unfold getFeature in Hget.
    rewrite Hr, Hget. by destruct (registerOutcome f _).
Qed.

Lemma last_registered_feature_stands_witness :
  getFeature "textDocument/hover"
    (registerFeatures Sample.overridden Sample.client) =
  Some (DynamicFeature "hover2" false "textDocument/hover" (λ _, None)).
Proof.
  exact (proj1 (last_registered_feature_stands Sample.overridden Sample.client
                  "textDocument/hover"
                  (DynamicFeature "hover2" false "textDocument/hover" (λ _, None))
                  (Sample.registration "1" "textDocument/hover")
                  eq_refl eq_refl)).
Defined.

(** X12.  A registration batch whose methods all have a dynamic feature,
    none of which throws, resolves after [register] was called once for
    each registration, in order, with the registration's id; the options
    keep the document selector when the registration has one and get the
    client's otherwise.  An unregistration batch whose methods all have a
    feature resolves after [unregister] was called for each id in
    order. *)
Theorem registration_batch_applied (c : Client)
    (registrations : list Registration)
    (unregistrations : list Unregistration) :
  (Forall (λ r, is_Some (JSMap.get (r_method r) (_dynamicFeatures c)))
     registrations →
   Forall (λ r, registerThrown c r = None) registrations →
   ∃ calls,
     handleRegistrationRequest registrations c = (Resolved tt, emits calls c) ∧
     Forall2
       (λ r call,
          ∃ feature,
            JSMap.get (r_method r) (_dynamicFeatures c) = Some feature ∧
            call =
              FeatureDo (featureName feature)
                (F_register
                   {| rd_id := r_id r;
                      rd_registerOptions :=
                        {| ro_documentSelector :=
                             Some (default (documentSelector (_clientOptions c))
                                     (r_registerOptions r ≫= ro_documentSelector));
                           ro_other :=
                             default "" (ro_other <$> r_registerOptions r) |} |}))
       registrations calls) ∧
  (Forall (λ u, is_Some (JSMap.get (u_method u) (_dynamicFeatures c)))
     unregistrations →
   ∃ calls,
     handleUnregistrationRequest unregistrations c = (Resolved tt, emits calls c) ∧
     Forall2
       (λ u call,
          ∃ feature,
            JSMap.get (u_method u) (_dynamicFeatures c) = Some feature ∧
            call = FeatureDo (featureName feature) (F_unregister (u_id u)))
       unregistrations calls).
Proof.
  split.
  - intros Hknown Hquiet. exists (omap (registerCall c) registrations). split.
    + rewrite <- (app_nil_r registrations) at 1.
      by rewrite handleRegistrationRequest_app.
    + clear Hquiet. induction Hknown as [|r rs [feature Hf] _ IH]; [by constructor|].
      csimpl. unfold registerCall at 1. rewrite Hf. csimpl.
      constructor; [|exact IH].
      exists feature. split; [done|]. unfold registrationData.
      by destruct (r_registerOptions r) as [[]|].
  - intros Hknown.
    exists (omap (unregisterCall c) unregistrations). split.
    + assert (Hgen : ∀ c',
                _dynamicFeatures c' = _dynamicFeatures c →
                handleUnregistrationRequest unregistrations c' =
                (Resolved tt, emits (omap (unregisterCall c) unregistrations) c')).
      { induction Hknown as [|u us [feature Hf] _ IH]; intros c' Hdyn.
        - cbn. by rewrite emits_nil.
        - cbn [handleUnregistrationRequest]. rewrite Hdyn, Hf.
          rewrite IH by done. csimpl. unfold unregisterCall at 2. rewrite Hf.
          csimpl. by rewrite emit_emits, emits_emits. }
      by apply Hgen.
    + induction Hknown as [|u us [feature Hf] _ IH]; [by constructor|].
      csimpl. unfold unregisterCall at 1. rewrite Hf. csimpl.
      constructor; [|exact IH]. by exists feature.
Qed.

Lemma registration_batch_applied_witness :
  ∃ calls,
    handleRegistrationRequest
      [Sample.registration "1" "textDocument/hover";
       Sample.registration "2" "textDocument/hover"] Sample.featureClient =
    (Resolved tt, emits calls Sample.featureClient) ∧
    length calls = 2%nat.
Proof.
  destruct (proj1 (registration_batch_applied Sample.featureClient
                     [Sample.registration "1" "textDocument/hover";
                      Sample.registration "2" "textDocument/hover"] [])
              ltac:(repeat constructor; by eexists)
              ltac:(repeat constructor))
    as (calls & Hrun & Hcalls).
  exists calls. split; [exact Hrun|].
  by rewrite <- (Forall2_length _ _ _ Hcalls).
Defined.

(** ** The idle check *)

Lemma idleAmong_true suspendMode getState features :
  idleAmong suspendMode getState features = true ↔
  ∀ feature, feature ∈ features → ¬ blocksSuspend suspendMode (getState feature).
Proof.
  unfold blocksSuspend. induction features as [|feature rest IH].
  - split; [|done]. intros _ f Hf. by apply elem_of_nil in Hf.
  - cbn [idleAmong]. cbv zeta.
    assert (Hrest : (∀ f, f ∈ feature :: rest → ¬ blocksSuspend suspendMode (getState f))
                    ↔ ¬ blocksSuspend suspendMode (getState feature) ∧
                      ∀ f, f ∈ rest → ¬ blocksSuspend suspendMode (getState f)).
    { split.
      - intros Hall. split; [apply Hall; by left|].
        intros f Hf. apply Hall. by right.
      - intros [Hhead Htail] f Hf. apply elem_of_cons in Hf as [->|Hf]; auto. }
    unfold blocksSuspend in Hrest. rewrite Hrest, <- IH. clear Hrest IH.
    destruct (decide (fs_kind (getState feature) = K_static)) as [Hk|Hk].
    { split; [|tauto]. intros H. split; [|done]. tauto. }
    destruct (fs_registrations (getState feature)) eqn:Hr; cbn [negb].
    2:{ split; [|tauto]. intros H. split; [|done]. intros (_ & [=] & _). }
    destruct (bool_decide (fs_kind (getState feature) = K_document)
              && fs_matches (getState feature)) eqn:Hd.
    { apply andb_true_iff in Hd as [Hd1 Hd2]. apply bool_decide_eq_true_1 in Hd1.
      split; [done|]. intros [Hno _]. exfalso. apply Hno. tauto. }
    destruct (bool_decide (suspendMode = SuspendMode.activationOnly)
              && bool_decide (fs_activation (getState feature) = Some false)) eqn:Ha.
    { apply andb_true_iff in Ha as [Ha1 Ha2].
      apply bool_decide_eq_true_1 in Ha1, Ha2.
      split; [done|]. intros [Hno _]. exfalso. apply Hno. tauto. }
    split; [|tauto]. intros H. split; [|done].
    intros (_ & _ & [[Hk1 Hm] | [Hs Hact]]).
    + rewrite bool_decide_eq_true_2, Hm in Hd by done. discriminate.
    + rewrite !bool_decide_eq_true_2 in Ha by done. discriminate.
Qed.

(** X29.  The client is idle exactly when suspending is not switched off
    and no feature blocks it.  A feature blocks it when its state is not
    static, has registrations and either is a document state with [matches]
    true or, in the mode [activationOnly], has [activation] false.  The
    idle check itself suspends nothing: on a running, idle client it writes
    one line to the log, and otherwise it does nothing; the state and the
    connection stay as they are. *)
Theorem idle_check_only_logs (getState : Feature → FeatureState) (c : Client) :
  (isIdle getState c = true ↔
   suspend_mode (_clientOptions c) ≠ SuspendMode.off ∧
   ∀ feature, feature ∈ _features c →
     ¬ blocksSuspend (suspend_mode (_clientOptions c)) (getState feature)) ∧
  checkSuspend getState c =
    (if bool_decide (_state c = ClientState.Running) && isIdle getState c
     then emit (LogInfo "Can suspend connection") c else c) ∧
  _state (checkSuspend getState c) = _state c ∧
  _connection (checkSuspend getState c) = _connection c.
Proof.
  split_and!.
  - unfold isIdle. cbv zeta. case_decide as Hoff.
    + split; [done|]. by intros [Hno _].
    + rewrite idleAmong_true. tauto.
  - unfold checkSuspend, info. case_decide as Hs.
    + by rewrite bool_decide_eq_false_2.
    + rewrite bool_decide_eq_true_2 by by destruct (decide (_state c = ClientState.Running)).
      done.
  - unfold checkSuspend, info. by repeat case_match.
  - unfold checkSuspend, info. by repeat case_match.
Qed.

(** ** Registration on a live connection *)

Lemma delete_set_absent {K V} `{EqDecision K} (m : JSMap.t K V) k v :
  JSMap.get k m = None → JSMap.delete k (JSMap.set k v m) = m.
Proof.
  induction m as [|[k' v'] m IH]; cbn.
  - intros _. by rewrite decide_True.
  - case_decide as Hk; [done|]. intros Hget. cbn.
    rewrite decide_False by done. by rewrite IH.
Qed.

(** X9.  On a client with a live connection [onRequest] binds the handler
    to that connection at once and leaves nothing pending; it never
    disposes of a binding, also not of an earlier one for the same method.
    Disposing of the registration disposes of the binding it made, and
    when the method was not registered before, the registry is then as it
    was. *)
Theorem live_registration_round_trip (connection : nat) (c : Client)
    (method : string) (handler : AppHandler) :
  activeConnection c = Some connection →
  let binding :=
    {| d_connection := connection;
       d_binding := C_onRequest method (UserHandler handler) |} in
  let registered := onRequest method handler c in
  let disposed := disposeRequest registered.1 registered.2 in
  effects registered.2 = effects c ++ [Conn connection (d_binding binding)] ∧
  _pendingRequestHandlers registered.2 = _pendingRequestHandlers c ∧
  JSMap.get method (_requestHandlers registered.2) = Some handler ∧
  JSMap.get method (_requestDisposables registered.2) = Some binding ∧
  effects disposed = effects registered.2 ++ [Dispose binding] ∧
  (JSMap.get method (_requestHandlers c) = None →
   JSMap.get method (_requestDisposables c) = None →
   _requestHandlers disposed = _requestHandlers c ∧
   _requestDisposables disposed = _requestDisposables c ∧
   _pendingRequestHandlers disposed = _pendingRequestHandlers c).
Proof.
  intros Hactive. cbv zeta. unfold onRequest. cbv zeta.
  replace (activeConnection (with_requestHandlers _ c)) with (Some connection)
    by (rewrite <- Hactive; reflexivity).
  unfold disposeRequest, disposeRequestBinding. fields.
  cbn [reg_key reg_branch]. fields.
  rewrite !JSMapFacts.get_set_eq. fields.
  split_and!; try done.
  intros Hr Hd. by rewrite !delete_set_absent.
Qed.

Lemma live_registration_round_trip_witness :
  effects (onRequest "d/w" 9%nat Sample.running).2 =
  effects Sample.running
  ++ [Conn 0%nat (C_onRequest "d/w" (UserHandler 9%nat))].
Proof.
  exact (proj1 (live_registration_round_trip 0%nat Sample.running "d/w" 9%nat
                  ltac:(vm_compute; reflexivity))).
Defined.

(** ** The restart budget *)

Lemma closes_within_budget (times : list Z) (h : DefaultErrorHandler.t) :
  Z.of_nat (length (DefaultErrorHandler.restarts h) + length times)
    ≤ DefaultErrorHandler.maxRestartCount h →
  (DefaultErrorHandler.closes times h).1 =
    replicate (length times) CloseAction.Restart ∧
  DefaultErrorHandler.restarts (DefaultErrorHandler.closes times h).2 =
    DefaultErrorHandler.restarts h ++ times ∧
  DefaultErrorHandler.maxRestartCount (DefaultErrorHandler.closes times h).2 =
    DefaultErrorHandler.maxRestartCount h ∧
  DefaultErrorHandler.clientName (DefaultErrorHandler.closes times h).2 =
    DefaultErrorHandler.clientName h.
Proof.
  revert h. induction times as [|now times IH]; intros h Hbudget.
  - cbn. by rewrite app_nil_r.
  - cbn [DefaultErrorHandler.closes].
    assert (Hclosed : DefaultErrorHandler.closed now h =
              ({| ch_action := CloseAction.Restart; ch_message := None |},
               {| DefaultErrorHandler.clientName := DefaultErrorHandler.clientName h;
                  DefaultErrorHandler.maxRestartCount :=
                    DefaultErrorHandler.maxRestartCount h;
                  DefaultErrorHandler.restarts :=
                    DefaultErrorHandler.restarts h ++ [now] |})).
    { unfold DefaultErrorHandler.closed.
      rewrite bool_decide_eq_true_2; [done|].
      rewrite length_app. cbn [length] in *. lia. }
    rewrite Hclosed.
    match goal with
    | |- context [DefaultErrorHandler.closes times ?h1] =>
        destruct (IH h1) as (Hact & Hrest & Hmax & Hname);
          [cbn; rewrite length_app; cbn [length] in *; lia|];
          destruct (DefaultErrorHandler.closes times h1) as [actions h2]
    end.
    cbn in *. rewrite Hact, Hrest, Hmax, Hname, <- app_assoc. done.
Qed.

(** X21.  [createDefaultErrorHandler] refuses a negative restart count and
    takes 4 when none is given.  A default handler with the count [n]
    answers [Restart] to its first [n] closes whenever they happen.  The
    one made when no count is given answers its fifth close with
    [DoNotRestart], and the message that the server crashed 5 times, when
    the close comes at most three minutes after the first, and with
    [Restart] otherwise. *)
Theorem default_handler_restart_budget (c : Client) :
  (∀ n, n < 0 →
     createDefaultErrorHandler (Some n) c =
     Throw (JSError ("Invalid maxRestartCount: " +:+ pretty n))) ∧
  (∀ n, 0 ≤ n →
     createDefaultErrorHandler (Some n) c =
     Ok (DefaultErrorHandler.create (_name c) n)) ∧
  createDefaultErrorHandler None c = Ok (DefaultErrorHandler.create (_name c) 4) ∧
  (∀ n times, Z.of_nat (length times) ≤ n →
     (DefaultErrorHandler.closes times (DefaultErrorHandler.create (_name c) n)).1 =
     replicate (length times) CloseAction.Restart) ∧
  (∀ t1 t2 t3 t4 t5,
     let h := (DefaultErrorHandler.closes [t1; t2; t3; t4]
                 (DefaultErrorHandler.create (_name c) 4)).2 in
     (DefaultErrorHandler.closed t5 h).1 =
     if bool_decide (t5 - t1 ≤ 3 * 60 * 1000)
     then {| ch_action := CloseAction.DoNotRestart;
             ch_message :=
               Some ("The " +:+ _name c +:+ " server crashed 5 times in the last 3 minutes. The server will not be restarted. See the output for more information.") |}
     else {| ch_action := CloseAction.Restart; ch_message := None |}).
Proof.
  split_and!.
  - intros n Hn. unfold createDefaultErrorHandler.
    by rewrite bool_decide_eq_true_2.
  - intros n Hn. unfold createDefaultErrorHandler.
    by rewrite bool_decide_eq_false_2 by lia.
  - done.
  - intros n times Hn.
    by apply (closes_within_budget times (DefaultErrorHandler.create (_name c) n)).
  - intros t1 t2 t3 t4 t5 h.
    pose proof (closes_within_budget [t1; t2; t3; t4]
                  (DefaultErrorHandler.create (_name c) 4) ltac:(cbn; lia))
      as (_ & Hrest & Hmax & Hname).
    fold h in Hrest, Hmax, Hname. clearbody h. cbn in Hrest, Hmax, Hname.
    unfold DefaultErrorHandler.closed, DefaultErrorHandler.crashMessage,
      DefaultErrorHandler.at_index.
    rewrite Hrest, Hmax, Hname. cbn.
    rewrite (bool_decide_eq_false_2 (Z.of_nat 5 ≤ 4)) by (cbn; lia).
    replace (pretty (4 + 1)) with "5" by (vm_compute; reflexivity).
    by case_bool_decide.
Qed.

(** ** A start while a stop is in flight *)

Lemma closed_while_stopping {H : Type} `{ErrorHandler H}
    (env : StartEnv) (now timeout : Z) (h : H) (connection : nat) (c : Client) :
  let closed := handleConnectionClosed env now h (stopBegin timeout connection c) in
  closed.1 = h ∧
  _state closed.2 = ClientState.Stopped ∧
  _onStart closed.2 = None ∧
  _onStop closed.2 = Some (Resolved tt) ∧
  connections closed.2 = connections c.
Proof.
  cbv zeta. rewrite stopBegin_eq.
  rewrite (handleConnectionClosed_refused env now h h _ None);
    [|done|by left].
  split_and!; reflexivity.
Qed.

Lemma start_then_settle (env : StartEnv) (race : StopRace) (connection : nat)
    (closed : Client) (result : InitializeResult) :
  startable closed →
  createMessageTransports env = Ok tt →
  connection_initialize env = Ok result →
  acceptedEncoding result →
  initialized_sent env = Ok tt →
  let started := start env closed in
  let settled := stopSettle race connection started.2 in
  started.1 = Resolved tt ∧
  _state started.2 = ClientState.Running ∧
  _connection started.2 = Some (connections closed) ∧
  stoppedAndReset settled.2 ∧
  ∃ new,
    effects settled.2 = effects started.2 ++ new ∧
    callsOn (connections closed) new =
      (if decide (connections closed = connection)
       then callsOn connection (raceEffects race connection) else []) ∧
    stateEvents new = [(State.Running, State.Stopped)].
Proof.
  intros Hstartable Htr Hinit Henc Hsent. cbv zeta.
  rewrite (start_startable env closed) by done.
  set (c0 := with_onStop None closed).
  assert (Hconns0 : connections c0 = connections closed) by reflexivity.
  clearbody c0.
  rewrite (startNow_started env c0 result) by done.
  cbn [fst snd]. rewrite stopSettle_eq. cbn [fst snd].
  split_and!; try done.
  - unfold startedClient, handshakeClient, connectedClient. fields.
    by rewrite Hconns0.
  - eexists. split.
    { unfold stoppedClient, startedClient, handshakeClient, connectedClient.
      fields. reflexivity. }
    unfold startedClient, handshakeClient, connectedClient. fields.
    split.
    + unfold callsOn. rewrite !omap_app. cbn [omap list_omap app].
      rewrite app_nil_r. case_decide as Hsame.
      * by rewrite Hsame.
      * destruct race as [|[]|e|e]; cbn; rewrite ?decide_False by done; done.
    + rewrite !stateEvents_app.
      replace (stateEvents (raceEffects race connection))
        with (@nil (State.t * State.t))
        by (by destruct race as [|[]|e|e]).
      done.
Qed.

(** X16.  The handlers that [stop()] chains on its race reset the client
    when the race ends, whatever happened in between.  When the connection
    closes while the stop is in flight, the close handler leaves the client
    [Stopped] with a resolved stop promise, so a [start()] that follows
    runs, on a new connection.  When the race of the stop ends after that
    start, its [finally] sets the client to [Stopped] without connection or
    start promise again, and [Running] to [Stopped] is announced.  Nothing
    is asked of the connection that the start created: it is not shut down,
    ended or disposed of.  Connections are numbered as they are created, so
    the one in use is below the counter. *)
Theorem stop_in_flight_undoes_start {H : Type} `{ErrorHandler H}
    (env : StartEnv) (now timeout : Z) (h : H) (race : StopRace)
    (connection : nat) (c : Client) (result : InitializeResult) :
  runningOn connection c →
  (connection < connections c)%nat →
  createMessageTransports env = Ok tt →
  connection_initialize env = Ok result →
  acceptedEncoding result →
  initialized_sent env = Ok tt →
  let stopping := stopBegin timeout connection c in
  let closed := handleConnectionClosed env now h stopping in
  let started := start env closed.2 in
  let settled := stopSettle race connection started.2 in
  closed.1 = h ∧
  _state closed.2 = ClientState.Stopped ∧
  started.1 = Resolved tt ∧
  _state started.2 = ClientState.Running ∧
  _connection started.2 = Some (connections c) ∧
  stoppedAndReset settled.2 ∧
  ∃ new,
    effects settled.2 = effects started.2 ++ new ∧
    callsOn (connections c) new = [] ∧
    stateEvents new = [(State.Running, State.Stopped)].
Proof.
  intros Hrun Hbelow Htr Hinit Henc Hsent stopping closed.
  destruct (closed_while_stopping env now timeout h connection c)
    as (Hh & Hstate & HonStart & HonStop & Hconns).
  fold stopping closed in Hh, Hstate, HonStart, HonStop, Hconns.
  clearbody closed. clear stopping.
  intros started settled.
  destruct (start_then_settle env race connection closed.2 result)
    as (Hstarted & Hrunning & Hconn & Hreset & new & Heff & Hcalls & Hevents);
    try done.
  { split; [done|by right]. }
  fold started settled in Hstarted, Hrunning, Hconn, Hreset, Heff.
  rewrite Hconns in Hconn, Hcalls.
  rewrite decide_False in Hcalls by lia.
  split_and!; try done.
  by exists new.
Qed.

Lemma stop_in_flight_undoes_start_witness :
  stoppedAndReset
    (stopSettle (TimeoutWon false) 0%nat
       (start (Sample.env (Sample.result None None))
          (handleConnectionClosed (Sample.env (Sample.result None None)) 1000
             (DefaultErrorHandler.create "sample" 4)
             (stopBegin 2000 0%nat Sample.running)).2).2).2.
Proof.
  exact (proj1 (proj2 (proj2 (proj2 (proj2 (proj2
           (stop_in_flight_undoes_start
              (Sample.env (Sample.result None None)) 1000 2000
              (DefaultErrorHandler.create "sample" 4) (TimeoutWon false)
              0%nat Sample.running (Sample.result None None)
              ltac:(split_and!; vm_compute; reflexivity)
              ltac:(vm_compute; lia)
              eq_refl eq_refl (or_introl eq_refl) eq_refl))))))).
Defined.

(** ** Logging of failed requests *)

(** X28.  [handleFailedRequest] writes nothing to the log and shows
    nothing when the error is a response error whose code is
    [RequestCancelled], [ServerCancelled] or [ContentModified].  Every
    other error is logged once, with the notification flag it was called
    with, and thrown again as it is; the default value is given back for
    none of them. *)
Theorem failed_request_logged_unless_cancelled
    (RequestCancelled ServerCancelled ContentModified : Z)
    (full range delta : string)
    (T : Type) (method : string) (token : option bool) (err : Error)
    (defaultValue : T) (showNotification : bool) (c : Client) :
  let out :=
    handleFailedRequest RequestCancelled ServerCancelled ContentModified
      full range delta method token err defaultValue showNotification c in
  let cancelled :=
    ∃ code message data,
      err = ResponseError code message data ∧
      (code = RequestCancelled ∨ code = ServerCancelled ∨ code = ContentModified) in
  (cancelled → out.2 = c) ∧
  (¬ cancelled →
   out = (Throw err,
          emit (LogError ("Request " +:+ method +:+ " failed.")
                  (Show showNotification)) c)) ∧
  (∀ value, out.1 = Ok value → value = defaultValue ∧ out.2 = c).
Proof.
  cbv zeta. unfold handleFailedRequest, error.
  destruct err as [m|code m data| |d].
  2:{ destruct (decide (code = RequestCancelled)) as [->|Hrc].
      { rewrite bool_decide_eq_true_2 by done. cbn [orb].
        split_and!.
        - intros _. by repeat case_match.
        - intros Hno. exfalso. apply Hno. eexists _, _, _. split; [done|]. by left.
        - intros value. repeat case_match; try done. by intros [= <-]. }
      rewrite (bool_decide_eq_false_2 (code = RequestCancelled)) by done.
      cbn [orb].
      destruct (decide (code = ServerCancelled)) as [->|Hsc].
      { rewrite bool_decide_eq_true_2 by done.
        split_and!.
        - intros _. by repeat case_match.
        - intros Hno. exfalso. apply Hno. eexists _, _, _. split; [done|].
          right. by left.
        - intros value. repeat case_match; try done. by intros [= <-]. }
      rewrite (bool_decide_eq_false_2 (code = ServerCancelled)) by done.
      destruct (decide (code = ContentModified)) as [->|Hcm].
      { rewrite bool_decide_eq_true_2 by done.
        split_and!.
        - intros _. by repeat case_match.
        - intros Hno. exfalso. apply Hno. eexists _, _, _. split; [done|].
          right. by right.
        - intros value. repeat case_match; try done. by intros [= <-]. }
      rewrite (bool_decide_eq_false_2 (code = ContentModified)) by done.
      split_and!; try done.
      intros (code' & m' & data' & [= <- _ _] & [?|[?|?]]); done. }
  all: split_and!; try done; intros (code & m' & data & [=] & _).
Qed.

(** ** Sending *)

Lemma start'_running env connection c :
  runningOn connection c → start' env c = (Resolved connection, c).
Proof.
  intros (Hs & Hstart & Hconn). unfold start'.
  rewrite decide_False by (rewrite Hs; done).
  rewrite (start_in_flight env c (Resolved tt)) by done.
  by rewrite Hconn.
Qed.

Lemma start'_failed env c :
  _state c = ClientState.StartFailed →
  start' env c =
  (Rejected (JSError "Previous start failed. Can't restart server."), c).
Proof. intros Hs. unfold start'. by rewrite decide_True. Qed.

Lemma start'_fresh env c result :
  startable c →
  _state c ≠ ClientState.StartFailed →
  createMessageTransports env = Ok tt →
  connection_initialize env = Ok result →
  acceptedEncoding result →
  initialized_sent env = Ok tt →
  start' env c = (Resolved (connections c), (start env c).2) ∧
  (start env c).1 = Resolved tt ∧
  _state (start env c).2 = ClientState.Running ∧
  _connection (start env c).2 = Some (connections c) ∧
  _dynamicFeatures (start env c).2 = _dynamicFeatures c ∧
  effects (start env c).2 =
    effects c ++ startedEffects env (with_onStop None c).
Proof.
  intros Hc Hs Htr Hinit Henc Hsent. unfold start'.
  rewrite decide_False by done.
  rewrite (start_startable env c Hc).
  rewrite (startNow_started env _ result) by done.
  unfold startedClient, handshakeClient, connectedClient. fields.
  split_and!; reflexivity.
Qed.

(** X23.  The sending methods start the client when that is needed and
    never start a running one.  On a running client a request or a
    notification leaves the client as it is: the delivery of pending
    document changes is forced, then the message is handed to the
    connection in use.  On a client that was never started, or was stopped,
    the whole start is run first, and when the handshake succeeds the
    message goes to the new connection.  [sendProgress] does the same
    without forcing the delivery. *)
Theorem send_starts_client_first (env : SendEnv) (method : string)
    (token : ProgressToken) (c : Client) (feature : Feature)
    (result : InitializeResult) :
  JSMap.get DidChangeTextDocumentNotification_method (_dynamicFeatures c)
    = Some feature →
  forceDelivery_throws env = None →
  connection_send_throws env = None →
  createMessageTransports (send_start env) = Ok tt →
  connection_initialize (send_start env) = Ok result →
  acceptedEncoding result →
  initialized_sent (send_start env) = Ok tt →
  (∀ connection, runningOn connection c →
     sendRequest env method None c =
       (Resolved connection,
        [S_forceDelivery (featureName feature); S_sendRequest connection method],
        (Some feature, c)) ∧
     sendNotification env method None c =
       (Resolved connection,
        [S_forceDelivery (featureName feature);
         S_sendNotification connection method],
        (Some feature, c)) ∧
     sendProgress env token c =
       (Resolved connection, [S_sendProgress connection token], c)) ∧
  (startable c → _state c ≠ ClientState.StartFailed →
   let started := (start (send_start env) c).2 in
   _state started = ClientState.Running ∧
   _connection started = Some (connections c) ∧
   effects started =
     effects c ++ startedEffects (send_start env) (with_onStop None c) ∧
   sendRequest env method None c =
     (Resolved (connections c),
      [S_forceDelivery (featureName feature);
       S_sendRequest (connections c) method],
      (Some feature, started)) ∧
   sendNotification env method None c =
     (Resolved (connections c),
      [S_forceDelivery (featureName feature);
       S_sendNotification (connections c) method],
      (Some feature, started)) ∧
   sendProgress env token c =
     (Resolved (connections c), [S_sendProgress (connections c) token],
      started)).
Proof.
  intros Hfeature Hforce Hsend Htr Hinit Henc Hsent. split.
  - intros connection Hrun.
    unfold sendRequest, sendNotification, sendProgress, forceDocumentSync.
    rewrite (start'_running _ connection c Hrun).
    by rewrite Hfeature, Hforce, Hsend.
  - intros Hc Hs started.
    destruct (start'_fresh (send_start env) c result Hc Hs Htr Hinit Henc Hsent)
      as (Hstart' & _ & Hstate & Hconn & Hdyn & Heff).
    fold started in Hstart', Hstate, Hconn, Hdyn, Heff. clearbody started.
    unfold sendRequest, sendNotification, sendProgress, forceDocumentSync.
    rewrite Hstart', Hdyn, Hfeature, Hforce, Hsend.
    split_and!; done.
Qed.

Lemma send_starts_client_first_witness :
  sendRequest Sample.sendEnv "workspace/symbol" None Sample.syncClient =
  (Resolved 0%nat,
   [S_forceDelivery "didChange"; S_sendRequest 0%nat "workspace/symbol"],
   (Some Sample.didChangeFeature,
    (start (Sample.env (Sample.result None None)) Sample.syncClient).2)).
Proof.
  refine (proj1 (proj2 (proj2 (proj2
            (proj2 (send_starts_client_first Sample.sendEnv "workspace/symbol"
                      (TokenNumber 1) Sample.syncClient Sample.didChangeFeature
                      (Sample.result None None)
                      eq_refl eq_refl eq_refl eq_refl eq_refl
                      (or_introl eq_refl) eq_refl)
               _ _))))).
  - split; [reflexivity|by left].
  - by vm_compute.
Defined.

(** X24.  Once a start has failed the client sends nothing: a request,
    a notification or a progress report on a client in the state
    [StartFailed] is rejected with the error that the previous start
    failed, without another start and without a call on a feature or a
    connection; the failure is logged, and the client stays [StartFailed].
    A rejected [start()] leaves the client in that state. *)
Theorem send_refused_after_failed_start (env : SendEnv) (method : string)
    (token : ProgressToken) (cached : option Feature) (c : Client) :
  _state c = ClientState.StartFailed →
  let refused := Rejected (JSError "Previous start failed. Can't restart server.") in
  sendRequest env method cached c =
    (refused, [],
     (cached,
      emit (LogError ("Sending request " +:+ method +:+ " failed.") (Show true)) c)) ∧
  sendNotification env method cached c =
    (refused, [],
     (cached,
      emit (LogError ("Sending notification " +:+ method +:+ " failed.")
              (Show true)) c)) ∧
  sendProgress env token c =
    (refused, [],
     emit (LogError ("Sending progress for token " +:+ tokenText token +:+ " failed.")
             (Show true)) c) ∧
  (∀ (env' : StartEnv) (c0 : Client) (e : Error),
     startable c0 → (start env' c0).1 = Rejected e →
     _state (start env' c0).2 = ClientState.StartFailed).
Proof.
  intros Hs refused.
  unfold sendRequest, sendNotification, sendProgress.
  rewrite (start'_failed _ c Hs). split_and!; try done.
  intros env' c0 e Hc0 Hrejected.
  rewrite (start_startable env' c0 Hc0) in *.
  set (c1 := with_onStop None c0) in *. clearbody c1.
  destruct (handshake_cases env') as
    [e' Htr|e' Htr Hinit|result encoding Htr Hinit Henc Hne
    |result e' Htr Hinit Henc Hsent|result Htr Hinit Henc Hsent].
  - by rewrite (startNow_unreached env' c1 e').
  - by rewrite (startNow_rejected env' c1 e').
  - by rewrite (startNow_refused env' c1 result encoding).
  - by rewrite (startNow_unsent env' c1 result e').
  - rewrite (startNow_started env' c1 result) in Hrejected by done.
    discriminate.
Qed.

Lemma send_refused_after_failed_start_witness :
  sendProgress Sample.sendEnv (TokenNumber 7) Sample.failedStart =
  (Rejected (JSError "Previous start failed. Can't restart server."), [],
   emit (LogError "Sending progress for token 7 failed." (Show true))
     Sample.failedStart).
Proof.
  exact (proj1 (proj2 (proj2
           (send_refused_after_failed_start Sample.sendEnv "m" (TokenNumber 7)
              None Sample.failedStart ltac:(vm_compute; reflexivity))))).
Defined.

(** X25.  The feature whose delivery is forced is looked up once and then
    kept.  After a request or notification was sent, a feature that is
    registered later for the method of document changes replaces the first
    in [getFeature], but every later send still forces the delivery of the
    first. *)
Theorem forced_feature_is_kept (env : SendEnv) (method method' : string)
    (connection : nat) (c : Client) (first later : Feature) :
  runningOn connection c →
  JSMap.get DidChangeTextDocumentNotification_method (_dynamicFeatures c)
    = Some first →
  registersFor DidChangeTextDocumentNotification_method later →
  forceDelivery_throws env = None →
  connection_send_throws env = None →
  let sent := sendNotification env method None c in
  let c' := registerFeature later sent.2.2 in
  sent.2.1 = Some first ∧
  getFeature DidChangeTextDocumentNotification_method c' = Some later ∧
  sendRequest env method' sent.2.1 c' =
    (Resolved connection,
     [S_forceDelivery (featureName first); S_sendRequest connection method'],
     (Some first, c')).
Proof.
  intros Hrun Hfirst Hlater Hforce Hsend. cbv zeta.
  assert (Hsent : sendNotification env method None c =
                  (Resolved connection,
                   [S_forceDelivery (featureName first);
                    S_sendNotification connection method],
                   (Some first, c))).
  { unfold sendNotification, forceDocumentSync.
    by rewrite (start'_running _ connection c Hrun), Hfirst, Hforce, Hsend. }
  rewrite Hsent. cbn [fst snd].
  destruct later as [|name fills method'' throws]; [done|].
  cbn in Hlater. subst method''.
  split_and!.
  - done.
  - unfold getFeature, registerFeature. fields.
    by rewrite JSMapFacts.get_set_eq.
  - unfold sendRequest, forceDocumentSync.
    rewrite (start'_running _ connection).
    + by rewrite Hforce, Hsend.
    + unfold runningOn, registerFeature. fields. exact Hrun.
Qed.

Lemma forced_feature_is_kept_witness :
  sendRequest Sample.sendEnv "workspace/symbol"
    (sendNotification Sample.sendEnv "custom/ping" None
       (start (Sample.env (Sample.result None None)) Sample.syncClient).2).2.1
    (registerFeature
       (DynamicFeature "didChange2" false "textDocument/didChange" (λ _, None))
       (sendNotification Sample.sendEnv "custom/ping" None
          (start (Sample.env (Sample.result None None)) Sample.syncClient).2).2.2) =
  (Resolved 0%nat,
   [S_forceDelivery "didChange"; S_sendRequest 0%nat "workspace/symbol"],
   (Some Sample.didChangeFeature,
    registerFeature
      (DynamicFeature "didChange2" false "textDocument/didChange" (λ _, None))
      (sendNotification Sample.sendEnv "custom/ping" None
         (start (Sample.env (Sample.result None None)) Sample.syncClient).2).2.2)).
Proof.
  exact (proj2 (proj2
           (forced_feature_is_kept Sample.sendEnv "custom/ping" "workspace/symbol"
              0%nat
              (start (Sample.env (Sample.result None None)) Sample.syncClient).2
              Sample.didChangeFeature
              (DynamicFeature "didChange2" false "textDocument/didChange" (λ _, None))
              ltac:(split_and!; vm_compute; reflexivity)
              eq_refl eq_refl eq_refl eq_refl))).
Defined.

(** X26.  A request or a notification needs the feature that synchronises
    document changes.  On a running client that has no feature for that
    method, either is rejected with the error of the call on [undefined]:
    nothing is handed to the connection, the failure is logged, and the
    next send looks the feature up again.  A progress report does not force
    a delivery and is sent all the same. *)
Theorem send_needs_sync_feature (env : SendEnv) (method : string)
    (token : ProgressToken) (connection : nat) (c : Client) :
  runningOn connection c →
  JSMap.get DidChangeTextDocumentNotification_method (_dynamicFeatures c) = None →
  sendRequest env method None c =
    (Rejected (send_typeError env), [],
     (None,
      emit (LogError ("Sending request " +:+ method +:+ " failed.") (Show true)) c)) ∧
  sendNotification env method None c =
    (Rejected (send_typeError env), [],
     (None,
      emit (LogError ("Sending notification " +:+ method +:+ " failed.")
              (Show true)) c)) ∧
  (connection_send_throws env = None →
   sendProgress env token c =
     (Resolved connection, [S_sendProgress connection token], c)).
Proof.
  intros Hrun Hnone.
  unfold sendRequest, sendNotification, sendProgress, forceDocumentSync.
  rewrite (start'_running _ connection c Hrun), Hnone.
  split_and!; try done. by intros ->.
Qed.

Lemma send_needs_sync_feature_witness :
  sendRequest Sample.sendEnv "workspace/symbol" None Sample.running =
  (Rejected (JSError "Cannot read properties of undefined"), [],
   (None,
    emit (LogError "Sending request workspace/symbol failed." (Show true))
      Sample.running)).
Proof.
  exact (proj1 (send_needs_sync_feature Sample.sendEnv "workspace/symbol"
                  (TokenNumber 1) 0%nat Sample.running
                  ltac:(split_and!; vm_compute; reflexivity) eq_refl)).
Defined.

(** ** A stop before any start *)

Lemma start_fails env c :
  startable c → ¬ handshakeSucceeds env →
  ∃ e, (start env c).1 = Rejected e ∧
       _state (start env c).2 = ClientState.StartFailed ∧
       _onStart (start env c).2 = Some (Rejected e).
Proof.
  intros Hc Hno. rewrite (start_startable env c Hc).
  set (c1 := with_onStop None c). clearbody c1.
  destruct (handshake_cases env) as
    [e Htr|e Htr Hinit|result encoding Htr Hinit Henc Hne
    |result e Htr Hinit Henc Hsent|result Htr Hinit Henc Hsent].
  - rewrite (startNow_unreached env c1 e) by done. by exists e.
  - rewrite (startNow_rejected env c1 e) by done. by exists e.
  - rewrite (startNow_refused env c1 result encoding) by done. by eexists.
  - rewrite (startNow_unsent env c1 result e) by done. by exists e.
  - destruct Hno. split; [done|]. by exists result.
Qed.

(** X15.  A [stop()] on a client that was never started starts the server
    first, to shut it down: when the handshake succeeds the whole start is
    run, the shutdown request is sent on the new connection and the client
    ends [Stopped] and reset.  When the handshake fails the stop is
    rejected with the error of the start, and the client is left
    [StartFailed], not [Stopped]. *)
Theorem stop_before_start_starts_server (env : StopEnv) (timeout : Z)
    (c : Client) :
  _state c = ClientState.Initial →
  startable c →
  let started := start (stop_start env) c in
  (handshakeSucceeds (stop_start env) →
   started.1 = Resolved tt ∧
   _state started.2 = ClientState.Running ∧
   _connection started.2 = Some (connections c) ∧
   stop env timeout c =
     stopSettle (stop_race env) (connections c)
       (stopBegin timeout (connections c) started.2) ∧
   stoppedAndReset (stop env timeout c).2 ∧
   ∃ rest,
     effects (stop env timeout c).2 = effects started.2 ++ rest ∧
     Conn (connections c) C_shutdown ∈ rest) ∧
  (¬ handshakeSucceeds (stop_start env) →
   ∃ e, started.1 = Rejected e ∧
        stop env timeout c = (Rejected e, started.2) ∧
        _state started.2 = ClientState.StartFailed).
Proof.
  intros Hs Hc started. split.
  - intros (Htr & result & Hinit & Henc & Hsent).
    destruct (start'_fresh (stop_start env) c result Hc) as
      (Hstart' & Hresolved & Hstate & Hconn & _ & _); try done.
    { by rewrite Hs. }
    fold started in Hstart', Hresolved, Hstate, Hconn.
    assert (Hstop : stop env timeout c =
              stopSettle (stop_race env) (connections c)
                (stopBegin timeout (connections c) started.2)).
    { unfold stop. rewrite Hs. rewrite !decide_False by done.
      by rewrite Hstart'. }
    clearbody started.
    rewrite Hstop. split_and!; try done.
    + apply stopSettle_reset.
    + rewrite stopSettle_eq, stopBegin_eq.
      unfold stoppedClient, stoppingClient, stopBeginEffects. fields.
      eexists. split; [rewrite <- !app_assoc; reflexivity|].
      repeat (rewrite elem_of_app || rewrite elem_of_cons). tauto.
  - intros Hno.
    destruct (start_fails (stop_start env) c Hc Hno) as (e & Hrejected & Hfailed & _).
    fold started in Hrejected, Hfailed.
    exists e. split_and!; try done.
    unfold stop, start'. rewrite Hs. rewrite !decide_False by done.
    fold started. destruct started as [settled c']. cbn in *. by subst settled.
Qed.

Lemma stop_before_start_starts_server_witness :
  stoppedAndReset (stop (Sample.stopEnv ConnectionWon) 2000 Sample.client).2.
Proof.
  refine (proj1 (proj2 (proj2 (proj2 (proj2
            (proj1 (stop_before_start_starts_server
                      (Sample.stopEnv ConnectionWon) 2000 Sample.client
                      eq_refl (conj eq_refl (or_introl eq_refl)))
               _)))))).
  split; [reflexivity|]. exists (Sample.result None None).
  split_and!; try reflexivity. by left.
Defined.

(** ** A retried initialize *)

Lemma spawned_refused env e c handler :
  initializationFailedHandler (_clientOptions c) = Some handler →
  spawned (refusedEffects env e c) =
  [if handler e then T_initialize (connections c) else T_stop].
Proof.
  intros Hhandler. unfold spawned, refusedEffects. rewrite !omap_app.
  replace (omap _ (connectEffects env c)) with (@nil Task)
    by (symmetry; unfold connectEffects; silent).
  replace (omap _ (progressEffects env c PP_cancel)) with (@nil Task)
    by (symmetry; silent).
  replace (omap _ (stateChange ClientState.Starting ClientState.StartFailed))
    with (@nil Task) by (symmetry; silent).
  unfold initializeFailedEffects. rewrite Hhandler.
  by destruct (handler e).
Qed.

(** A running client whose start promise is rejected. *)
Lemma rejected_start_blocks (c : Client) (e : Error) :
  _onStart c = Some (Rejected e) →
  _state c = ClientState.Running →
  (∀ env, start env c = (Rejected e, c)) ∧
  (∀ (env : SendEnv) method cached,
     sendRequest env method cached c =
     (Rejected e, [],
      (cached,
       emit (LogError ("Sending request " +:+ method +:+ " failed.") (Show true)) c))) ∧
  (∀ (env : SendEnv) method cached,
     sendNotification env method cached c =
     (Rejected e, [],
      (cached,
       emit (LogError ("Sending notification " +:+ method +:+ " failed.")
               (Show true)) c))) ∧
  (∀ (env : StopEnv) timeout, stop env timeout c = (Rejected e, c)).
Proof.
  intros Hstart Hs.
  assert (Hstart' : ∀ env, start' env c = (Rejected e, c)).
  { intros env. unfold start'. rewrite Hs. rewrite decide_False by done.
    by rewrite (start_in_flight env c (Rejected e)). }
  split_and!.
  - intros env. by apply start_in_flight.
  - intros env method cached. unfold sendRequest. by rewrite Hstart'.
  - intros env method cached. unfold sendNotification. by rewrite Hstart'.
  - intros env timeout. unfold stop. rewrite Hs.
    rewrite !decide_False by done. by rewrite Hstart'.
Qed.

(** X22.  When the initialize request fails and the
    [initializationFailedHandler] answers [true], [initialize] is called
    again and the server is not stopped; the start is rejected all the same
    and the client is [StartFailed].  When the retry succeeds, the client is
    [Running] on the connection of the start, but its start promise stays
    rejected: [start()] returns it, and every request, notification and
    [stop()] is rejected with the error of the first attempt, without
    anything sent to the server. *)
Theorem retry_leaves_start_rejected (env retry : StartEnv) (c : Client)
    (handler : Error → bool) (e : Error) (result : InitializeResult) :
  startable c →
  initializationFailedHandler (_clientOptions c) = Some handler →
  handler e = true →
  createMessageTransports env = Ok tt →
  connection_initialize env = Throw e →
  connection_initialize retry = Ok result →
  acceptedEncoding result →
  initialized_sent retry = Ok tt →
  let failed := start env c in
  let retried := initialize retry (connections c) failed.2 in
  failed.1 = Rejected e ∧
  _state failed.2 = ClientState.StartFailed ∧
  (∃ new, effects failed.2 = effects c ++ new ∧
          spawned new = [T_initialize (connections c)]) ∧
  retried.1 = Ok result ∧
  _state retried.2 = ClientState.Running ∧
  _connection retried.2 = Some (connections c) ∧
  _onStart retried.2 = Some (Rejected e) ∧
  (∀ env', start env' retried.2 = (Rejected e, retried.2)) ∧
  (∀ (env' : SendEnv) method cached,
     sendRequest env' method cached retried.2 =
     (Rejected e, [],
      (cached,
       emit (LogError ("Sending request " +:+ method +:+ " failed.") (Show true))
         retried.2))) ∧
  (∀ (env' : SendEnv) method cached,
     sendNotification env' method cached retried.2 =
     (Rejected e, [],
      (cached,
       emit (LogError ("Sending notification " +:+ method +:+ " failed.")
               (Show true)) retried.2))) ∧
  (∀ (env' : StopEnv) timeout,
     stop env' timeout retried.2 = (Rejected e, retried.2)).
Proof.
  intros Hc Hhandler Htrue Htr Hfail Hinit Henc Hsent failed.
  assert (Hfailed : failed.1 = Rejected e ∧
                    _state failed.2 = ClientState.StartFailed ∧
                    _connection failed.2 = Some (connections c) ∧
                    _onStart failed.2 = Some (Rejected e) ∧
                    ∃ new, effects failed.2 = effects c ++ new ∧
                           spawned new = [T_initialize (connections c)]).
  { subst failed. rewrite (start_startable env c Hc).
    rewrite (startNow_rejected env _ e) by done.
    unfold refusedClient, connectedClient. fields.
    split_and!; try done.
    eexists. split; [reflexivity|].
    rewrite (spawned_refused env e _ handler) by done.
    by rewrite Htrue. }
  clearbody failed.
  destruct Hfailed as (Hrejected & Hstate & Hconn & HonStart & Hnew).
  intros retried.
  assert (Hretried : retried.1 = Ok result ∧
                     _state retried.2 = ClientState.Running ∧
                     _connection retried.2 = _connection failed.2 ∧
                     _onStart retried.2 = _onStart failed.2).
  { subst retried.
    rewrite (initialize_started retry (connections c) failed.2 result) by done.
    unfold handshakeClient. by fields. }
  clearbody retried.
  destruct Hretried as (Hok & Hrunning & Hconn' & HonStart').
  rewrite Hconn in Hconn'. rewrite HonStart in HonStart'.
  destruct (rejected_start_blocks retried.2 e HonStart' Hrunning)
    as (H1 & H2 & H3 & H4).
  split_and!; done.
Qed.

Lemma retry_leaves_start_rejected_witness :
  _state (initialize (Sample.env (Sample.result None None)) 0%nat
            (start Sample.notReady Sample.retryClient).2).2
    = ClientState.Running ∧
  _connection (initialize (Sample.env (Sample.result None None)) 0%nat
                 (start Sample.notReady Sample.retryClient).2).2
    = Some 0%nat ∧
  _onStart (initialize (Sample.env (Sample.result None None)) 0%nat
              (start Sample.notReady Sample.retryClient).2).2
    = Some (Rejected (JSError "server not ready")).
Proof.
  pose proof (retry_leaves_start_rejected Sample.notReady
                (Sample.env (Sample.result None None)) Sample.retryClient
                (λ _, true) (JSError "server not ready") (Sample.result None None)
                (conj eq_refl (or_introl eq_refl)) eq_refl eq_refl eq_refl eq_refl
                eq_refl (or_introl eq_refl) eq_refl)
    as (_ & _ & _ & _ & Hrunning & Hconn & HonStart & _).
  exact (conj Hrunning (conj Hconn HonStart)).
Defined.

(** ** The connection wrapper *)

Lemma run_snoc calls entry connection :
  Connection.run (calls ++ [entry]) connection =
  let '(connection, done) := Connection.run calls connection in
  let '(connection, new) := Connection.call entry.1 entry.2 connection in
  (connection, done ++ new).
Proof. unfold Connection.run. by rewrite fold_left_app. Qed.

(** X30.  The wrapper that [createConnection] puts around the protocol
    connection keeps the time of its last use.  After any run of calls
    [lastUsed] is the time of the latest request or notification sent
    through it ([sendRequest], [sendNotification], [initialize], [shutdown]
    or [exit]) unless [resetLastUsed] was called since, and then, as on a
    new connection, it is -1.  Listening, registering handlers, tracing,
    ending, disposing and also [sendProgress] do not count as use.  Every
    member but [resetLastUsed] makes exactly one call on the protocol
    connection. *)
Theorem lastUsed_is_latest_send (calls : list (Z * Connection.Member))
    (connection : Connection.t) :
  let out := Connection.run calls connection in
  Connection.lastUsed createConnection = -1 ∧
  Connection.lastUsed out.1 =
    match last (filter (λ entry, touches entry = true) calls) with
    | None => Connection.lastUsed connection
    | Some (now, member) => if sends member then now else -1
    end ∧
  length out.2 = length (filter (λ entry, forwarded entry = true) calls).
Proof.
  cbv zeta. split; [done|].
  induction calls as [|[now member] calls IH] using rev_ind; [done|].
  rewrite run_snoc, !filter_app, length_app.
  destruct (Connection.run calls connection) as [connection' done].
  destruct IH as [IHused IHcalls]. cbn [fst snd] in *.
  rewrite !filter_cons, !filter_nil.
  destruct member as [| | | | | | | |[argument|]| | | | |];
    cbn [Connection.call touches forwarded sends fst snd Connection.lastUsed];
    repeat case_decide; try done;
    rewrite ?app_nil_r, ?last_snoc, ?length_app; cbn [length];
    (split; [done || exact IHused | lia]).
Qed.

Example sample_lastUsed :
  Connection.lastUsed
    (Connection.run
       [(10, Connection.initialize);
        (20, Connection.sendNotification "initialized");
        (30, Connection.sendProgress (TokenNumber 1));
        (40, Connection.trace None)]
       createConnection).1 = 20.
Proof. reflexivity. Qed.
